(** * scikit-nano: vector algebra, lattices, crystal cells and atom containers

    A shallow embedding of the geometric core of scikit-nano
    ([sknano.core.math._vector], [sknano.core.crystallography._base],
    [sknano.core.crystallography.xtal_cells], [sknano.core.atoms._atoms],
    [sknano.core.atoms.cn_atoms]) together with the properties that the
    design document states about it.

    Conventions of the embedding:
    - a NumPy [float64] is a primitive binary64 float ([PrimFloat.float]);
      the parts of the vector class that only need [+], [-] and [*] are
      written over a [Scalar] interface so that they can also be read
      over exact numbers;
    - a one-dimensional [ndarray] is a [list] of scalars, a 2-D array or
      [np.matrix] a list of rows;
    - a Python call that may raise returns a [result];
    - functions of NumPy's C library ([np.cos], [np.sin], [np.arccos])
      are parameters of the sections that use them. *)

From Stdlib Require Import String ZArith List Bool Floats Lia Permutation Sorted.
Import ListNotations.

Set Warnings "-inexact-float".
Set Implicit Arguments.

(** ** Python results *)

Inductive exn : Type :=
| ValueError
| TypeError
| AttributeError
| OverflowError.

Inductive result (A : Type) : Type :=
| Ok (a : A)
| Raise (e : exn).

Arguments Ok {A} a.
Arguments Raise {A} e.

Definition rbind {A B : Type} (r : result A) (k : A -> result B) : result B :=
  match r with
  | Ok a => k a
  | Raise e => Raise e
  end.

Notation "'do' x <- r ; k" := (rbind r (fun x => k))
  (at level 10, x name, r at level 100, k at level 200).

(** What a call leaves on the terminal or in the warnings machinery. *)
Inductive event : Type :=
| Printed (text : string)
| UserWarning (operation : string).

(** ** Scalars *)

Class Scalar (T : Type) : Type := {
  s_zero : T;
  s_add : T -> T -> T;
  s_sub : T -> T -> T;
  s_mul : T -> T -> T
}.

#[export] Instance Scalar_float : Scalar float := {
  s_zero := 0%float;
  s_add := PrimFloat.add;
  s_sub := PrimFloat.sub;
  s_mul := PrimFloat.mul
}.

#[export] Instance Scalar_Z : Scalar Z := {
  s_zero := 0%Z;
  s_add := Z.add;
  s_sub := Z.sub;
  s_mul := Z.mul
}.

(** Arithmetic without rounding: adding [b] and taking [a] away again
    gives [b] back.  Binary64 satisfies it only up to rounding error. *)
Class ExactScalar (T : Type) {S : Scalar T} : Prop :=
  add_sub_cancel : forall a b : T, s_sub (s_add a b) a = b.

Arguments ExactScalar T {S}.

(** ** NumPy *)

Module np.

Section Arrays.
Context {T : Type}.

(** Element-wise application over two arrays of one shape. *)
Fixpoint zip_with (f : T -> T -> T) (a b : list T) : list T :=
  match a, b with
  | x :: a', y :: b' => f x y :: zip_with f a' b'
  | _, _ => []
  end.

(** Broadcasting of a 1-D array to length [n]: the array already has
    that length, or it has length one and is repeated. *)
Definition broadcast_to (n : nat) (l : list T) : result (list T) :=
  if Nat.eqb (length l) n then Ok l
  else match l with
       | [x] => Ok (repeat x n)
       | _ => Raise ValueError
       end.

(** [ufunc(a, b)] on two 1-D arrays: both are broadcast to a common
    length, then combined element by element. *)
Definition binary (f : T -> T -> T) (a b : list T) : result (list T) :=
  let n := if Nat.eqb (length a) 1 then length b else length a in
  do a' <- broadcast_to n a;
  do b' <- broadcast_to n b;
  Ok (zip_with f a' b').

(** [a op= b]: only [b] is broadcast, the shape of [a] is fixed. *)
Definition inplace (f : T -> T -> T) (a b : list T) : result (list T) :=
  do b' <- broadcast_to (length a) b;
  Ok (zip_with f a b').

(** [a[i] = x] for [i] within bounds. *)
Fixpoint setitem (i : nat) (x : T) (a : list T) : list T :=
  match a, i with
  | [], _ => []
  | _ :: a', O => x :: a'
  | y :: a', S j => y :: setitem j x a'
  end.

End Arrays.

Section Floats.
Local Open Scope float_scope.

Definition pi : float := 0x1.921fb54442d18p+1.

(** [np.radians]: multiplication by the double constant [pi / 180]. *)
Definition radians (x : float) : float := x * (pi / 180).

Definition degrees (x : float) : float := x * (180 / pi).

Definition two52 : float := 0x1p+52.

(** [np.rint]: round to the nearest integer, ties to even. *)
Definition rint (x : float) : float :=
  if abs x <? two52 then
    let r := (abs x + two52) - two52 in
    if (x <? 0) || (1 / x <? 0) then - r else r
  else x.

(** [np.around(x, decimals)] is [rint (x * 10**decimals) / 10**decimals];
    [scale] is the power of ten. *)
Definition around (x : float) (scale : float) : float := rint (x * scale) / scale.

Definition decimals6 : float := 1e6.
Definition decimals10 : float := 1e10.

Definition isfinite (x : float) : bool := abs x <? infinity.

Definition rtol : float := 1e-5.
Definition atol : float := 1e-8.

(** [np.isclose(x, y)] with the default tolerances. *)
Definition isclose (x y : float) : bool :=
  if isfinite x && isfinite y then abs (x - y) <=? atol + rtol * abs y
  else x =? y.

Fixpoint all2 (f : float -> float -> bool) (a b : list float) : bool :=
  match a, b with
  | x :: a', y :: b' => f x y && all2 f a' b'
  | _, _ => true
  end.

(** [np.allclose(a, b)] on 1-D arrays. *)
Definition allclose (a b : list float) : result bool :=
  let n := if Nat.eqb (length a) 1 then length b else length a in
  do a' <- broadcast_to n a;
  do b' <- broadcast_to n b;
  Ok (all2 isclose a' b').

(** [np.dot] of two 1-D arrays; the lengths have to agree. *)
Definition dot (a b : list float) : result float :=
  if Nat.eqb (length a) (length b)
  then Ok (fold_left PrimFloat.add (zip_with PrimFloat.mul a b) 0)
  else Raise ValueError.

(** [a.sum()] *)
Definition sum (a : list float) : float := fold_left PrimFloat.add a 0.

(** What [np.cross] returns for 1-D arrays: a number (a 0-d array)
    for two vectors of the plane, an array of three entries
    otherwise. *)
Inductive cross_value : Type :=
| CrossNumber (c : float)
| CrossArray (a : list float).

(** [np.cross(a, b)] for 1-D arrays: each has two or three entries,
    and a third entry that is missing counts as zero. *)
Definition cross (a b : list float) : result cross_value :=
  match a, b with
  | [a0; a1], [b0; b1] => Ok (CrossNumber (a0 * b1 - a1 * b0))
  | [a0; a1], [b0; b1; b2] =>
      Ok (CrossArray [a1 * b2; - (a0 * b2); a0 * b1 - a1 * b0])
  | [a0; a1; a2], [b0; b1] =>
      Ok (CrossArray [- (a2 * b1); a2 * b0; a0 * b1 - a1 * b0])
  | [a0; a1; a2], [b0; b1; b2] =>
      Ok (CrossArray [a1 * b2 - a2 * b1; a2 * b0 - a0 * b2; a0 * b1 - a1 * b0])
  | _, _ => Raise ValueError
  end.

End Floats.

End np.

(** ** [sknano.core.math._vector] *)

(** Modelled from the spec: [Point] (module [_point], not among the
    sources) is an n-dimensional coordinate tuple built element-wise
    from an array-like, "missing components default to 0".  [Point nd
    coords] keeps the first [nd] coordinates and pads with zeros. *)
Definition Point {T : Type} {S : Scalar T} (nd : nat) (coords : option (list T)) : list T :=
  match coords with
  | None => repeat s_zero nd
  | Some l => firstn nd (l ++ repeat s_zero nd)
  end.

(** [_check_vector_compatibility]: both arguments must have the same
    number of components. *)
Definition _check_vector_compatibility {T : Type} (v1 v2 : list T) : result unit :=
  if Nat.eqb (length v1) (length v2) then Ok tt else Raise ValueError.

Module Vector.

Section Generic.
Context {T : Type} {S : Scalar T}.

(** A [Vector] is an [ndarray] of components that carries its head
    point [_p] and its tail point [_p0]. *)
Record t : Type := mk {
  arr : list T;
  _p : list T;
  _p0 : list T
}.

Definition nd (v : t) : nat := length (arr v).

Definition p (v : t) : list T := _p v.
Definition p0 (v : t) : list T := _p0 v.

(** What a binary operator of the class is applied to. *)
Inductive operand : Type :=
| Number (c : T)
| Vec (w : t)
| Array (a : list T)
| Object.

(** What a binary operator of the class returns. *)
Inductive value : Type :=
| VVector (v : t)
| VNumber (c : T).

(** The three ways [__new__] is entered: from another [Vector], from a
    sequence of components (entries may be [None]), or from end points. *)
Inductive new_args : Type :=
| FromVector (v : t) (p0 : option (list T))
| FromSequence (v : list (option T)) (p0 : option (list T))
| FromPoints (nd : option nat) (p0 : option (list T)) (p : option (list T)).

Definition from_components (v : list T) (p0 : option (list T)) : t :=
  let nd := length v in
  let p0 := Point nd p0 in
  mk v (np.zip_with s_add p0 v) p0.

Definition new (args : new_args) : t :=
  match args with
  | FromVector v None => v
  | FromVector v (Some p0) => from_components (arr v) (Some p0)
  | FromSequence v p0 =>
      from_components
        (map (fun coord => match coord with None => s_zero | Some c => c end) v) p0
  | FromPoints nd p0 p =>
      let nd := match nd with None => 3 | Some n => n end in
      let p := Point nd p in
      let p0 := Point nd p0 in
      mk (np.zip_with s_sub p p0) p p0
  end.

(** [_update_p]: [self._p[:] = self._p0[:] + self.__array__()] *)
Definition _update_p (v : t) : t :=
  mk (arr v) (np.zip_with s_add (_p0 v) (arr v)) (_p0 v).

(** The setter of [p]: [self._p[:] = value; self[:] = self._p - self._p0] *)
Definition set_p (v : t) (value : list T) : result t :=
  do p' <- np.broadcast_to (length (_p v)) value;
  Ok (mk (np.zip_with s_sub p' (_p0 v)) p' (_p0 v)).

(** The setter of [p0]: [self._p0[:] = value; self[:] = self._p - self._p0] *)
Definition set_p0 (v : t) (value : list T) : result t :=
  do p0' <- np.broadcast_to (length (_p0 v)) value;
  Ok (mk (np.zip_with s_sub (_p v) p0') (_p v) p0').

Inductive component : Type := x | y | z.

Definition index (name : component) : nat :=
  match name with x => 0 | y => 1 | z => 2 end.

(** [__setattr__] for the names [x], [y], [z]: in two dimensions [x]
    and [y], in three dimensions all of them, write the component and
    the matching coordinate of the head point; in every other case the
    name becomes an ordinary attribute and the array is left alone. *)
Definition __setattr__ (v : t) (name : component) (value : T) : t :=
  if (Nat.eqb (nd v) 2 && Nat.ltb (index name) 2) || Nat.eqb (nd v) 3
  then
    let i := index name in
    mk (np.setitem i value (arr v))
       (np.setitem i (s_add (nth i (_p0 v) s_zero) value) (_p v))
       (_p0 v)
  else v.

(** [__iadd__] and [__isub__]: the in-place NumPy operation, then
    [_update_p]. *)
Definition inplace_array (f : T -> T -> T) (v : t) (other : operand) : result t :=
  match other with
  | Number c =>
      Ok (_update_p (mk (map (fun a => f a c) (arr v)) (_p v) (_p0 v)))
  | Vec w =>
      do a' <- np.inplace f (arr v) (arr w);
      Ok (_update_p (mk a' (_p v) (_p0 v)))
  | Array a =>
      do a' <- np.inplace f (arr v) a;
      Ok (_update_p (mk a' (_p v) (_p0 v)))
  | Object => Raise TypeError
  end.

Definition __iadd__ : t -> operand -> result t := inplace_array s_add.
Definition __isub__ : t -> operand -> result t := inplace_array s_sub.

(** [__imul__]: a number scales the components in place; for a
    [Vector] the name is rebound to the dot product (or the dimension
    error is printed) and for anything else a warning is issued; in
    both cases the object itself is not touched. *)
Definition __imul__ (v : t) (other : operand) : t * list event :=
  match other with
  | Number c =>
      (_update_p (mk (map (fun a => s_mul a c) (arr v)) (_p v) (_p0 v)), [])
  | Vec w =>
      (v, if Nat.eqb (nd v) (nd w) then [] else [Printed "ValueError"])
  | _ => (v, [UserWarning "multiplication"])
  end.

(** [translate]: [self.p += t], and unless the anchor point is fixed,
    [self.p0 += t]; each statement goes through the property setter. *)
Definition translate (v : t) (t' : list T) (fix_anchor_point : bool) : result t :=
  do p' <- np.inplace s_add (_p v) t';
  do v1 <- set_p v p';
  if fix_anchor_point then Ok v1
  else
    do p0' <- np.inplace s_add (_p0 v1) t';
    set_p0 v1 p0'.

(** [rotate]: both end points are sent through the transform (module
    [_transforms], not among the sources) and assigned back through
    the setters, tail first. *)
Definition rotate (transform : list T -> list T) (v : t) : result t :=
  do v1 <- set_p0 v (transform (p0 v));
  set_p v1 (transform (p v1)).

(** The identity the class maintains: all three arrays have one
    length and the components are head minus tail. *)
Definition consistent (v : t) : Prop :=
  length (_p v) = length (arr v) /\
  length (_p0 v) = length (arr v) /\
  np.zip_with s_sub (p v) (p0 v) = arr v.

(** The same identity as the code establishes it, component by
    component: the component is the difference of head and tail as
    the setters of [p] and [p0] compute it, or the head coordinate is
    the sum of tail and component as [_update_p] and [__setattr__]
    compute it.  In exact arithmetic the two say the same; in binary64
    they differ by the rounding of one operation. *)
Inductive rederived : list T -> list T -> list T -> Prop :=
| rederived_nil : rederived [] [] []
| rederived_cons (a h t' : T) (arr p p0 : list T) :
    s_sub h t' = a \/ h = s_add t' a ->
    rederived arr p p0 ->
    rederived (a :: arr) (h :: p) (t' :: p0).

Definition derived (v : t) : Prop := rederived (arr v) (_p v) (_p0 v).

(** The mutating operations of the class. *)
Inductive mutation : Type :=
| Translate (t' : list T) (fix_anchor_point : bool)
| Rotate (transform : list T -> list T)
| IAdd (other : operand)
| ISub (other : operand)
| IMul (c : T)
| SetComponent (name : component) (value : T)
| SetP (value : list T)
| SetP0 (value : list T).

Definition mutate (v : t) (m : mutation) : result t :=
  match m with
  | Translate t' f => translate v t' f
  | Rotate tr => rotate tr v
  | IAdd o => __iadd__ v o
  | ISub o => __isub__ v o
  | IMul c => Ok (fst (__imul__ v (Number c)))
  | SetComponent n c => Ok (__setattr__ v n c)
  | SetP value => set_p v value
  | SetP0 value => set_p0 v value
  end.

(** [run v ms] is the list of states the object goes through while the
    mutations [ms] are applied in order; a mutation that raises leaves
    the object as it was and ends the sequence. *)
Fixpoint run (v : t) (ms : list mutation) : list t :=
  match ms with
  | [] => []
  | m :: ms' =>
      match mutate v m with
      | Ok v' => v' :: run v' ms'
      | Raise _ => []
      end
  end.

End Generic.

Arguments t T : clear implicits.
Arguments operand T : clear implicits.
Arguments value T : clear implicits.
Arguments new_args T : clear implicits.
Arguments mutation T : clear implicits.

Section Float64.
Local Open Scope float_scope.

(** [np.arccos], a function of the C library. *)
Variable arccos : float -> float.

(** [__pow__] with the number 2 followed by [sum]: NumPy squares
    each component by multiplying it with itself. *)
Definition sum_of_squares (v : t float) : float :=
  np.sum (map (fun c => c * c) (arr v)).

(** [norm]: [np.sqrt((self ** 2).sum())] *)
Definition norm (v : t float) : float := sqrt (sum_of_squares v).

Definition length (v : t float) : float := norm v.

(** [dot] *)
Definition dot (self other : t float) : result float :=
  do _u <- _check_vector_compatibility (arr self) (arr other);
  np.dot (arr self) (arr other).

(** [angle] *)
Definition angle (self other : t float) : result float :=
  do _u <- _check_vector_compatibility (arr self) (arr other);
  do d <- np.dot (arr self) (arr other);
  Ok (arccos (d / (norm self * norm other))).

(** [__mul__] *)
Definition __mul__ (self : t float) (other : operand float)
  : list event * result (value float) :=
  match other with
  | Number c =>
      ([], Ok (VVector (from_components (map (fun a => c * a) (arr self))
                                        (Some (p0 self)))))
  | Vec w =>
      ([Printed "Computing *scalar product* of Vector's"],
       do d <- dot self w; Ok (VNumber d))
  | _ => ([UserWarning "multiplication"], Ok (VVector self))
  end.

(** [+] and [-] are inherited from [ndarray]: the arrays are combined
    under broadcasting and [__array_wrap__] turns the outcome into a
    [Vector] anchored at [self.p0]. *)
Definition ndarray_binary (f : float -> float -> float)
  (self : t float) (other : operand float) : result (t float) :=
  match other with
  | Number c =>
      Ok (from_components (map (fun a => f a c) (arr self)) (Some (p0 self)))
  | Vec w =>
      do r <- np.binary f (arr self) (arr w);
      Ok (from_components r (Some (p0 self)))
  | Array a =>
      do r <- np.binary f (arr self) a;
      Ok (from_components r (Some (p0 self)))
  | Object => Raise TypeError
  end.

Definition __add__ : t float -> operand float -> result (t float) :=
  ndarray_binary PrimFloat.add.
Definition __sub__ : t float -> operand float -> result (t float) :=
  ndarray_binary PrimFloat.sub.

(** [__eq__].  [self is other] compares object identities, which a
    value does not carry: the answer of that test is the argument
    [same_object].  [or] and [and] evaluate from left to right and stop
    as soon as the outcome is known. *)
Definition __eq__ (same_object : bool) (self other : t float) : result bool :=
  if same_object then Ok true
  else
    do c <- np.allclose (arr self) (arr other);
    if negb c then Ok false
    else
      do c0 <- np.allclose (p0 self) (p0 other);
      if negb c0 then Ok false
      else
        do c1 <- np.allclose (p self) (p other);
        Ok c1.

End Float64.

Section Components.
Context {T : Type} {S : Scalar T}.

(** [__getattr__] for the names [x], [y], [z]: with two components
    [x] and [y], with three components all of them, are read from the
    array; [None] stands for every other case, where the name is looked
    up as an ordinary attribute. *)
Definition __getattr__ (v : t T) (name : component) : option T :=
  if (Nat.eqb (nd v) 2 && Nat.ltb (index name) 2) || Nat.eqb (nd v) 3
  then Some (nth (index name) (arr v) s_zero)
  else None.

(** [__deepcopy__]: [self.__class__(self.__array__(), p0=self.p0)] *)
Definition __deepcopy__ (v : t T) : t T :=
  from_components (arr v) (Some (p0 v)).

(** The sequences [__new__] takes components from. *)
Inductive sequence_type : Type :=
| PyList
| PyTuple.

(** The loop of [__new__] over a copy of the sequence,

      for i, coord in enumerate(v[:]):
          if coord is None:
              v[i] = 0.0

    from position [i] on: [copy] is what is left of the copy and [v]
    the sequence of the caller.  A tuple does not take the
    assignment. *)
Fixpoint zero_missing (kind : sequence_type) (i : nat)
  (copy v : list (option T)) : result (list (option T)) :=
  match copy with
  | [] => Ok v
  | Some _ :: copy' => zero_missing kind (Datatypes.S i) copy' v
  | None :: copy' =>
      match kind with
      | PyList => zero_missing kind (Datatypes.S i) copy' (np.setitem i (Some s_zero) v)
      | PyTuple => Raise TypeError
      end
  end.

(** The [try] statement around that loop: the components the vector
    is built from, and the sequence of the caller as it is left.  On
    the [TypeError] the components are [np.zeros(len(v))]; otherwise
    they are [np.asarray(v)]. *)
Definition sequence_components (kind : sequence_type) (v : list (option T))
  : list T * list (option T) :=
  match zero_missing kind 0 v v with
  | Raise _ => (repeat s_zero (List.length v), v)
  | Ok v' =>
      (map (fun coord => match coord with Some c => c | None => s_zero end) v', v')
  end.

(** [Vector(v, p0=p0)] for a list or a tuple [v]. *)
Definition new_from_sequence (kind : sequence_type) (v : list (option T))
  (p0 : option (list T)) : t T :=
  from_components (fst (sequence_components kind v)) p0.

End Components.

Section Float64Methods.
Local Open Scope float_scope.

(** [rezero]:
    [self[np.where(np.abs(self.__array__()) <= epsilon)] = 0.0] *)
Definition rezero (epsilon : float) (v : t float) : t float :=
  mk (map (fun c => if abs c <=? epsilon then 0 else c) (arr v)) (_p v) (_p0 v).

(** [rezero_components] calls [rezero]. *)
Definition rezero_components (epsilon : float) (v : t float) : t float :=
  rezero epsilon v.

(** [__div__], which is also [__truediv__]: a number divides the
    components, and the quotient is a new vector with the tail of
    [self]; for everything else a warning is issued and [self] is
    returned. *)
Definition __div__ (self : t float) (other : operand float)
  : list event * value float :=
  match other with
  | Number c =>
      ([], VVector (from_components (map (fun a => a / c) (arr self))
                                    (Some (p0 self))))
  | _ => ([UserWarning "division"], VVector self)
  end.

(** [__idiv__], which is also [__itruediv__]. *)
Definition __idiv__ (v : t float) (other : operand float) : t float * list event :=
  match other with
  | Number c =>
      (_update_p (mk (map (fun a => a / c) (arr v)) (_p v) (_p0 v)), [])
  | _ => (v, [UserWarning "division"])
  end.

(** [unit_vector]: [self / self.norm], with warnings switched off;
    the norm is a number, so the division is the first case of
    [__div__]. *)
Definition unit_vector (v : t float) : t float :=
  from_components (map (fun a => a / norm v) (arr v)) (Some (p0 v)).

(** [normalize]: [self[:] = self.unit_vector] *)
Definition normalize (v : t float) : t float :=
  mk (arr (unit_vector v)) (_p v) (_p0 v).

(** [__lt__]: [self.norm < other.norm] *)
Definition __lt__ (self other : t float) : bool := norm self <? norm other.

(** [__le__]: [self < other or self == other] *)
Definition __le__ (same_object : bool) (self other : t float) : result bool :=
  if __lt__ self other then Ok true else __eq__ same_object self other.

(** [__gt__]: [not (self < other or self == other)] *)
Definition __gt__ (same_object : bool) (self other : t float) : result bool :=
  do c <- __le__ same_object self other; Ok (negb c).

(** [__ge__]: [not (self < other)] *)
Definition __ge__ (self other : t float) : bool := negb (__lt__ self other).

(** [__ne__]: [not self == other] *)
Definition __ne__ (same_object : bool) (self other : t float) : result bool :=
  do c <- __eq__ same_object self other; Ok (negb c).

(** [cross] *)
Definition cross (self other : t float) : result (value float) :=
  do _u <- _check_vector_compatibility (arr self) (arr other);
  do val <- np.cross (arr self) (arr other);
  match val with
  | np.CrossNumber c => Ok (VNumber c)
  | np.CrossArray a => Ok (VVector (from_components a (Some (p0 self))))
  end.

End Float64Methods.

End Vector.

(** Module-level [dot(u, v)]: [np.dot(np.asarray(u), np.asarray(v))] *)
Definition dot (u v : Vector.t float) : result float :=
  np.dot (Vector.arr u) (Vector.arr v).

(** Module-level [angle(u, v)]:
    [np.arccos(dot(u, v) / (u.norm * v.norm))] *)
Definition angle (arccos : float -> float) (u v : Vector.t float) : result float :=
  do d <- dot u v;
  Ok (arccos (d / (Vector.norm u * Vector.norm v))%float).

(** Module-level [cross(u, v, p0=None)] *)
Definition cross (u v : Vector.t float) (p0 : option (list float))
  : result (Vector.value float) :=
  do val <- np.cross (Vector.arr u) (Vector.arr v);
  let p0 := match p0 with None => Vector.p0 u | Some p0 => p0 end in
  match val with
  | np.CrossNumber c => Ok (Vector.VNumber c)
  | np.CrossArray a => Ok (Vector.VVector (Vector.from_components a (Some p0)))
  end.

(** [scalar_projection(a, b)]: [dot(a, b) / b.norm] *)
Definition scalar_projection (a b : Vector.t float) : result float :=
  do d <- dot a b;
  Ok (d / Vector.norm b)%float.

(** [vector_projection(a, b)]: [dot(a, b) / dot(b, b) * b]; the
    product of the number and [b] is [b.__rmul__], which is [__mul__]
    with a number: [Vector(other * self.__array__(), p0=self.p0)]. *)
Definition vector_projection (a b : Vector.t float) : result (Vector.t float) :=
  do ab <- dot a b;
  do bb <- dot b b;
  Ok (Vector.from_components
        (map (fun c => ((ab / bb) * c)%float) (Vector.arr b))
        (Some (Vector.p0 b))).

(** [vector_rejection(a, b)]: [a - vector_projection(a, b)] *)
Definition vector_rejection (a b : Vector.t float) : result (Vector.t float) :=
  do a1 <- vector_projection a b;
  Vector.__sub__ a (Vector.Vec a1).

(** ** [sknano.core.crystallography._base] *)

(** A 2-D array or [np.matrix], as the list of its rows. *)
Definition matrix : Type := list (list float).

(** What a caller may hand to a method that expects coordinates:
    [None], or a sequence of numbers. *)
Inductive array_like : Type :=
| PyNone
| PySequence (coords : list float).

Module linalg.

Section Matrices.
Local Open Scope float_scope.

Definition nrows (m : matrix) : nat := length m.

Definition ncols (m : matrix) : nat :=
  match m with
  | [] => 0
  | r :: _ => length r
  end.

(** Column [j] of a matrix. *)
Definition column (j : nat) (m : matrix) : list float :=
  map (fun r => nth j r 0) m.

(** [m.T] *)
Definition transpose (m : matrix) : matrix :=
  map (fun j => column j m) (seq 0 (ncols m)).

(** Sum of products of a row with a column. *)
Definition inner (r c : list float) : float :=
  fold_left PrimFloat.add (np.zip_with PrimFloat.mul r c) 0.

(** [m1 * m2] on [np.matrix]: the matrix product; every row of [m1]
    has to be as long as [m2] has rows. *)
Definition matmul (m1 m2 : matrix) : result matrix :=
  if forallb (fun r => Nat.eqb (length r) (nrows m2)) m1
  then Ok (map (fun r => map (fun j => inner r (column j m2)) (seq 0 (ncols m2))) m1)
  else Raise ValueError.

Definition shape (m : matrix) : nat * nat := (nrows m, ncols m).

(** [np.asarray(v).reshape(3, 1)]: the array must hold three numbers;
    [np.asarray(None)] is an array with a single (object) entry. *)
Definition reshape_3_1 (v : array_like) : result matrix :=
  match v with
  | PySequence [c1; c2; c3] => Ok [[c1]; [c2]; [c3]]
  | _ => Raise ValueError
  end.

(** [m + a] for a column matrix [m] (shape [(n, 1)]) and a 1-D array
    [a] (shape [(k,)]): broadcasting gives shape [(n, k)]. *)
Definition add_column_row (m : matrix) (a : list float) : matrix :=
  map (fun r => map (fun o => nth 0 r 0 + o) a) m.

Definition identity3 : matrix := [[1; 0; 0]; [0; 1; 0]; [0; 0; 1]].

End Matrices.

End linalg.

Module CrystalLattice.

Section Lattice.
Local Open Scope float_scope.

(** [np.cos], [np.sin] and [np.arccos] call the C library;
    [np.linalg.inv] calls LAPACK. *)
Variables cos sin arccos : float -> float.
Variable inv : matrix -> matrix.

Record t : Type := mk {
  offset : Vector.t float;
  orientation_matrix : matrix;
  a : float;
  b : float;
  c : float;
  _alpha : float;
  _beta : float;
  _gamma : float
}.

Definition alpha (L : t) : float := np.around (_alpha L) np.decimals6.
Definition beta (L : t) : float := np.around (_beta L) np.decimals6.
Definition gamma (L : t) : float := np.around (_gamma L) np.decimals6.

Definition cos_alpha (L : t) : float :=
  np.around (cos (np.radians (alpha L))) np.decimals6.
Definition cos_beta (L : t) : float :=
  np.around (cos (np.radians (beta L))) np.decimals6.
Definition cos_gamma (L : t) : float :=
  np.around (cos (np.radians (gamma L))) np.decimals6.

Definition sin_alpha (L : t) : float :=
  np.around (sin (np.radians (alpha L))) np.decimals6.
Definition sin_beta (L : t) : float :=
  np.around (sin (np.radians (beta L))) np.decimals6.
Definition sin_gamma (L : t) : float :=
  np.around (sin (np.radians (gamma L))) np.decimals6.

Definition cos_alpha_star (L : t) : float :=
  np.around ((cos_beta L * cos_gamma L - cos_alpha L) /
             (sin_beta L * sin_gamma L)) np.decimals6.
Definition cos_beta_star (L : t) : float :=
  np.around ((cos_gamma L * cos_alpha L - cos_beta L) /
             (sin_gamma L * sin_alpha L)) np.decimals6.
Definition cos_gamma_star (L : t) : float :=
  np.around ((cos_alpha L * cos_beta L - cos_gamma L) /
             (sin_alpha L * sin_beta L)) np.decimals6.

(** [x ** 2] *)
Definition square (x : float) : float := x * x.

Definition sin_alpha_star (L : t) : float := sqrt (1 - square (cos_alpha_star L)).
Definition sin_beta_star (L : t) : float := sqrt (1 - square (cos_beta_star L)).
Definition sin_gamma_star (L : t) : float := sqrt (1 - square (cos_gamma_star L)).

Definition ortho_matrix (L : t) : matrix :=
  let m11 := a L in
  let m12 := b L * cos_gamma L in
  let m13 := c L * cos_beta L in
  let m22 := b L * sin_gamma L in
  let m23 := c L * (cos_alpha L - cos_beta L * cos_gamma L) / sin_gamma L in
  let m33 := c L * sin_alpha L * sin_beta L * sin_gamma_star L / sin_gamma L in
  map (map (fun e => np.around e np.decimals10))
      [[m11; m12; m13];
       [0; m22; m23];
       [0; 0; m33]].

Definition fractional_matrix (L : t) : matrix := inv (ortho_matrix L).

Definition cell_volume (L : t) : float :=
  a L * b L * c L *
  sqrt (1 - square (cos_alpha L) - square (cos_beta L) - square (cos_gamma L)
        + 2 * cos_alpha L * cos_beta L * cos_gamma L).

Definition a1 (L : t) : list float := linalg.column 0 (ortho_matrix L).
Definition a2 (L : t) : list float := linalg.column 1 (ortho_matrix L).
Definition a3 (L : t) : list float := linalg.column 2 (ortho_matrix L).

(** [fractional_to_cartesian] *)
Definition fractional_to_cartesian (L : t) (v : array_like) : result matrix :=
  do v' <- linalg.reshape_3_1 v;
  do m <- linalg.matmul (orientation_matrix L) (ortho_matrix L);
  do mv <- linalg.matmul m v';
  Ok (linalg.add_column_row mv (Vector.arr (offset L))).

(** [cartesian_to_fractional]: the body is [pass], so the call returns
    [None] whatever the lattice and the point. *)
Definition cartesian_to_fractional (L : t) (v : array_like) : array_like := PyNone.

(** The two complete ways of calling [__init__]: with the six lattice
    parameters (and possibly a cell matrix), or with three lattice
    vectors. *)
Inductive init_args : Type :=
| Parameters (a b c alpha beta gamma : float)
    (cell_matrix : option matrix) (orientation_matrix : option matrix)
| LatticeVectors (a1 a2 a3 : list float) (orientation_matrix : option matrix).

Definition with_cell_matrix (L : t) (cell_matrix : matrix) : result t :=
  do o <- linalg.matmul (linalg.transpose cell_matrix) (inv (ortho_matrix L));
  Ok (mk (offset L) o (a L) (b L) (c L) (_alpha L) (_beta L) (_gamma L)).

Definition __init__ (args : init_args) : result t :=
  let offset := Vector.from_components [0; 0; 0] None in
  let orientation o :=
    match o with None => linalg.identity3 | Some m => m end in
  match args with
  | Parameters a b c alpha beta gamma cell_matrix o =>
      let L := mk offset (orientation o) a b c alpha beta gamma in
      match cell_matrix with
      | None => Ok L
      | Some cm => with_cell_matrix L cm
      end
  | LatticeVectors v1 v2 v3 o =>
      let a1 := Vector.from_components v1 None in
      let a2 := Vector.from_components v2 None in
      let a3 := Vector.from_components v3 None in
      do alpha <- Vector.angle arccos a2 a3;
      do beta <- Vector.angle arccos a3 a1;
      do gamma <- Vector.angle arccos a1 a2;
      with_cell_matrix
        (mk offset (orientation o) (Vector.length a1) (Vector.length a2)
            (Vector.length a3) (np.degrees alpha) (np.degrees beta)
            (np.degrees gamma))
        [v1; v2; v3]
  end.

End Lattice.

End CrystalLattice.

(** A C library for the two angles the examples need: around
    [pi / 2] the cosine is the sine of the distance to [pi / 2], taken
    with the low part of [pi / 2], and the sine is its cosine. *)
Module SampleLibm.

Section Functions.
Local Open Scope float_scope.

Definition pio2_hi : float := 0x1.921fb54442d18p+0.
Definition pio2_lo : float := 0x1.1a62633145c07p-54.

Definition reduce (x : float) : float := (pio2_hi - x) + pio2_lo.

Definition cos (x : float) : float :=
  let r := reduce x in
  r - r * r * r / 6 + r * r * r * r * r / 120.

Definition sin (x : float) : float :=
  let r := reduce x in
  1 - r * r / 2 + r * r * r * r / 24.

(** Outside of [[-1, 1]] and on a NaN the arc cosine is a NaN; inside,
    a short series around zero, kept within [[0, pi]]. *)
Definition arccos (x : float) : float :=
  if (-1 <=? x) && (x <=? 1)
  then
    let a := pio2_hi - (x + x * x * x / 6 + 3 * x * x * x * x * x / 40) in
    if (0 <=? a) && (a <=? np.pi) then a else pio2_hi
  else nan.

End Functions.

End SampleLibm.

(** ** [sknano.core.crystallography.xtal_cells] *)

(** An array of integers, one- or two-dimensional. *)
Inductive int_array : Type :=
| A1 (entries : list Z)
| A2 (rows : list (list Z)).

(** A matrix of integers, as the list of its rows. *)
Definition imatrix : Type := list (list Z).

(** What may be assigned to [scaling_matrix].  Array entries are
    integers, as the class documents them. *)
Inductive scaling_value : Type :=
| SNone
| SInt (n : Z)
| SFloat (x : float)
| STuple (a : int_array)
| SList (a : int_array)
| SNdarray (a : int_array)
| SObject.

Module ints.

Definition eye3 : imatrix := [[1; 0; 0]; [0; 1; 0]; [0; 0; 1]]%Z.

Definition list_eqb (l1 l2 : list Z) : bool :=
  Nat.eqb (length l1) (length l2) && forallb (fun xy => Z.eqb (fst xy) (snd xy)) (combine l1 l2).

Definition imatrix_eqb (m1 m2 : imatrix) : bool :=
  Nat.eqb (length m1) (length m2) &&
  forallb (fun rs => list_eqb (fst rs) (snd rs)) (combine m1 m2).

(** [int(x)] for a float: truncation towards zero; a NaN raises
    [ValueError] and an infinity [OverflowError]. *)
Definition int (x : float) : result Z :=
  match Prim2SF x with
  | S754_zero _ => Ok 0%Z
  | S754_finite s m e =>
      let mag := if (0 <=? e)%Z then Z.shiftl (Zpos m) e else Z.shiftr (Zpos m) (- e) in
      Ok (if s then (- mag)%Z else mag)
  | S754_infinity _ => Raise OverflowError
  | S754_nan => Raise ValueError
  end.

(** The range of the entries of an array of [dtype=int] (64 bits). *)
Definition int64_min : Z := (- 2 ^ 63)%Z.
Definition int64_max : Z := (2 ^ 63 - 1)%Z.

Definition fits_int64 (k : Z) : bool :=
  ((int64_min <=? k) && (k <=? int64_max))%Z.

(** The float of an integer of the 64-bit range. *)
Definition to_float (n : Z) : float :=
  match n with
  | Z0 => 0%float
  | Zpos _ => PrimFloat.of_uint63 (Uint63.of_Z n)
  | Zneg p =>
      PrimFloat.opp (if (Zpos p <=? int64_max)%Z
                     then PrimFloat.of_uint63 (Uint63.of_Z (Zpos p))
                     else 0x1p+63%float)
  end.

(** [np.asmatrix(value, dtype=int)]: a 1-D array becomes a single row;
    the rows of a 2-D array must have one length ([ValueError]
    otherwise), and every entry must fit into 64 bits
    ([OverflowError] otherwise). *)
Definition asmatrix (a : int_array) : result imatrix :=
  do m <- match a with
          | A1 l => Ok [l]
          | A2 [] => Ok [[]]
          | A2 (r :: rs) =>
              if forallb (fun r' => Nat.eqb (length r') (length r)) rs
              then Ok (r :: rs) else Raise ValueError
          end;
  if forallb (forallb fits_int64) m then Ok m else Raise OverflowError.

Definition shape (m : imatrix) : nat * nat :=
  (length m, match m with [] => 0 | r :: _ => length r end).

(** Row [i] of the diagonal matrix with diagonal [d]. *)
Definition diag_row (d : list Z) (i : nat) : list Z :=
  map (fun j => if Nat.eqb i j then nth i d 0%Z else 0%Z) (seq 0 (length d)).

(** [np.diagflat(m)]: the entries of [m], row after row, on the
    diagonal of a square matrix. *)
Definition diagflat (m : imatrix) : imatrix :=
  let d := concat m in
  map (diag_row d) (seq 0 (length d)).

(** The determinant of a 3 x 3 matrix. *)
Definition det (m : imatrix) : Z :=
  match m with
  | [[a; b; c]; [d; e; f]; [g; h; i]] =>
      (a * (e * i - f * h) - b * (d * i - f * g) + c * (d * h - e * g))%Z
  | _ => 0%Z
  end.

(** The matrix as an array of floats. *)
Definition to_matrix (m : imatrix) : matrix := map (map to_float) m.

End ints.

Module xtal_cells.

(** The matrix the setter of [scaling_matrix] makes of a value, for a
    lattice of dimension [n] whose matrix has the shape [shape]:

      if isinstance(value, numbers.Number):
          value = self.lattice.nd * [int(value)]
      scaling_matrix = np.asmatrix(value, dtype=int)
      if scaling_matrix.shape != self.lattice.matrix.shape:
          scaling_matrix = np.diagflat(scaling_matrix) *)
Definition normalized (n : nat) (shape : nat * nat) (value : scaling_value)
  : result imatrix :=
  do a <- match value with
          | SInt k => Ok (A1 (repeat k n))
          | SFloat x => do k <- ints.int x; Ok (A1 (repeat k n))
          | STuple a | SList a | SNdarray a => Ok a
          | SNone | SObject => Raise TypeError
          end;
  do m <- ints.asmatrix a;
  Ok (if (Nat.eqb (fst (ints.shape m)) (fst shape)
          && Nat.eqb (snd (ints.shape m)) (snd shape))%bool
      then m else ints.diagflat m).

Section Cells.

(** The lattice class ([Crystal3DLattice] and its relatives, module
    [_xtal_lattices]), the atom class [BasisAtom] with its Cartesian
    position [r], and [supercell_lattice_points] (module [extras]) are
    not among the sources: the cell classes are written over them. *)
Variable Lattice : Type.
Variable nd : Lattice -> nat.
Variable lattice_matrix : Lattice -> matrix.
(** [lattice.__class__(cell_matrix=m)] *)
Variable from_cell_matrix : Lattice -> matrix -> Lattice.
Variable cartesian_to_fractional : Lattice -> list float -> list float.
Variable wrap_fractional_coordinate : Lattice -> list float -> list float.
Variable supercell_lattice_points : imatrix -> matrix.

(** A lattice object: the value of the lattice and the identity of
    the object that holds it. *)
Record lattice_object : Type := mk_lattice {
  lattice_id : nat;
  lattice_value : Lattice
}.

Record BasisAtom : Type := mk_atom {
  element : string;
  mol : Z;
  id : Z;
  atom_lattice : option lattice_object;
  xs : float;
  ys : float;
  zs : float
}.

Variable r : BasisAtom -> list float.

(** A [BasisAtoms] container: its [lattice] attribute and its atoms. *)
Record BasisAtoms : Type := mk_atoms {
  atoms_lattice : option lattice_object;
  data : list BasisAtom
}.

(** A reference to a [BasisAtoms] container in the store. *)
Definition ref : Type := nat.

Record UnitCell : Type := mk_unit_cell {
  uc_lattice : option lattice_object;
  uc_basis : ref;
  uc_wrap_coords : bool
}.

Record CrystalCell : Type := mk_cell {
  _basis : option ref;
  _lattice : option lattice_object;
  _unit_cell : option UnitCell;
  wrap_coords : bool;
  _scaling_matrix : option imatrix
}.

(** An object before [__init__] has run. *)
Definition blank : CrystalCell := mk_cell None None None false None.

(** What may be passed as [unit_cell]. *)
Inductive unit_cell_arg : Type :=
| UCNone
| UCObject (U : UnitCell)
| UCOther.

(** The state a method of a cell runs in: the cell itself, the
    containers allocated so far (a reference is a position in the
    list), and the number of lattice objects created so far. *)
Record world : Type := mk_world {
  self : CrystalCell;
  containers : list BasisAtoms;
  lattices : nat
}.

(** A method: it leaves a world behind also when it raises. *)
Definition M (A : Type) : Type := world -> result A * world.

Definition ret {A : Type} (a : A) : M A := fun w => (Ok a, w).

Definition bind {A B : Type} (c : M A) (k : A -> M B) : M B :=
  fun w =>
    match c w with
    | (Ok a, w') => k a w'
    | (Raise e, w') => (Raise e, w')
    end.

Definition raise {A : Type} (e : exn) : M A := fun w => (Raise e, w).

Definition lift {A : Type} (x : result A) : M A := fun w => (x, w).

Definition get_self : M CrystalCell := fun w => (Ok (self w), w).

Definition update_self (f : CrystalCell -> CrystalCell) : M unit :=
  fun w => (Ok tt, mk_world (f (self w)) (containers w) (lattices w)).

(** [BasisAtoms(...)]: a new container. *)
Definition new_container (b : BasisAtoms) : M ref :=
  fun w => (Ok (length (containers w)),
            mk_world (self w) (containers w ++ [b]) (lattices w)).

Definition read_container (a : ref) : M BasisAtoms :=
  fun w =>
    match nth_error (containers w) a with
    | Some b => (Ok b, w)
    | None => (Raise AttributeError, w)
    end.

Definition update_container (a : ref) (f : BasisAtoms -> BasisAtoms) : M unit :=
  fun w =>
    match nth_error (containers w) a with
    | Some b => (Ok tt, mk_world (self w)
                          (firstn a (containers w) ++ f b :: skipn (S a) (containers w))
                          (lattices w))
    | None => (Raise AttributeError, w)
    end.

(** A call of the lattice constructor: a new lattice object. *)
Definition new_lattice (L : Lattice) : M lattice_object :=
  fun w => (Ok (mk_lattice (lattices w) L),
            mk_world (self w) (containers w) (S (lattices w))).

Fixpoint for_each {A : Type} (l : list A) (body : A -> M unit) : M unit :=
  match l with
  | [] => ret tt
  | a :: l' => bind (body a) (fun _ => for_each l' body)
  end.

Notation "x <- c ;; k" := (bind c (fun x => k))
  (at level 100, c at next level, right associativity).
Notation "c ;; k" := (bind c (fun _ => k))
  (at level 100, right associativity).

(** [xs, ys, zs = coords] *)
Definition unpack3 (coords : list float) : result (float * float * float) :=
  match coords with
  | [c1; c2; c3] => Ok (c1, c2, c3)
  | _ => Raise ValueError
  end.

(** The setter of [basis]. *)
Definition set_basis (value : option ref) : M unit :=
  update_self (fun s => mk_cell value (_lattice s) (_unit_cell s)
                                (wrap_coords s) (_scaling_matrix s)).

(** The setter of [lattice]: the basis, when there is one, is given
    the same lattice. *)
Definition set_lattice (value : option lattice_object) : M unit :=
  update_self (fun s => mk_cell (_basis s) value (_unit_cell s)
                                (wrap_coords s) (_scaling_matrix s)) ;;
  s <- get_self ;;
  match _basis s with
  | Some a => update_container a (fun b => mk_atoms (_lattice s) (data b))
  | None => ret tt
  end.

(** The setter of [unit_cell]. *)
Definition set_unit_cell (value : unit_cell_arg) : M unit :=
  match value with
  | UCOther => raise ValueError
  | UCNone =>
      update_self (fun s => mk_cell (_basis s) (_lattice s) None
                                    (wrap_coords s) (_scaling_matrix s))
  | UCObject U =>
      update_self (fun s => mk_cell (_basis s) (_lattice s) (Some U)
                                    (wrap_coords s) (_scaling_matrix s)) ;;
      update_self (fun s =>
        match _basis s with
        | None => mk_cell (Some (uc_basis U)) (_lattice s) (_unit_cell s)
                          (wrap_coords s) (_scaling_matrix s)
        | Some _ => s
        end) ;;
      update_self (fun s =>
        match _lattice s with
        | None => mk_cell (_basis s) (uc_lattice U) (_unit_cell s)
                          (wrap_coords s) (_scaling_matrix s)
        | Some _ => s
        end)
  end.

Definition store_scaling_matrix (m : imatrix) : M unit :=
  update_self (fun s => mk_cell (_basis s) (_lattice s) (_unit_cell s)
                                (wrap_coords s) (Some m)).

(** [isinstance(value, (int, float, tuple, list, np.ndarray))] *)
Definition supported (value : scaling_value) : bool :=
  match value with
  | SInt _ | SFloat _ | STuple _ | SList _ | SNdarray _ => true
  | SNone | SObject => false
  end.

(** The test of the short cut: an [ndarray] of shape [(3,)] close to
    all ones, or of shape [(3, 3)] close to the identity. *)
Definition is_identity_ndarray (value : scaling_value) : bool :=
  match value with
  | SNdarray (A1 l) => ints.list_eqb l [1; 1; 1]%Z
  | SNdarray (A2 m) => ints.imatrix_eqb m ints.eye3
  | _ => false
  end.

(** [max(set(basis.mols))] *)
Definition max_mol (basis : list BasisAtom) : result Z :=
  match basis with
  | [] => Raise ValueError
  | a :: l => Ok (fold_left Z.max (map mol l) (mol a))
  end.

(** The body of the two loops of the setter: one replica of [atom]
    for the translation number [i]. *)
Definition replicate (L : lattice_object) (wrap : bool) (top : Z)
  (atom : BasisAtom) (i_tvec : nat * list float) : M unit :=
  let (i, tvec) := i_tvec in
  pos <- lift (np.binary PrimFloat.add (r atom) tvec) ;;
  c <- lift (unpack3 (cartesian_to_fractional (lattice_value L) pos)) ;;
  c' <- (if wrap
         then let '(x, y, z) := c in
              lift (unpack3 (wrap_fractional_coordinate (lattice_value L) [x; y; z]))
         else ret c) ;;
  let '(x, y, z) := c' in
  let m := (Z.of_nat i * top + mol atom)%Z in
  s <- get_self ;;
  match _basis s with
  | Some a =>
      update_container a (fun b =>
        mk_atoms (atoms_lattice b)
                 (data b ++ [mk_atom (element atom) m (id atom) (Some L) x y z]))
  | None => raise AttributeError
  end.

(** The setter of [scaling_matrix]. *)
Definition set_scaling_matrix (value : scaling_value) : M unit :=
  match value with
  | SNone => store_scaling_matrix ints.eye3
  | _ =>
    if negb (supported value) then ret tt
    else
      s <- get_self ;;
      match _lattice s with
      | None => ret tt
      | Some L =>
        if is_identity_ndarray value then
          match value with
          | SNdarray a => m <- lift (ints.asmatrix a) ;; store_scaling_matrix m
          | _ => ret tt
          end
        else
          m <- lift (normalized (nd (lattice_value L))
                                (linalg.shape (lattice_matrix (lattice_value L)))
                                value) ;;
          store_scaling_matrix m ;;
          cell_matrix <- lift (linalg.matmul (ints.to_matrix m)
                                             (lattice_matrix (lattice_value L))) ;;
          L' <- new_lattice (from_cell_matrix (lattice_value L) cell_matrix) ;;
          set_lattice (Some L') ;;
          tvecs <- lift (linalg.matmul (supercell_lattice_points m)
                                       (lattice_matrix (lattice_value L'))) ;;
          s <- get_self ;;
          match _basis s with
          | None => raise TypeError
          | Some old =>
              b <- read_container old ;;
              let basis := data b in
              top <- lift (max_mol basis) ;;
              fresh <- new_container (mk_atoms None []) ;;
              set_basis (Some fresh) ;;
              for_each basis (fun atom =>
                for_each (combine (seq 0 (length tvecs)) tvecs)
                         (replicate L' (wrap_coords s) top atom))
          end
      end
  end.

(** [atom.lattice = lattice; atom.rs = pos] (or the fractional
    coordinates of a Cartesian [pos]). *)
Definition place (lattice : lattice_object) (cartesian : bool)
  (atom : BasisAtom) (pos : list float) : result BasisAtom :=
  do c <- unpack3 (if cartesian
                   then cartesian_to_fractional (lattice_value lattice) pos
                   else pos);
  let '(x, y, z) := c in
  Ok (mk_atom (element atom) (mol atom) (id atom) (Some lattice) x y z).

Fixpoint place_all (lattice : lattice_object) (cartesian : bool)
  (basis : list BasisAtom) (coords : list (list float)) : result (list BasisAtom) :=
  match basis, coords with
  | atom :: basis', pos :: coords' =>
      do atom' <- place lattice cartesian atom pos;
      do rest <- place_all lattice cartesian basis' coords';
      Ok (atom' :: rest)
  | _, _ => Ok []
  end.

(** [CrystalCell.__init__] *)
Definition CrystalCell_init (lattice : option lattice_object)
  (basis : option (list BasisAtom)) (coords : option (list (list float)))
  (cartesian wrap : bool) (unit_cell : unit_cell_arg)
  (scaling_matrix : scaling_value) : M unit :=
  basis' <- match basis with
            | None => ret None
            | Some atoms =>
                atoms' <- lift (match lattice, coords with
                                | Some L, Some cs =>
                                    if Nat.eqb (length atoms) (length cs)
                                    then place_all L cartesian atoms cs
                                    else Ok atoms
                                | _, _ => Ok atoms
                                end) ;;
                a <- new_container (mk_atoms lattice atoms') ;;
                ret (Some a)
            end ;;
  set_basis basis' ;;
  set_lattice lattice ;;
  set_unit_cell unit_cell ;;
  update_self (fun s => mk_cell (_basis s) (_lattice s) (_unit_cell s)
                                wrap (_scaling_matrix s)) ;;
  set_scaling_matrix scaling_matrix.

(** [SuperCell.__init__] *)
Definition SuperCell_init (unit_cell : unit_cell_arg)
  (scaling_matrix : scaling_value) (wrap : bool) : M unit :=
  match unit_cell with
  | UCObject _ =>
      if supported scaling_matrix
      then CrystalCell_init None None None false wrap unit_cell scaling_matrix
      else raise ValueError
  | _ => raise ValueError
  end.

(** [update_lattice_and_basis]: the two attributes are written
    directly, not through their setters. *)
Definition update_lattice_and_basis (to_unit_cell : bool)
  (from_unit_cell : option UnitCell) : M unit :=
  if to_unit_cell then
    update_self (fun s =>
      match _unit_cell s with
      | Some U => mk_cell (Some (uc_basis U)) (uc_lattice U) (_unit_cell s)
                          (wrap_coords s) (_scaling_matrix s)
      | None => s
      end)
  else
    match from_unit_cell with
    | Some U =>
        update_self (fun s => mk_cell (Some (uc_basis U)) (uc_lattice U) (_unit_cell s)
                                      (wrap_coords s) (_scaling_matrix s))
    | None => ret tt
    end.

(** The body of the loop of [translate_basis]: the atom is built anew
    at [atom.rs + t], the fractional position [rs] being the three
    coordinates [xs], [ys] and [zs] that [atom.rs = pos] has set. *)
Definition shifted (t : list float) (wrap : bool) (atom : BasisAtom) : M unit :=
  pos <- lift (np.binary PrimFloat.add [xs atom; ys atom; zs atom] t) ;;
  c <- lift (unpack3 pos) ;;
  s <- get_self ;;
  c' <- (if wrap
         then match _lattice s with
              | Some L =>
                  let '(x, y, z) := c in
                  lift (unpack3 (wrap_fractional_coordinate (lattice_value L) [x; y; z]))
              | None => raise AttributeError
              end
         else ret c) ;;
  let '(x, y, z) := c' in
  match _basis s with
  | Some a =>
      update_container a (fun b =>
        mk_atoms (atoms_lattice b)
                 (data b ++ [mk_atom (element atom) (mol atom) (id atom)
                                     (_lattice s) x y z]))
  | None => raise AttributeError
  end.

(** [translate_basis] *)
Definition translate_basis (t : list float) (cartesian wrap : bool) : M unit :=
  s <- get_self ;;
  t' <- (if cartesian
         then match _lattice s with
              | Some L => ret (cartesian_to_fractional (lattice_value L) t)
              | None => raise AttributeError
              end
         else ret t) ;;
  match _basis s with
  | None => raise TypeError
  | Some old =>
      b <- read_container old ;;
      fresh <- new_container (mk_atoms None []) ;;
      set_basis (Some fresh) ;;
      for_each (data b) (shifted t' wrap)
  end.

(** [np.allclose] on two matrices of integers of one shape. *)
Definition allclose_int (m m' : imatrix) : bool :=
  np.all2 np.isclose (map ints.to_float (concat m)) (map ints.to_float (concat m')).

(** [CrystalCell.__eq__]; [None] is the value of a call that runs off
    the end of the function.  The comparison of two unit cells looks
    at their lattices and bases, whose classes are not among the
    sources: it is the argument [unit_cell_eq].  A cell on which the
    setter has never stored a matrix has no attribute
    [_scaling_matrix], and reading it fails. *)
Definition __eq__ (unit_cell_eq : UnitCell -> UnitCell -> bool)
  (same_object : bool) (self other : CrystalCell) : result (option bool) :=
  match _scaling_matrix self, _scaling_matrix other with
  | Some m, Some m' =>
      match _unit_cell self, _unit_cell other with
      | Some U, Some U' =>
          if (Nat.eqb (fst (ints.shape m)) (fst (ints.shape m'))
              && Nat.eqb (snd (ints.shape m)) (snd (ints.shape m')))%bool
          then Ok (Some (same_object || (unit_cell_eq U U' && allclose_int m m')))%bool
          else Ok (Some (same_object || (unit_cell_eq U U' && false)))%bool
      | _, _ => Ok None
      end
  | _, _ => Raise AttributeError
  end.

(** The atoms of the basis of the cell. *)
Definition basis_atoms (w : world) : option (list BasisAtom) :=
  match _basis (self w) with
  | Some a => option_map data (nth_error (containers w) a)
  | None => None
  end.

(** The atoms of the basis of a unit cell. *)
Definition unit_cell_atoms (U : UnitCell) (w : world) : option (list BasisAtom) :=
  option_map data (nth_error (containers w) (uc_basis U)).

(** What an atom carries besides its position: element, molecule
    id, atom id and lattice. *)
Definition labels (atom : BasisAtom) : string * Z * Z * option lattice_object :=
  (element atom, mol atom, id atom, atom_lattice atom).

(** Two worlds with the same cell, the same number of lattice objects
    and the same number of containers. *)
Definition same_objects (w w' : world) : Prop :=
  self w' = self w /\ lattices w' = lattices w /\
  length (containers w') = length (containers w).

(** The basis of the cell is the container [a], which holds [n] atoms. *)
Definition holds (w : world) (a : ref) (n : nat) : Prop :=
  _basis (self w) = Some a /\
  exists b, nth_error (containers w) a = Some b /\ length (data b) = n.

End Cells.

End xtal_cells.

(** ** [sknano.core.atoms._atoms] and [sknano.core.atoms.cn_atoms] *)

Module py.

(** The values the attributes of an atom take. *)
Inductive item : Type :=
| KInt (n : Z)
| KFloat (x : float)
| KStr (s : string).

(** A sort key: one such value, or a tuple of them. *)
Inductive key_value : Type :=
| Item (i : item)
| KTuple (items : list item).

(** [i1 == i2] *)
Definition item_eq (i1 i2 : item) : bool :=
  match i1, i2 with
  | KInt n1, KInt n2 => Z.eqb n1 n2
  | KFloat x1, KFloat x2 => PrimFloat.eqb x1 x2
  | KStr s1, KStr s2 => String.eqb s1 s2
  | _, _ => false
  end.

(** [i1 < i2] *)
Definition item_lt (i1 i2 : item) : bool :=
  match i1, i2 with
  | KInt n1, KInt n2 => Z.ltb n1 n2
  | KFloat x1, KFloat x2 => PrimFloat.ltb x1 x2
  | KStr s1, KStr s2 => String.ltb s1 s2
  | _, _ => false
  end.

(** [t1 < t2] on tuples: they compare at the first position where
    they differ, and a proper prefix is smaller. *)
Fixpoint tuple_lt (l1 l2 : list item) : bool :=
  match l1, l2 with
  | [], [] => false
  | [], _ :: _ => true
  | _ :: _, [] => false
  | i1 :: l1', i2 :: l2' =>
      if item_eq i1 i2 then tuple_lt l1' l2' else item_lt i1 i2
  end.

(** [k1 < k2] *)
Definition lt (k1 k2 : key_value) : bool :=
  match k1, k2 with
  | Item i1, Item i2 => item_lt i1 i2
  | KTuple l1, KTuple l2 => tuple_lt l1 l2
  | _, _ => false
  end.

Section Sort.
Context {A : Type}.
Variable key : A -> key_value.

(** [a] goes in front of the first element that is not smaller. *)
Fixpoint insert (a : A) (l : list A) : list A :=
  match l with
  | [] => [a]
  | b :: l' => if lt (key b) (key a) then b :: insert a l' else a :: b :: l'
  end.

Definition sorted_copy (l : list A) : list A := fold_right insert [] l.

(** [list.sort(key=key, reverse=reverse)]: a stable sort on the keys;
    with [reverse] the list is reversed before and after, so that
    equal keys keep their order. *)
Definition list_sort (reverse : bool) (l : list A) : list A :=
  if reverse then rev (sorted_copy (rev l)) else sorted_copy l.

(** A set of elements (those on which [p] is true) none of which has
    a key below the key of another: the elements are tied. *)
Definition tied (p : A -> bool) : Prop :=
  forall a b, p a = true -> p b = true -> lt (key a) (key b) = false.

End Sort.

Section Lists.
Context {A : Type}.

(** What indexing a list gives: the item, or [IndexError]. *)
Inductive lookup (B : Type) : Type :=
| Found (b : B)
| IndexError.

Arguments Found {B} b.
Arguments IndexError {B}.

(** The position an integer index stands for in a list of [n] items:
    a negative index counts from the end; [None] when it is out of
    range. *)
Definition position (n : nat) (index : Z) : option nat :=
  let i := if (index <? 0)%Z then (index + Z.of_nat n)%Z else index in
  if ((0 <=? i) && (i <? Z.of_nat n))%Z then Some (Z.to_nat i) else None.

(** [l[index]] *)
Definition list_getitem (l : list A) (index : Z) : lookup A :=
  match position (length l) index with
  | Some i => match nth_error l i with Some a => Found a | None => IndexError end
  | None => IndexError
  end.

(** [l[index] = a] *)
Definition list_setitem (l : list A) (index : Z) (a : A) : lookup (list A) :=
  match position (length l) index with
  | Some i => Found (firstn i l ++ a :: skipn (S i) l)
  | None => IndexError
  end.

(** [del l[index]] *)
Definition list_delitem (l : list A) (index : Z) : lookup (list A) :=
  match position (length l) index with
  | Some i => Found (firstn i l ++ skipn (S i) l)
  | None => IndexError
  end.

(** The range of [Py_ssize_t] (64 bits), the type [list.insert]
    converts its index to. *)
Definition ssize_t_min : Z := (- 2 ^ 63)%Z.
Definition ssize_t_max : Z := (2 ^ 63 - 1)%Z.

(** [l.insert(index, a)]: an index that does not fit into
    [Py_ssize_t] raises [OverflowError]; a negative index counts from
    the end, and an index beyond either end is moved to that end. *)
Definition list_insert (l : list A) (index : Z) (a : A) : result (list A) :=
  if ((ssize_t_min <=? index) && (index <=? ssize_t_max))%Z then
    let n := Z.of_nat (length l) in
    let i := if (index <? 0)%Z then Z.max 0 (index + n) else Z.min index n in
    Ok (firstn (Z.to_nat i) l ++ a :: skipn (Z.to_nat i) l)
  else Raise OverflowError.

End Lists.

Arguments Found {B} b.
Arguments IndexError {B}.

(** A [dict] with integer keys and counts as values, in the order in
    which the keys were first set. *)
Definition counts : Type := list (Z * nat).

(** [d.get(k, default)] *)
Fixpoint dict_get (d : counts) (k : Z) (default : nat) : nat :=
  match d with
  | [] => default
  | (k', n) :: d' => if Z.eqb k' k then n else dict_get d' k default
  end.

(** [d[k] = n] *)
Fixpoint dict_set (d : counts) (k : Z) (n : nat) : counts :=
  match d with
  | [] => [(k, n)]
  | (k', n') :: d' => if Z.eqb k' k then (k', n) :: d' else (k', n') :: dict_set d' k n
  end.

(** [collections.Counter(iterable)]: for every element,
    [self[elem] = self.get(elem, 0) + 1]. *)
Definition Counter (iterable : list Z) : counts :=
  fold_left (fun d elem => dict_set d elem (dict_get d elem 0 + 1)) iterable [].

(** [c[k]] on a [Counter]: a key that is missing counts zero. *)
Definition Counter_getitem (c : counts) (k : Z) : nat := dict_get c k 0.

End py.

Module Atom.

(** The attributes of an atom that the orderings look at, and its
    position. *)
Record t : Type := mk {
  element : string;
  Z : BinNums.Z;
  x : float;
  y : float;
  z : float;
  CN : BinNums.Z
}.

End Atom.

Inductive attribute : Type :=
| attr_element
| attr_Z
| attr_z
| attr_CN.

Definition getattr (a : Atom.t) (name : attribute) : py.item :=
  match name with
  | attr_element => py.KStr (Atom.element a)
  | attr_Z => py.KInt (Atom.Z a)
  | attr_z => py.KFloat (Atom.z a)
  | attr_CN => py.KInt (Atom.CN a)
  end.

(** [operator.attrgetter]: one name gives the attribute, several
    names give the tuple of the attributes. *)
Definition attrgetter (names : list attribute) (a : Atom.t) : py.key_value :=
  match names with
  | [name] => py.Item (getattr a name)
  | _ => py.KTuple (map (getattr a) names)
  end.

Module Atoms.

(** [Atoms.sort(key=None, reverse=False)] on the list [_data]. *)
Definition sort (key : option (Atom.t -> py.key_value)) (reverse : bool)
  (_data : list Atom.t) : list Atom.t :=
  match key with
  | None => py.list_sort (attrgetter [attr_element; attr_Z; attr_z]) reverse _data
  | Some k => py.list_sort k reverse _data
  end.

(** [__len__] and [Natoms]: [len(self._data)] *)
Definition __len__ (_data : list Atom.t) : nat := length _data.
Definition Natoms (_data : list Atom.t) : nat := length _data.

(** [__getitem__]: [self._data[index]], for an integer index. *)
Definition __getitem__ (_data : list Atom.t) (index : BinNums.Z) : py.lookup Atom.t :=
  py.list_getitem _data index.

(** [__setitem__]: [self._data[index] = atom] *)
Definition __setitem__ (_data : list Atom.t) (index : BinNums.Z) (atom : Atom.t)
  : py.lookup (list Atom.t) :=
  py.list_setitem _data index atom.

(** [__delitem__]: [del self._data[index]] *)
Definition __delitem__ (_data : list Atom.t) (index : BinNums.Z)
  : py.lookup (list Atom.t) :=
  py.list_delitem _data index.

(** [insert]: [self._data.insert(index, atom)] *)
Definition insert (_data : list Atom.t) (index : BinNums.Z) (atom : Atom.t)
  : result (list Atom.t) :=
  py.list_insert _data index atom.

(** [append], which [MutableSequence] supplies:
    [self.insert(len(self), value)] *)
Definition append (_data : list Atom.t) (atom : Atom.t) : result (list Atom.t) :=
  insert _data (Z.of_nat (__len__ _data)) atom.

End Atoms.

Module CNAtoms.

(** An argument with a default: left out, or given. *)
Inductive argument (A : Type) : Type :=
| Omitted
| Given (a : A).

Arguments Omitted {A}.
Arguments Given {A} a.

(** [CNAtoms.sort(key=attrgetter('CN'), reverse=False)] *)
Definition sort (key : argument (option (Atom.t -> py.key_value)))
  (reverse : bool) (_data : list Atom.t) : list Atom.t :=
  let key := match key with
             | Omitted => Some (attrgetter [attr_CN])
             | Given k => k
             end in
  Atoms.sort key reverse _data.

(** [coordination_numbers]: [np.asarray([atom.CN for atom in self])] *)
Definition coordination_numbers (_data : list Atom.t) : list BinNums.Z :=
  map Atom.CN _data.

(** [coordination_number_counts]: [Counter(self.coordination_numbers)];
    [coordination_counts] and [CN_counts] return the same. *)
Definition coordination_number_counts (_data : list Atom.t) : py.counts :=
  py.Counter (coordination_numbers _data).

Definition coordination_counts (_data : list Atom.t) : py.counts :=
  coordination_number_counts _data.

Definition CN_counts (_data : list Atom.t) : py.counts :=
  coordination_number_counts _data.

End CNAtoms.

(** ** [sknano.core.structures.graphene] *)

Module graphene.

Section Layers.
Local Open Scope float_scope.

(** What may be passed as [layer_rotation_angles]: [None], a number,
    or a sequence of numbers. *)
Inductive angles : Type :=
| AnglesNone
| AnglesNumber (x : float)
| AnglesSequence (l : list float).

(** [np.arange(n)], [np.ones(n)] and [np.zeros(n)] as arrays of
    floats. *)
Definition arange (n : nat) : list float :=
  map (fun k => ints.to_float (Z.of_nat k)) (seq 0 n).
Definition ones (n : nat) : list float := repeat 1 n.
Definition zeros (n : nat) : list float := repeat 0 n.

(** The rotation angles that [GrapheneBase.__init__] stores in
    [self.layer_rotation_angles], after the keyword arguments
    [deg2rad] and [layer_rotation_angle] have taken the place of
    [degrees] and [layer_rotation_angles] when they are given. *)
Definition layer_rotation_angles (nlayers : nat)
  (layer_rotation_angles : angles) (layer_rotation_increment : option float)
  (degrees : bool) (deg2rad : option bool) (layer_rotation_angle : option angles)
  : list float :=
  let degrees := match deg2rad with Some d => d | None => degrees end in
  let layer_rotation_angles :=
    match layer_rotation_angle with Some a => a | None => layer_rotation_angles end in
  let '(layer_rotation_angles, degrees) :=
    match layer_rotation_increment, layer_rotation_angles with
    | Some increment, AnglesNone =>
        (map (fun k => increment * k) (arange nlayers), degrees)
    | _, AnglesNumber x => (map (fun one => x * one) (ones nlayers), degrees)
    | _, AnglesNone => (zeros nlayers, false)
    | _, AnglesSequence l =>
        if Nat.eqb (length l) nlayers then (l, degrees) else (zeros nlayers, false)
    end in
  if degrees then map np.radians layer_rotation_angles else layer_rotation_angles.

End Layers.

End graphene.

(** The key of [CNAtoms.sort] and the order it stands for. *)
Definition CN_key : Atom.t -> py.key_value := attrgetter [attr_CN].

Definition CN_le (a b : Atom.t) : Prop := (Atom.CN a <= Atom.CN b)%Z.

(** ** A lattice class to run the cell classes with

    A lattice with orthogonal axes along the coordinate axes, given by
    the three cell lengths. *)

Module SampleLattice.

Section Orthogonal.
Local Open Scope float_scope.

Record t : Type := mk { la : float; lb : float; lc : float }.

Definition nd (L : t) : nat := 3.

Definition lattice_matrix (L : t) : matrix :=
  [[la L; 0; 0]; [0; lb L; 0]; [0; 0; lc L]].

Definition entry (i j : nat) (m : matrix) : float := nth j (nth i m []) 0.

Definition from_cell_matrix (L : t) (m : matrix) : t :=
  mk (entry 0 0 m) (entry 1 1 m) (entry 2 2 m).

Definition cartesian_to_fractional (L : t) (pos : list float) : list float :=
  [nth 0 pos 0 / la L; nth 1 pos 0 / lb L; nth 2 pos 0 / lc L].

(** The largest integer not above [x]. *)
Definition floor (x : float) : float :=
  let n := np.rint x in
  if x <? n then n - 1 else n.

Definition wrap_fractional_coordinate (L : t) (p : list float) : list float :=
  [nth 0 p 0 - floor (nth 0 p 0);
   nth 1 p 0 - floor (nth 1 p 0);
   nth 2 p 0 - floor (nth 2 p 0)].

Definition r (atom : xtal_cells.BasisAtom t) : list float :=
  match xtal_cells.atom_lattice atom with
  | Some L =>
      let L := xtal_cells.lattice_value L in
      [xtal_cells.xs atom * la L; xtal_cells.ys atom * lb L; xtal_cells.zs atom * lc L]
  | None => [xtal_cells.xs atom; xtal_cells.ys atom; xtal_cells.zs atom]
  end.

End Orthogonal.

(** Modelled from the spec: [supercell_lattice_points] (module
    [extras], not among the sources) enumerates "the integer
    lattice-translation vectors contained in the scaled cell (one
    translation vector per unit cell that tiles the supercell - the
    count equals det(scaling_matrix))".  For a diagonal scaling matrix
    these are the points [(i, j, k)] of the block spanned by the
    diagonal. *)
Definition supercell_lattice_points (m : imatrix) : matrix :=
  let n i := Z.abs_nat (nth i (nth i m []) 0%Z) in
  flat_map (fun i =>
    flat_map (fun j =>
      map (fun k => [ints.to_float (Z.of_nat i); ints.to_float (Z.of_nat j);
                     ints.to_float (Z.of_nat k)])
          (seq 0 (n 2)))
      (seq 0 (n 1)))
    (seq 0 (n 0)).

(** A run of a cell method over this lattice class. *)
Definition run {A : Type}
  (method : (t -> nat) -> (t -> matrix) -> (t -> matrix -> t) ->
            (t -> list float -> list float) -> (t -> list float -> list float) ->
            (imatrix -> matrix) -> (xtal_cells.BasisAtom t -> list float) -> A) : A :=
  method nd lattice_matrix from_cell_matrix cartesian_to_fractional
         wrap_fractional_coordinate supercell_lattice_points r.

(** Graphene-like data: a cell of 2.46 x 4.26 x 10, two carbon atoms. *)
Definition lattice0 : xtal_cells.lattice_object t :=
  xtal_cells.mk_lattice 0 (mk 2.46 4.26 10).

Definition carbon (x y z : float) : xtal_cells.BasisAtom t :=
  xtal_cells.mk_atom "C" 1 0 (Some lattice0) x y z.

Definition basis0 : xtal_cells.BasisAtoms t :=
  xtal_cells.mk_atoms (Some lattice0) [carbon 0 0 0; carbon 0.5 0.5 0].

Definition unit_cell0 : xtal_cells.UnitCell t :=
  xtal_cells.mk_unit_cell (Some lattice0) 0 false.

(** The world in which [unit_cell0] exists and a cell is about to be
    initialised. *)
Definition world0 : xtal_cells.world t :=
  xtal_cells.mk_world (xtal_cells.blank t) [basis0] 1.

End SampleLattice.

(** ** Vectors of zero length *)

(** A component that is zero, of either sign. *)
Definition is_zero (c : float) : Prop := c = 0%float \/ c = (-0)%float.

(** What becomes of a zero in products and sums: a zero or a NaN. *)
Definition zero_or_nan (c : float) : Prop :=
  c = 0%float \/ c = (-0)%float \/ c = nan.

(** All components of the vector are zero. *)
Definition zero_length (v : Vector.t float) : Prop :=
  Forall is_zero (Vector.arr v).

(** ** Sample data *)

Module Samples.

(** The rotation by a quarter turn about the third axis. *)
Definition quarter_turn (pt : list Z) : list Z :=
  match pt with
  | [a; b; c] => [(- b)%Z; a; c]
  | _ => pt
  end.

Definition sample_mutations : list (Vector.mutation Z) :=
  [Vector.Translate [1; 2; 3]%Z false;
   Vector.Rotate quarter_turn;
   Vector.IAdd (Vector.Number 2%Z);
   Vector.ISub (Vector.Array [1; 1; 1]%Z);
   Vector.IMul 3%Z;
   Vector.SetComponent Vector.y 7%Z;
   Vector.SetP [0; 0; 1]%Z;
   Vector.SetP0 [5]%Z;
   Vector.Translate [1; 0; 0]%Z true].

Definition sample_args : Vector.new_args Z :=
  Vector.FromSequence [Some 1%Z; None; Some 3%Z] (Some [1; 1; 1]%Z).

Section Float64.
Local Open Scope float_scope.

(** [Vector([1, 2, 3])] *)
Definition v123 : Vector.t float :=
  Vector.new (Vector.FromSequence [Some 1; Some 2; Some 3] None).

(** [Vector([1, 2, 3], p0=[1, 1, 1])] *)
Definition v123_anchored : Vector.t float :=
  Vector.new (Vector.FromSequence [Some 1; Some 2; Some 3] (Some [1; 1; 1])).

(** [Vector([1, 2, 3, 4])] *)
Definition v1234 : Vector.t float :=
  Vector.new (Vector.FromSequence [Some 1; Some 2; Some 3; Some 4] None).

(** [Vector([0, 0, 0], p0=[0.1, 0, 0])] *)
Definition v_tenth : Vector.t float :=
  Vector.new (Vector.FromSequence [Some 0; Some 0; Some 0] (Some [0.1; 0; 0])).

(** [Vector([0, 0, 0])] *)
Definition v000 : Vector.t float :=
  Vector.new (Vector.FromSequence [Some 0; Some 0; Some 0] None).

(** [v = Vector([0, 0, 0])] followed by [v.p0 = [1e20, 0, 0]],
    [v.p = [1e20, 0, 0]] and [v += 1]. *)
Definition far_args : Vector.new_args float :=
  Vector.FromSequence [Some 0; Some 0; Some 0] None.

Definition far_mutations : list (Vector.mutation float) :=
  [Vector.SetP0 [1e20; 0; 0]; Vector.SetP [1e20; 0; 0];
   Vector.IAdd (Vector.Number 1)].

(** [Vector([1, 1, 1])] *)
Definition v111 : Vector.t float :=
  Vector.new (Vector.FromSequence [Some 1; Some 1; Some 1] None).

(** [Vector([3, 4, 0])] *)
Definition v340 : Vector.t float :=
  Vector.new (Vector.FromSequence [Some 3; Some 4; Some 0] None).

(** [Vector([1e-12, 1, 0])] *)
Definition v_small : Vector.t float :=
  Vector.new (Vector.FromSequence [Some 1e-12; Some 1; Some 0] None).

(** [Vector([1, 0, 0])] and [Vector([0, 1, 0])] *)
Definition v100 : Vector.t float :=
  Vector.new (Vector.FromSequence [Some 1; Some 0; Some 0] None).
Definition v010 : Vector.t float :=
  Vector.new (Vector.FromSequence [Some 0; Some 1; Some 0] None).

End Float64.

Definition scaling_2_2_1 : imatrix := [[2; 0; 0]; [0; 2; 0]; [0; 0; 1]]%Z.

(** The cell that [CrystalCell(unit_cell=unit_cell0, scaling_matrix=v)]
    leaves behind. *)
Definition built (v : scaling_value) : result unit * xtal_cells.world SampleLattice.t :=
  SampleLattice.run
    (fun nd lattice_matrix from_cell_matrix cartesian_to_fractional
         wrap_fractional_coordinate supercell_lattice_points r =>
       xtal_cells.CrystalCell_init nd lattice_matrix from_cell_matrix
         cartesian_to_fractional wrap_fractional_coordinate
         supercell_lattice_points r None None None false false
         (xtal_cells.UCObject SampleLattice.unit_cell0) v)
    SampleLattice.world0.

(** The setter, run on the world that [built v] has left. *)
Definition then_assign (v v' : scaling_value)
  : result unit * xtal_cells.world SampleLattice.t :=
  SampleLattice.run
    (fun nd lattice_matrix from_cell_matrix cartesian_to_fractional
         wrap_fractional_coordinate supercell_lattice_points r =>
       xtal_cells.set_scaling_matrix nd lattice_matrix from_cell_matrix
         cartesian_to_fractional wrap_fractional_coordinate
         supercell_lattice_points r v')
    (snd (built v)).

(** Four carbon atoms and a boron atom with their coordination
    numbers. *)
Definition atoms0 : list Atom.t :=
  [Atom.mk "C" 6 0 0 2 3; Atom.mk "C" 6 1 0 1 2; Atom.mk "B" 5 0 1 0 3;
   Atom.mk "C" 6 1 1 0 1; Atom.mk "C" 6 2 0 0 3]%float.

End Samples.

(** * Properties *)

(** ** Arrays *)

Section ArrayFacts.
Context {T : Type}.

Lemma zip_with_length (f : T -> T -> T) (a b : list T) :
  length a = length b -> length (np.zip_with f a b) = length a.
Proof.
  revert b; induction a as [|u a IH]; intros [|w b] H; simpl in *; try congruence.
  now rewrite IH by congruence.
Qed.

Lemma broadcast_to_length (n : nat) (l l' : list T) :
  np.broadcast_to n l = Ok l' -> length l' = n.
Proof.
  unfold np.broadcast_to.
  destruct (Nat.eqb_spec (length l) n) as [E|E].
  - intros [= <-]; exact E.
  - destruct l as [|u [|w l]]; try discriminate.
    intros [= <-]; apply repeat_length.
Qed.

Lemma inplace_length (f : T -> T -> T) (a b r : list T) :
  np.inplace f a b = Ok r -> length r = length a.
Proof.
  unfold np.inplace.
  destruct (np.broadcast_to (length a) b) as [b'|e] eqn:E; simpl; try discriminate.
  intros [= <-]. apply zip_with_length.
  symmetry; eapply broadcast_to_length; eassumption.
Qed.

Lemma setitem_length (i : nat) (u : T) (a : list T) :
  length (np.setitem i u a) = length a.
Proof.
  revert i; induction a as [|w a IH]; intros [|i]; simpl; auto.
Qed.

Lemma zip_with_setitem (f : T -> T -> T) (d : T) (i : nat) (u : T) (a b : list T) :
  length a = length b ->
  np.zip_with f (np.setitem i u a) b
  = np.setitem i (f u (nth i b d)) (np.zip_with f a b).
Proof.
  revert i b; induction a as [|w a IH]; intros i [|w' b] H; simpl in *;
    try congruence.
  - now destruct i.
  - destruct i as [|i]; simpl; [reflexivity|].
    f_equal. apply IH. congruence.
Qed.

End ArrayFacts.

(** ** The identity between components, head and tail *)

Section VectorIdentity.
Context {T : Type} {S : Scalar T}.

Lemma nth_setitem_same (i : nat) (u d : T) (a : list T) :
  i < List.length a -> nth i (np.setitem i u a) d = u.
Proof.
  revert i; induction a as [|w a IH]; intros [|i] H; simpl in *; try lia.
  - reflexivity.
  - apply IH. lia.
Qed.

Lemma rederived_length (a p p0 : list T) :
  Vector.rederived a p p0 -> length p = length a /\ length p0 = length a.
Proof. induction 1; simpl; [auto|]. destruct IHrederived. split; congruence. Qed.

Lemma rederived_sub (p p0 : list T) :
  length p = length p0 -> Vector.rederived (np.zip_with s_sub p p0) p p0.
Proof.
  revert p0; induction p as [|h p IH]; intros [|t' p0] H; simpl in *;
    try discriminate; constructor; auto.
Qed.

Lemma rederived_add (a p0 : list T) :
  length p0 = length a -> Vector.rederived a (np.zip_with s_add p0 a) p0.
Proof.
  revert a; induction p0 as [|t' p0 IH]; intros [|a0 a] H; simpl in *;
    try discriminate; constructor; auto.
Qed.

Lemma rederived_setitem (i : nat) (c : T) (a p p0 : list T) :
  Vector.rederived a p p0 ->
  Vector.rederived (np.setitem i c a)
                   (np.setitem i (s_add (nth i p0 s_zero) c) p) p0.
Proof.
  intros H; revert i; induction H as [|a0 h t' a p p0 Hc H IH]; intros [|i];
    simpl; constructor; auto.
Qed.

Lemma rederived_exact {E : ExactScalar T} (a p p0 : list T) :
  Vector.rederived a p p0 -> np.zip_with s_sub p p0 = a.
Proof.
  induction 1 as [|a0 h t' a p p0 Hc H IH]; simpl; [reflexivity|].
  f_equal; [|exact IH].
  destruct Hc as [Hc | ->]; [exact Hc|apply add_sub_cancel].
Qed.

(** Without rounding, a vector whose components have been derived
    in either way satisfies [p - p0 = components]. *)
Lemma derived_consistent {E : ExactScalar T} (v : Vector.t T) :
  Vector.derived v -> Vector.consistent v.
Proof.
  intros H. destruct (rederived_length H) as (Hp & Hp0).
  repeat split; auto. now apply rederived_exact.
Qed.

Lemma Point_length (n : nat) (coords : option (list T)) :
  length (Point n coords) = n.
Proof.
  destruct coords as [l|]; simpl.
  - rewrite length_firstn, length_app, repeat_length. lia.
  - apply repeat_length.
Qed.

Lemma from_components_derived (v : list T) (p0 : option (list T)) :
  Vector.derived (Vector.from_components v p0).
Proof. apply rederived_add, Point_length. Qed.

Lemma _update_p_derived (a p p0 : list T) :
  length p0 = length a -> Vector.derived (Vector._update_p (Vector.mk a p p0)).
Proof. intros H. now apply rederived_add. Qed.

Lemma set_p_derived (v v' : Vector.t T) (value : list T) :
  Vector.derived v -> Vector.set_p v value = Ok v' -> Vector.derived v'.
Proof.
  intros H. destruct (rederived_length H) as (Hp & Hp0). unfold Vector.set_p.
  destruct (np.broadcast_to _ value) as [p'|e] eqn:B; simpl; try discriminate.
  intros [= <-]. apply broadcast_to_length in B.
  apply rederived_sub. simpl. congruence.
Qed.

Lemma set_p0_derived (v v' : Vector.t T) (value : list T) :
  Vector.derived v -> Vector.set_p0 v value = Ok v' -> Vector.derived v'.
Proof.
  intros H. destruct (rederived_length H) as (Hp & Hp0). unfold Vector.set_p0.
  destruct (np.broadcast_to _ value) as [p0'|e] eqn:B; simpl; try discriminate.
  intros [= <-]. apply broadcast_to_length in B.
  apply rederived_sub. simpl. congruence.
Qed.

Lemma __setattr___derived (v : Vector.t T) (name : Vector.component) (value : T) :
  Vector.derived v -> Vector.derived (Vector.__setattr__ v name value).
Proof.
  intros H. unfold Vector.__setattr__.
  destruct (_ || _); [|exact H]. now apply rederived_setitem.
Qed.

Lemma inplace_array_derived (f : T -> T -> T) (v v' : Vector.t T)
  (other : Vector.operand T) :
  Vector.derived v -> Vector.inplace_array f v other = Ok v' ->
  Vector.derived v'.
Proof.
  intros H. destruct (rederived_length H) as (Hp & Hp0).
  unfold Vector.inplace_array.
  destruct other as [c|w|a|]; simpl.
  - intros [= <-]. apply _update_p_derived. now rewrite length_map.
  - destruct (np.inplace f _ _) as [a'|e] eqn:I; simpl; try discriminate.
    intros [= <-]. apply _update_p_derived.
    apply inplace_length in I. congruence.
  - destruct (np.inplace f _ _) as [a'|e] eqn:I; simpl; try discriminate.
    intros [= <-]. apply _update_p_derived.
    apply inplace_length in I. congruence.
  - discriminate.
Qed.

Lemma translate_derived (v v' : Vector.t T) (t' : list T) (fixed : bool) :
  Vector.derived v -> Vector.translate v t' fixed = Ok v' -> Vector.derived v'.
Proof.
  intros C. unfold Vector.translate.
  destruct (np.inplace s_add (Vector._p v) t') as [p'|e]; simpl; try discriminate.
  destruct (Vector.set_p v p') as [v1|e] eqn:S1; simpl; try discriminate.
  pose proof (set_p_derived _ C S1) as C1.
  destruct fixed.
  - now intros [= <-].
  - destruct (np.inplace s_add (Vector._p0 v1) t') as [p0'|e]; simpl;
      try discriminate.
    now apply set_p0_derived.
Qed.

Lemma rotate_derived (transform : list T -> list T) (v v' : Vector.t T) :
  Vector.derived v -> Vector.rotate transform v = Ok v' -> Vector.derived v'.
Proof.
  intros C. unfold Vector.rotate.
  destruct (Vector.set_p0 v _) as [v1|e] eqn:S0; simpl; try discriminate.
  apply set_p_derived. eapply set_p0_derived; eassumption.
Qed.

(** Every mutation re-derives: what it does not recompute it leaves
    as it was. *)
Lemma mutate_derived (v v' : Vector.t T) (m : Vector.mutation T) :
  Vector.derived v -> Vector.mutate v m = Ok v' -> Vector.derived v'.
Proof.
  intros C. destruct m as [t' f|tr|o|o|c|n c|value|value]; simpl.
  - now apply translate_derived.
  - now apply rotate_derived.
  - now apply inplace_array_derived.
  - now apply inplace_array_derived.
  - intros [= <-]. destruct (rederived_length C) as (Hp & Hp0).
    apply _update_p_derived. now rewrite length_map.
  - intros [= <-]. now apply __setattr___derived.
  - now apply set_p_derived.
  - now apply set_p0_derived.
Qed.

Lemma new_derived (args : Vector.new_args T) :
  (forall v, args = Vector.FromVector v None -> Vector.derived v) ->
  Vector.derived (Vector.new args).
Proof.
  intros H. destruct args as [v [p0|]|v p0|nd p0 p]; simpl.
  - apply from_components_derived.
  - now apply H.
  - apply from_components_derived.
  - apply rederived_sub. simpl. now rewrite !Point_length.
Qed.

Lemma run_derived (v : Vector.t T) (ms : list (Vector.mutation T)) :
  Vector.derived v -> Forall Vector.derived (Vector.run v ms).
Proof.
  revert v; induction ms as [|m ms IH]; intros v C; simpl; [constructor|].
  destruct (Vector.mutate v m) as [v'|e] eqn:M; [|constructor].
  pose proof (mutate_derived _ C M) as C'. constructor; auto.
Qed.

(** The setters of [p] and [p0] end by recomputing the components:
    afterwards they are the computed difference of head and tail. *)
Lemma set_p_recomputes (v v' : Vector.t T) (value : list T) :
  Vector.set_p v value = Ok v' ->
  np.zip_with s_sub (Vector.p v') (Vector.p0 v') = Vector.arr v'.
Proof.
  unfold Vector.set_p.
  destruct (np.broadcast_to _ value) as [p'|e]; simpl; try discriminate.
  now intros [= <-].
Qed.

Lemma set_p0_recomputes (v v' : Vector.t T) (value : list T) :
  Vector.set_p0 v value = Ok v' ->
  np.zip_with s_sub (Vector.p v') (Vector.p0 v') = Vector.arr v'.
Proof.
  unfold Vector.set_p0.
  destruct (np.broadcast_to _ value) as [p0'|e]; simpl; try discriminate.
  now intros [= <-].
Qed.

(** The in-place operations end with [_update_p]: afterwards the head
    is the computed sum of tail and components. *)
Lemma inplace_array_updates_p (f : T -> T -> T) (v v' : Vector.t T)
  (other : Vector.operand T) :
  Vector.inplace_array f v other = Ok v' ->
  Vector.p v' = np.zip_with s_add (Vector.p0 v') (Vector.arr v').
Proof.
  unfold Vector.inplace_array. destruct other as [c|w|a|]; simpl.
  - now intros [= <-].
  - destruct (np.inplace f _ _) as [a'|e]; simpl; try discriminate.
    now intros [= <-].
  - destruct (np.inplace f _ _) as [a'|e]; simpl; try discriminate.
    now intros [= <-].
  - discriminate.
Qed.

(** What a mutation that has run leaves behind.  [translate],
    [rotate] and the assignments to [p] and [p0] recompute the
    components from the end points; [+=], [-=] and [*=] recompute the
    head from tail and components; an assignment to [x], [y] or [z]
    that reaches the array recomputes the head coordinate of that
    name. *)
Lemma mutate_recomputes (v v' : Vector.t T) (m : Vector.mutation T) :
  Vector.mutate v m = Ok v' ->
  match m with
  | Vector.Translate _ _ | Vector.Rotate _ | Vector.SetP _ | Vector.SetP0 _ =>
      np.zip_with s_sub (Vector.p v') (Vector.p0 v') = Vector.arr v'
  | Vector.IAdd _ | Vector.ISub _ | Vector.IMul _ =>
      Vector.p v' = np.zip_with s_add (Vector.p0 v') (Vector.arr v')
  | Vector.SetComponent name _ =>
      Vector.__getattr__ v name <> None ->
      length (Vector.p v) = Vector.nd v ->
      nth (Vector.index name) (Vector.p v') s_zero
      = s_add (nth (Vector.index name) (Vector.p0 v') s_zero)
              (nth (Vector.index name) (Vector.arr v') s_zero)
  end.
Proof.
  destruct m as [t' f|tr|o|o|c|n c|value|value]; simpl.
  - unfold Vector.translate.
    destruct (np.inplace s_add (Vector._p v) t') as [p'|e]; simpl; try discriminate.
    destruct (Vector.set_p v p') as [v1|e] eqn:S1; simpl; try discriminate.
    destruct f.
    + intros [= <-]. exact (set_p_recomputes _ _ S1).
    + destruct (np.inplace s_add (Vector._p0 v1) t') as [p0'|e]; simpl;
        try discriminate.
      apply set_p0_recomputes.
  - unfold Vector.rotate.
    destruct (Vector.set_p0 v _) as [v1|e]; simpl; try discriminate.
    apply set_p_recomputes.
  - apply inplace_array_updates_p.
  - apply inplace_array_updates_p.
  - now intros [= <-].
  - intros [= <-]. unfold Vector.__getattr__, Vector.__setattr__.
    destruct (_ || _) eqn:E; [|now intros H].
    intros _ Hp. cbn [Vector.p Vector._p Vector.p0 Vector._p0 Vector.arr].
    assert (Hi : Vector.index n < Vector.nd v).
    { apply orb_true_iff in E. destruct E as [E|E].
      - apply andb_true_iff in E. destruct E as (E2 & E1).
        apply Nat.eqb_eq in E2. apply Nat.ltb_lt in E1. lia.
      - apply Nat.eqb_eq in E. destruct n; simpl; lia. }
    unfold Vector.nd, Vector.p in *. now rewrite !nth_setitem_same by lia.
  - apply set_p_recomputes.
  - apply set_p0_recomputes.
Qed.


End VectorIdentity.

Lemma Z_exact : ExactScalar Z.
Proof. intros a b; simpl; lia. Qed.


(** Where the claim fails.  On [v = Vector([0, 0, 0])], after
    [v.p0 = [1e20, 0, 0]] and [v.p = [1e20, 0, 0]], the statement
    [v += 1] makes the components [[1, 1, 1]] and the head
    [p0 + components = [1e20, 1, 1]]: the one is absorbed by the
    rounding of the sum.  Head minus tail is then [[0, 1, 1]], which
    [np.allclose] does not accept for the components. *)
Lemma Vector_identity_lost_to_rounding :
  Vector.run (Vector.new Samples.far_args) Samples.far_mutations
  = [Vector.mk [-1e20; 0; 0] [0; 0; 0] [1e20; 0; 0];
     Vector.mk [0; 0; 0] [1e20; 0; 0] [1e20; 0; 0];
     Vector.mk [1; 1; 1] [1e20; 1; 1] [1e20; 0; 0]]%float /\
  np.zip_with PrimFloat.sub [1e20; 1; 1]%float [1e20; 0; 0]%float = [0; 1; 1]%float /\
  np.allclose (np.zip_with PrimFloat.sub [1e20; 1; 1]%float [1e20; 0; 0]%float)
              [1; 1; 1]%float
  = Ok false.
Proof. repeat split; vm_compute; reflexivity. Qed.

(** The same over binary64, where [0.1 + 0.2 - 0.1] is not [0.2]:
    after [v.x = 0.2] on [Vector([0, 0, 0], p0=[0.1, 0, 0])] the head
    is the computed sum of tail and components, and head minus tail is
    close to the components without being equal to them. *)
Lemma Vector_identity_binary64_example :
  Forall Vector.derived
    (Vector.run Samples.v_tenth [Vector.SetComponent Vector.x 0.2%float]) /\
  (forall v,
     In v (Vector.run Samples.v_tenth [Vector.SetComponent Vector.x 0.2%float]) ->
     np.zip_with PrimFloat.sub (Vector.p v) (Vector.p0 v) <> Vector.arr v /\
     np.allclose (np.zip_with PrimFloat.sub (Vector.p v) (Vector.p0 v)) (Vector.arr v)
     = Ok true).
Proof.
  split.
  - apply (@run_derived float Scalar_float). apply from_components_derived.
  - intros v [<- | []]. split; [|vm_compute; reflexivity].
    intros H.
    apply (f_equal (fun l => match l with
                             | c :: _ => PrimFloat.eqb c 0.2%float
                             | [] => false
                             end)) in H.
    vm_compute in H. discriminate H.
Qed.

(** ** Equality of vectors *)

Section VectorEquality.

Lemma __eq___true_iff (same_object : bool) (u v : Vector.t float) :
  Vector.__eq__ same_object u v = Ok true <->
  same_object = true \/
  (np.allclose (Vector.arr u) (Vector.arr v) = Ok true /\
   np.allclose (Vector.p0 u) (Vector.p0 v) = Ok true /\
   np.allclose (Vector.p u) (Vector.p v) = Ok true).
Proof.
  unfold Vector.__eq__. destruct same_object.
  - split; auto.
  - destruct (np.allclose (Vector.arr u) _) as [[|]|e]; simpl;
      try (split; [discriminate|intros [H|(H & _)]; discriminate H]).
    destruct (np.allclose (Vector.p0 u) _) as [[|]|e0]; simpl;
      try (split; [discriminate|intros [H|(_ & H & _)]; discriminate H]).
    destruct (np.allclose (Vector.p u) _) as [[|]|e1]; simpl;
      try (split; [discriminate|intros [H|(_ & _ & H)]; discriminate H]).
    split; auto.
Qed.

(** C9.  [u == v] is true exactly when [u is v], or the components,
    the tail points and the head points of [u] and [v] are all close
    in the sense of [np.allclose].  So equality looks at the anchor:
    two distinct vectors whose tail points are not close compare
    unequal, whatever their components; [Vector([1, 2, 3])] and
    [Vector([1, 2, 3], p0=[1, 1, 1])] are an instance. *)
Theorem Vector_eq_is_anchor_sensitive :
  (forall (same_object : bool) (u v : Vector.t float),
     Vector.__eq__ same_object u v = Ok true <->
     same_object = true \/
     (np.allclose (Vector.arr u) (Vector.arr v) = Ok true /\
      np.allclose (Vector.p0 u) (Vector.p0 v) = Ok true /\
      np.allclose (Vector.p u) (Vector.p v) = Ok true)) /\
  (forall u v : Vector.t float,
     np.allclose (Vector.arr u) (Vector.arr v) = Ok true ->
     np.allclose (Vector.p0 u) (Vector.p0 v) = Ok false ->
     Vector.__eq__ false u v = Ok false) /\
  Vector.__eq__ false Samples.v123 Samples.v123_anchored
  = Ok false.
Proof.
  split; [exact __eq___true_iff|]. split.
  - intros u v Ha H0. unfold Vector.__eq__. now rewrite Ha, H0.
  - vm_compute. reflexivity.
Qed.

Lemma Vector_eq_witness :
  np.allclose (Vector.arr Samples.v123) (Vector.arr Samples.v123_anchored) = Ok true /\
  np.allclose (Vector.p0 Samples.v123) (Vector.p0 Samples.v123_anchored) = Ok false /\
  Vector.__eq__ false Samples.v123 Samples.v123_anchored = Ok false.
Proof.
  split; [vm_compute; reflexivity|].
  split; [vm_compute; reflexivity|].
  apply (proj1 (proj2 Vector_eq_is_anchor_sensitive));
    vm_compute; reflexivity.
Defined.

End VectorEquality.

(** ** Operators on operands that do not fit *)

Section VectorOperators.

Lemma dot_mismatch (u v : Vector.t float) :
  Vector.nd u <> Vector.nd v -> Vector.dot u v = Raise ValueError.
Proof.
  intros H. unfold Vector.dot, _check_vector_compatibility.
  apply Nat.eqb_neq in H. unfold Vector.nd in H. now rewrite H.
Qed.

Lemma binary_mismatch (f : float -> float -> float) (a b : list float) :
  length a <> length b -> length a <> 1 -> length b <> 1 ->
  np.binary f a b = Raise ValueError.
Proof.
  intros Hab Ha Hb. unfold np.binary.
  apply Nat.eqb_neq in Ha. rewrite Ha.
  unfold np.broadcast_to at 1. rewrite Nat.eqb_refl. simpl.
  unfold np.broadcast_to.
  assert (Hba : Nat.eqb (length b) (length a) = false)
    by (apply Nat.eqb_neq; congruence).
  rewrite Hba.
  destruct b as [|c [|c' b]]; simpl in *; try reflexivity. congruence.
Qed.

(** C5, as the code has it.  [u * v] on two vectors is their dot
    product, and the dot product checks the dimensions: with different
    numbers of components the multiplication raises [ValueError] (as
    [Vector([1, 2, 3]) * Vector([1, 2, 3, 4])] does).  [u + v] and
    [u - v] raise [ValueError] when the two lengths differ and neither
    is one; a vector of a single component is broadcast.  Multiplying
    by an object that is neither a number nor a vector issues the
    warning and returns the left operand as it is. *)
Theorem Vector_operators_on_mismatched_operands :
  (forall u v : Vector.t float,
     Vector.nd u <> Vector.nd v ->
     snd (Vector.__mul__ u (Vector.Vec v)) = Raise ValueError) /\
  (forall u v : Vector.t float,
     Vector.nd u <> Vector.nd v -> Vector.nd u <> 1 -> Vector.nd v <> 1 ->
     Vector.__add__ u (Vector.Vec v) = Raise ValueError /\
     Vector.__sub__ u (Vector.Vec v) = Raise ValueError) /\
  (forall (u : Vector.t float) (other : Vector.operand float),
     (forall c, other <> Vector.Number c) ->
     (forall w, other <> Vector.Vec w) ->
     Vector.__mul__ u other
     = ([UserWarning "multiplication"], Ok (Vector.VVector u))).
Proof.
  split; [|split].
  - intros u v H. simpl. now rewrite dot_mismatch.
  - intros u v H Hu Hv. unfold Vector.__add__, Vector.__sub__, Vector.ndarray_binary.
    now rewrite !binary_mismatch.
  - intros u [c|w|a|] Hn Hv; simpl; try reflexivity.
    + now destruct (Hn c).
    + now destruct (Hv w).
Qed.

Lemma Vector_operators_witness :
  Vector.nd Samples.v123 <> Vector.nd Samples.v1234 /\
  Vector.nd Samples.v123 <> 1 /\ Vector.nd Samples.v1234 <> 1 /\
  snd (Vector.__mul__ Samples.v123 (Vector.Vec Samples.v1234)) = Raise ValueError /\
  Vector.__add__ Samples.v123 (Vector.Vec Samples.v1234) = Raise ValueError /\
  Vector.__sub__ Samples.v123 (Vector.Vec Samples.v1234) = Raise ValueError /\
  Vector.__mul__ Samples.v123 Vector.Object
  = ([UserWarning "multiplication"], Ok (Vector.VVector Samples.v123)).
Proof.
  assert (H34 : Vector.nd Samples.v123 <> Vector.nd Samples.v1234)
    by (vm_compute; lia).
  assert (H3 : Vector.nd Samples.v123 <> 1) by (vm_compute; lia).
  assert (H4 : Vector.nd Samples.v1234 <> 1) by (vm_compute; lia).
  destruct Vector_operators_on_mismatched_operands as (Hmul & Hadd & Hobj).
  split; [exact H34|]. split; [exact H3|]. split; [exact H4|].
  split; [exact (Hmul _ _ H34)|].
  split; [exact (proj1 (Hadd _ _ H34 H3 H4))|].
  split; [exact (proj2 (Hadd _ _ H34 H3 H4))|].
  apply Hobj; intros; discriminate.
Defined.

(** C5, as the design document has it, fails:
    [Vector([1, 2, 3]) * Vector([1, 2, 3, 4])] raises. *)
Lemma Vector_mul_mismatched_raises :
  Vector.__mul__ Samples.v123 (Vector.Vec Samples.v1234)
  = ([Printed "Computing *scalar product* of Vector's"], Raise ValueError).
Proof. vm_compute. reflexivity. Qed.

End VectorOperators.

(** ** The angle between two vectors *)

Section Zeros.
Local Open Scope float_scope.

Lemma zero_of_spec (c : float) (s : bool) :
  Prim2SF c = S754_zero s -> is_zero c.
Proof.
  intros H. rewrite <- (SF2Prim_Prim2SF c), H.
  destruct s; [right|left]; reflexivity.
Qed.

Lemma nan_of_spec (c : float) : Prim2SF c = S754_nan -> c = nan.
Proof. intros H. now rewrite <- (SF2Prim_Prim2SF c), H. Qed.

Lemma mul_zero_l (c d : float) : is_zero c -> zero_or_nan (c * d).
Proof.
  intros Hc. pose proof (mul_spec c d) as H.
  assert (Z : exists s, Prim2SF c = S754_zero s)
    by (destruct Hc as [-> | ->]; eexists; reflexivity).
  destruct Z as (s & Z). rewrite Z in H. unfold SF64mul, SFmul in H.
  destruct (Prim2SF d).
  - apply zero_of_spec in H. destruct H; [left|right; left]; assumption.
  - right; right. now apply nan_of_spec.
  - right; right. now apply nan_of_spec.
  - apply zero_of_spec in H. destruct H; [left|right; left]; assumption.
Qed.

Lemma mul_zero_r (c d : float) : is_zero d -> zero_or_nan (c * d).
Proof.
  intros Hd. pose proof (mul_spec c d) as H.
  assert (Z : exists s, Prim2SF d = S754_zero s)
    by (destruct Hd as [-> | ->]; eexists; reflexivity).
  destruct Z as (s & Z). rewrite Z in H. unfold SF64mul, SFmul in H.
  destruct (Prim2SF c).
  - apply zero_of_spec in H. destruct H; [left|right; left]; assumption.
  - right; right. now apply nan_of_spec.
  - right; right. now apply nan_of_spec.
  - apply zero_of_spec in H. destruct H; [left|right; left]; assumption.
Qed.

Lemma add_zero_or_nan (c d : float) :
  zero_or_nan c -> zero_or_nan d -> zero_or_nan (c + d).
Proof.
  intros [-> | [-> | ->]] [-> | [-> | ->]];
    first [left; reflexivity | right; left; reflexivity | right; right; reflexivity].
Qed.

Lemma div_zero_or_nan (c d : float) :
  zero_or_nan c -> zero_or_nan d -> c / d = nan.
Proof. intros [-> | [-> | ->]] [-> | [-> | ->]]; reflexivity. Qed.

Lemma fold_add_zero_or_nan (l : list float) (acc : float) :
  Forall zero_or_nan l -> zero_or_nan acc ->
  zero_or_nan (fold_left PrimFloat.add l acc).
Proof.
  intros H; revert acc; induction H as [|c l Hc _ IH]; intros acc Ha; simpl; auto.
  apply IH. now apply add_zero_or_nan.
Qed.

Lemma products_zero_l (a b : list float) :
  Forall is_zero a -> Forall zero_or_nan (np.zip_with PrimFloat.mul a b).
Proof.
  intros H; revert b; induction H as [|c a Hc _ IH]; intros [|d b]; simpl;
    constructor; auto using mul_zero_l.
Qed.

Lemma products_zero_r (a b : list float) :
  Forall is_zero b -> Forall zero_or_nan (np.zip_with PrimFloat.mul a b).
Proof.
  intros H; revert a; induction H as [|d b Hd _ IH]; intros [|c a]; simpl;
    constructor; auto using mul_zero_r.
Qed.

Lemma fold_add_squares_zero (l : list float) :
  Forall is_zero l ->
  fold_left PrimFloat.add (map (fun c => c * c) l) 0 = 0.
Proof.
  induction 1 as [|c l Hc _ IH]; simpl; auto.
  destruct Hc as [-> | ->]; exact IH.
Qed.

Lemma norm_zero_length (v : Vector.t float) :
  zero_length v -> Vector.norm v = 0.
Proof.
  intros H. unfold Vector.norm, Vector.sum_of_squares, np.sum.
  now rewrite fold_add_squares_zero.
Qed.

End Zeros.

Section Angle.
Local Open Scope float_scope.

Variable arccos : float -> float.

(** What the C library promises of [acos]. *)
Hypothesis arccos_range :
  forall q, (-1 <=? q) = true -> (q <=? 1) = true ->
            (0 <=? arccos q) = true /\ (arccos q <=? np.pi) = true.
Hypothesis arccos_nan : arccos nan = nan.

(** C7, as the code has it.  For two vectors with the same number of
    components, the function [angle] and the method [Vector.angle]
    both return [np.arccos(q)] for the quotient [q] of the dot product
    and the product of the norms, computed in binary64, and neither
    raises.  The result lies in [[0, pi]] whenever [q] lies in
    [[-1, 1]].  When one of the vectors has zero length, [q] is the NaN
    of [0 / 0] and the NaN is returned. *)
Theorem angle_returns_arccos_of_quotient (u v : Vector.t float) :
  Vector.nd u = Vector.nd v ->
  exists d,
    np.dot (Vector.arr u) (Vector.arr v) = Ok d /\
    let q := d / (Vector.norm u * Vector.norm v) in
    angle arccos u v = Ok (arccos q) /\
    Vector.angle arccos u v = Ok (arccos q) /\
    ((-1 <=? q) = true -> (q <=? 1) = true ->
     (0 <=? arccos q) = true /\ (arccos q <=? np.pi) = true) /\
    (zero_length u \/ zero_length v -> q = nan /\ arccos q = nan).
Proof.
  intros Hnd. unfold Vector.nd in Hnd.
  exists (fold_left PrimFloat.add
            (np.zip_with PrimFloat.mul (Vector.arr u) (Vector.arr v)) 0).
  assert (D : np.dot (Vector.arr u) (Vector.arr v)
              = Ok (fold_left PrimFloat.add
                      (np.zip_with PrimFloat.mul (Vector.arr u) (Vector.arr v)) 0)).
  { unfold np.dot. rewrite Hnd. now rewrite Nat.eqb_refl. }
  split; [exact D|]. cbv zeta.
  split; [unfold angle, dot; now rewrite D|].
  split.
  { unfold Vector.angle, _check_vector_compatibility.
    rewrite Hnd, Nat.eqb_refl. simpl. now rewrite D. }
  split; [apply arccos_range|].
  intros Hz.
  assert (Q : fold_left PrimFloat.add
                (np.zip_with PrimFloat.mul (Vector.arr u) (Vector.arr v)) 0
              / (Vector.norm u * Vector.norm v) = nan).
  { apply div_zero_or_nan.
    - apply fold_add_zero_or_nan; [|now left].
      destruct Hz as [Hz|Hz];
        [now apply products_zero_l | now apply products_zero_r].
    - destruct Hz as [Hz|Hz].
      + apply mul_zero_l. rewrite (norm_zero_length Hz). now left.
      + apply mul_zero_r. rewrite (norm_zero_length Hz). now left. }
  rewrite Q. split; [reflexivity | exact arccos_nan].
Qed.

End Angle.

Lemma SampleLibm_arccos_range (q : float) :
  (-1 <=? q)%float = true -> (q <=? 1)%float = true ->
  (0 <=? SampleLibm.arccos q)%float = true /\
  (SampleLibm.arccos q <=? np.pi)%float = true.
Proof.
  intros H1 H2. unfold SampleLibm.arccos. rewrite H1, H2. simpl.
  match goal with
  | |- context [if ?c then _ else _] => destruct c eqn:C
  end.
  - now apply andb_true_iff in C.
  - split; reflexivity.
Qed.

Lemma angle_witness :
  Vector.nd Samples.v000 = Vector.nd Samples.v123 /\
  exists d,
    np.dot (Vector.arr Samples.v000) (Vector.arr Samples.v123) = Ok d /\
    let q := (d / (Vector.norm Samples.v000 * Vector.norm Samples.v123))%float in
    angle SampleLibm.arccos Samples.v000 Samples.v123 = Ok (SampleLibm.arccos q) /\
    Vector.angle SampleLibm.arccos Samples.v000 Samples.v123
    = Ok (SampleLibm.arccos q) /\
    ((-1 <=? q)%float = true -> (q <=? 1)%float = true ->
     (0 <=? SampleLibm.arccos q)%float = true /\
     (SampleLibm.arccos q <=? np.pi)%float = true) /\
    (zero_length Samples.v000 \/ zero_length Samples.v123 ->
     q = nan /\ SampleLibm.arccos q = nan).
Proof.
  split; [reflexivity|].
  apply (@angle_returns_arccos_of_quotient SampleLibm.arccos
           SampleLibm_arccos_range eq_refl Samples.v000 Samples.v123).
  reflexivity.
Defined.

(** C7, as the design document has it, fails: with a vector of zero
    length the call does not raise; whatever [np.arccos] is, its value
    at the NaN is returned.  And two vectors of nonzero length can give
    a quotient above one: for [u = v = Vector([1, 1, 1])] it is
    [3 / (sqrt 3 * sqrt 3) = 1.0000000000000002]. *)
Lemma angle_of_zero_vector_does_not_raise :
  (forall arccos : float -> float,
     angle arccos Samples.v000 Samples.v123 = Ok (arccos nan) /\
     Vector.angle arccos Samples.v000 Samples.v123 = Ok (arccos nan)) /\
  angle SampleLibm.arccos Samples.v000 Samples.v123 = Ok nan /\
  (forall arccos : float -> float,
     angle arccos Samples.v111 Samples.v111 = Ok (arccos 0x1.0000000000001p+0%float)) /\
  (0x1.0000000000001p+0 <=? 1)%float = false.
Proof.
  split; [intros arccos; split; reflexivity|].
  split; [reflexivity|].
  split; [intros arccos; reflexivity|reflexivity].
Qed.

(** ** The lattice *)

Section Orthorhombic.
Local Open Scope float_scope.

Variables cos sin arccos : float -> float.
Variable inv : matrix -> matrix.

(** The values of the C library at the double nearest to [pi / 2],
    which is what [np.radians(90.0)] is. *)
Hypothesis cos_90 : cos (np.radians 90) = 0x1.1a62633145c07p-54.
Hypothesis sin_90 : sin (np.radians 90) = 1.

Lemma right_angle_cos : np.around (cos (np.radians (np.around 90 np.decimals6))) np.decimals6 = 0.
Proof.
  change (np.radians (np.around 90 np.decimals6)) with (np.radians 90).
  rewrite cos_90. reflexivity.
Qed.

Lemma right_angle_sin : np.around (sin (np.radians (np.around 90 np.decimals6))) np.decimals6 = 1.
Proof.
  change (np.radians (np.around 90 np.decimals6)) with (np.radians 90).
  rewrite sin_90. reflexivity.
Qed.

(** C8.  For the lattice with [a = 2.46], [b = 4.26], [c = 10.0] and
    three right angles, the three cosines, rounded to six decimals,
    are exactly zero; [cell_volume] is exactly the binary64 product
    [2.46 * 4.26 * 10.0]; and [ortho_matrix], after its rounding to ten
    decimals, is exactly the diagonal matrix of [2.46], [4.26] and
    [10.0]. *)
Theorem orthorhombic_volume_and_ortho_matrix
  (orientation : option matrix) (L : CrystalLattice.t) :
  CrystalLattice.__init__ cos sin arccos inv
    (CrystalLattice.Parameters 2.46 4.26 10 90 90 90 None orientation) = Ok L ->
  CrystalLattice.cos_alpha cos L = 0 /\
  CrystalLattice.cos_beta cos L = 0 /\
  CrystalLattice.cos_gamma cos L = 0 /\
  CrystalLattice.cell_volume cos L = 2.46 * 4.26 * 10 /\
  CrystalLattice.ortho_matrix cos sin L
  = [[2.46; 0; 0]; [0; 4.26; 0]; [0; 0; 10]].
Proof.
  simpl. intros [= <-].
  assert (Ca : CrystalLattice.cos_alpha cos
                 (CrystalLattice.mk (Vector.from_components [0; 0; 0] None)
                    match orientation with
                    | Some m => m
                    | None => linalg.identity3
                    end 2.46 4.26 10 90 90 90) = 0) by exact right_angle_cos.
  set (L := CrystalLattice.mk _ _ _ _ _ _ _ _) in *.
  assert (Cb : CrystalLattice.cos_beta cos L = 0) by exact right_angle_cos.
  assert (Cg : CrystalLattice.cos_gamma cos L = 0) by exact right_angle_cos.
  assert (Sa : CrystalLattice.sin_alpha sin L = 1) by exact right_angle_sin.
  assert (Sb : CrystalLattice.sin_beta sin L = 1) by exact right_angle_sin.
  assert (Sg : CrystalLattice.sin_gamma sin L = 1) by exact right_angle_sin.
  repeat split; auto.
  - unfold CrystalLattice.cell_volume. rewrite Ca, Cb, Cg. reflexivity.
  - unfold CrystalLattice.ortho_matrix, CrystalLattice.sin_gamma_star,
      CrystalLattice.cos_gamma_star.
    rewrite Ca, Cb, Cg, Sa, Sb, Sg. reflexivity.
Qed.

End Orthorhombic.

Lemma orthorhombic_witness :
  let L := CrystalLattice.mk (Vector.from_components [0; 0; 0]%float None)
             linalg.identity3 2.46 4.26 10 90 90 90 in
  SampleLibm.cos (np.radians 90) = 0x1.1a62633145c07p-54%float /\
  SampleLibm.sin (np.radians 90) = 1%float /\
  CrystalLattice.__init__ SampleLibm.cos SampleLibm.sin SampleLibm.arccos
    (fun m => m)
    (CrystalLattice.Parameters 2.46 4.26 10 90 90 90 None None) = Ok L /\
  CrystalLattice.cos_alpha SampleLibm.cos L = 0%float /\
  CrystalLattice.cos_beta SampleLibm.cos L = 0%float /\
  CrystalLattice.cos_gamma SampleLibm.cos L = 0%float /\
  CrystalLattice.cell_volume SampleLibm.cos L = (2.46 * 4.26 * 10)%float /\
  CrystalLattice.ortho_matrix SampleLibm.cos SampleLibm.sin L
  = [[2.46; 0; 0]; [0; 4.26; 0]; [0; 0; 10]]%float.
Proof.
  intros L.
  split; [reflexivity|]. split; [reflexivity|]. split; [reflexivity|].
  apply (@orthorhombic_volume_and_ortho_matrix SampleLibm.cos SampleLibm.sin
           SampleLibm.arccos (fun m => m) eq_refl eq_refl None L).
  reflexivity.
Defined.

(** C2.  The lattice class does not implement the inverse transform:
    the body of [cartesian_to_fractional] is [pass], the call returns
    [None] for every lattice and every point, and converting that
    back raises on the reshape to a column of three, before any
    matrix is touched.  There is no round trip. *)
Theorem cartesian_fractional_round_trip_raises
  (cos sin : float -> float) (L : CrystalLattice.t) (p : array_like) :
  CrystalLattice.cartesian_to_fractional L p = PyNone /\
  CrystalLattice.fractional_to_cartesian cos sin L
    (CrystalLattice.cartesian_to_fractional L p) = Raise ValueError.
Proof. split; reflexivity. Qed.

(** ** Crystal cells *)

Section CellFacts.

Variable Lattice : Type.
Variable nd : Lattice -> nat.
Variable lattice_matrix : Lattice -> matrix.
Variable from_cell_matrix : Lattice -> matrix -> Lattice.
Variable cartesian_to_fractional : Lattice -> list float -> list float.
Variable wrap_fractional_coordinate : Lattice -> list float -> list float.
Variable supercell_lattice_points : imatrix -> matrix.
Variable r : xtal_cells.BasisAtom Lattice -> list float.

Local Abbreviation set_scaling_matrix :=
  (xtal_cells.set_scaling_matrix nd lattice_matrix from_cell_matrix
     cartesian_to_fractional wrap_fractional_coordinate
     supercell_lattice_points r).
Local Abbreviation CrystalCell_init :=
  (xtal_cells.CrystalCell_init nd lattice_matrix from_cell_matrix
     cartesian_to_fractional wrap_fractional_coordinate
     supercell_lattice_points r).
Local Abbreviation SuperCell_init :=
  (xtal_cells.SuperCell_init nd lattice_matrix from_cell_matrix
     cartesian_to_fractional wrap_fractional_coordinate
     supercell_lattice_points r).
Local Abbreviation world := (xtal_cells.world Lattice).

(** [CrystalCell(unit_cell=U, scaling_matrix=v)] takes basis and
    lattice from [U] and then runs the setter. *)
Lemma init_from_unit_cell (U : xtal_cells.UnitCell Lattice) (wrap : bool)
  (v : scaling_value) (cs : list (xtal_cells.BasisAtoms Lattice)) (n : nat) :
  CrystalCell_init None None None false wrap (xtal_cells.UCObject U) v
    (xtal_cells.mk_world (xtal_cells.blank Lattice) cs n)
  = set_scaling_matrix v
      (xtal_cells.mk_world
         (xtal_cells.mk_cell (Some (xtal_cells.uc_basis U))
            (xtal_cells.uc_lattice U) (Some U) wrap None) cs n).
Proof. reflexivity. Qed.

Lemma list_eqb_eq (l1 l2 : list Z) : ints.list_eqb l1 l2 = true -> l1 = l2.
Proof.
  unfold ints.list_eqb. rewrite andb_true_iff. intros (Hl & H).
  apply Nat.eqb_eq in Hl. revert l2 Hl H.
  induction l1 as [|a l1 IH]; intros [|b l2] Hl H; simpl in *; try congruence.
  apply andb_true_iff in H. destruct H as (Hab & H).
  apply Z.eqb_eq in Hab. f_equal; auto.
Qed.

Lemma imatrix_eqb_eq (m1 m2 : imatrix) : ints.imatrix_eqb m1 m2 = true -> m1 = m2.
Proof.
  unfold ints.imatrix_eqb. rewrite andb_true_iff. intros (Hl & H).
  apply Nat.eqb_eq in Hl. revert m2 Hl H.
  induction m1 as [|a m1 IH]; intros [|b m2] Hl H; simpl in *; try congruence.
  apply andb_true_iff in H. destruct H as (Hab & H).
  apply list_eqb_eq in Hab. f_equal; auto.
Qed.

(** The two arrays the short cut of the setter accepts. *)
Lemma is_identity_ndarray_inv (v : scaling_value) :
  xtal_cells.is_identity_ndarray v = true ->
  v = SNdarray (A1 [1; 1; 1]%Z) \/ v = SNdarray (A2 ints.eye3).
Proof.
  destruct v as [| | | | |[l|m]|]; simpl; try discriminate.
  - intros H. apply list_eqb_eq in H. left; congruence.
  - intros H. apply imatrix_eqb_eq in H. right; congruence.
Qed.

(** With the scaling value left out, or given as an array equal to
    [np.ones(3)] or [np.eye(3)], nothing is changed and nothing is
    created. *)
Lemma short_cut_is_a_no_op
  (U : xtal_cells.UnitCell Lattice) (wrap : bool) (v : scaling_value)
  (w : world) :
  xtal_cells.self w = xtal_cells.blank Lattice ->
  v = SNone \/ xtal_cells.is_identity_ndarray v = true ->
  exists w',
    CrystalCell_init None None None false wrap (xtal_cells.UCObject U) v w
    = (Ok tt, w') /\
    xtal_cells.containers w' = xtal_cells.containers w /\
    xtal_cells.lattices w' = xtal_cells.lattices w /\
    xtal_cells._basis (xtal_cells.self w') = Some (xtal_cells.uc_basis U) /\
    xtal_cells._lattice (xtal_cells.self w') = xtal_cells.uc_lattice U /\
    xtal_cells.basis_atoms w' = xtal_cells.unit_cell_atoms U w.
Proof.
  destruct w as [s cs n]; simpl. intros -> Hv.
  rewrite init_from_unit_cell.
  destruct Hv as [-> | Hv].
  - eexists; split; [reflexivity|]. now repeat split.
  - destruct (xtal_cells.uc_lattice U) as [L|] eqn:HL.
    + apply is_identity_ndarray_inv in Hv. destruct Hv as [-> | ->];
        (eexists; split;
         [unfold xtal_cells.set_scaling_matrix, xtal_cells.bind; simpl;
          reflexivity|]);
        now repeat split.
    + apply is_identity_ndarray_inv in Hv. destruct Hv as [-> | ->];
        (eexists; split;
         [unfold xtal_cells.set_scaling_matrix, xtal_cells.bind; simpl;
          reflexivity|]);
        now repeat split.
Qed.

(** C6, as the code has it.  [SuperCell(unit_cell, scaling_matrix)]
    raises [ValueError] at once, leaving everything as it was, when
    [unit_cell] is not a [UnitCell] and when [scaling_matrix] is none of
    [int], [float], [tuple], [list], [ndarray] (so also for [None]).
    Assigning such a value to the [scaling_matrix] of a cell raises
    nothing; unless it is [None] it leaves the cell as it was, and
    [None] sets the scaling matrix to the identity. *)
Theorem unsupported_scaling_value
  (v : scaling_value) (wrap : bool) (w : world) :
  (forall uc,
     (forall U, uc <> xtal_cells.UCObject U) ->
     SuperCell_init uc v wrap w = (Raise ValueError, w)) /\
  (xtal_cells.supported v = false ->
   (forall uc, SuperCell_init uc v wrap w = (Raise ValueError, w)) /\
   (v <> SNone -> set_scaling_matrix v w = (Ok tt, w)) /\
   (v = SNone ->
    set_scaling_matrix v w
    = (Ok tt,
       xtal_cells.mk_world
         (xtal_cells.mk_cell (xtal_cells._basis (xtal_cells.self w))
            (xtal_cells._lattice (xtal_cells.self w))
            (xtal_cells._unit_cell (xtal_cells.self w))
            (xtal_cells.wrap_coords (xtal_cells.self w)) (Some ints.eye3))
         (xtal_cells.containers w) (xtal_cells.lattices w)))).
Proof.
  split.
  - intros [|U|] H; try reflexivity. now destruct (H U).
  - intros Hs. split; [|split].
    + intros [|U|]; try reflexivity.
      unfold xtal_cells.SuperCell_init. now rewrite Hs.
    + intros Hn. destruct v; try discriminate Hs; try reflexivity.
      now destruct Hn.
    + intros ->. reflexivity.
Qed.

End CellFacts.

(** ** The number of atoms of an expanded cell *)

Unset Implicit Arguments.

Section Expansion.

Variable Lattice : Type.
Variable nd : Lattice -> nat.
Variable lattice_matrix : Lattice -> matrix.
Variable from_cell_matrix : Lattice -> matrix -> Lattice.
Variable cartesian_to_fractional : Lattice -> list float -> list float.
Variable wrap_fractional_coordinate : Lattice -> list float -> list float.
Variable supercell_lattice_points : imatrix -> matrix.
Variable r : xtal_cells.BasisAtom Lattice -> list float.

(** The lattice class is three-dimensional: lattice matrices are
    3 x 3, positions and fractional coordinates have three entries. *)
Hypothesis matrix_rows : forall L, length (lattice_matrix L) = 3.
Hypothesis matrix_columns : forall L, Forall (fun row => length row = 3) (lattice_matrix L).
Hypothesis fractional_3 : forall L pos, length (cartesian_to_fractional L pos) = 3.
Hypothesis wrapped_3 : forall L c, length (wrap_fractional_coordinate L c) = 3.
Hypothesis r_3 : forall atom, length (r atom) = 3.

Local Abbreviation set_scaling_matrix :=
  (xtal_cells.set_scaling_matrix nd lattice_matrix from_cell_matrix
     cartesian_to_fractional wrap_fractional_coordinate
     supercell_lattice_points r).
Local Abbreviation CrystalCell_init :=
  (xtal_cells.CrystalCell_init nd lattice_matrix from_cell_matrix
     cartesian_to_fractional wrap_fractional_coordinate
     supercell_lattice_points r).
Local Abbreviation replicate :=
  (xtal_cells.replicate cartesian_to_fractional wrap_fractional_coordinate r).
Local Abbreviation world := (xtal_cells.world Lattice).

Lemma nth_error_replace {A : Type} (l : list A) (a : nat) (u v : A) :
  nth_error l a = Some u ->
  nth_error (firstn a l ++ v :: skipn (S a) l) a = Some v.
Proof.
  intros H.
  assert (La : a < length l) by (apply nth_error_Some; congruence).
  rewrite nth_error_app2; rewrite length_firstn, Nat.min_l by lia; [|lia].
  now rewrite Nat.sub_diag.
Qed.

Lemma unpack3_ok (l : list float) :
  length l = 3 -> exists c, xtal_cells.unpack3 l = Ok c.
Proof.
  destruct l as [|c1 [|c2 [|c3 [|c4 l]]]]; simpl; try discriminate.
  eexists; reflexivity.
Qed.

Lemma binary_3 (f : float -> float -> float) (a b : list float) :
  length a = 3 -> length b = 3 -> exists c, np.binary f a b = Ok c.
Proof.
  intros Ha Hb. unfold np.binary, np.broadcast_to. rewrite Ha, Hb. simpl.
  eexists; reflexivity.
Qed.

Lemma same_objects_trans (w1 w2 w3 : world) :
  xtal_cells.same_objects w1 w2 -> xtal_cells.same_objects w2 w3 ->
  xtal_cells.same_objects w1 w3.
Proof.
  intros (A1 & B1 & C1) (A2 & B2 & C2). repeat split; congruence.
Qed.

(** One pass through the body of the loops adds one atom. *)
Lemma replicate_adds_one (L : xtal_cells.lattice_object Lattice) (wrap : bool)
  (top : Z) (atom : xtal_cells.BasisAtom Lattice) (i : nat) (tvec : list float)
  (w : world) (a : xtal_cells.ref) (n : nat) :
  length tvec = 3 -> xtal_cells.holds w a n ->
  exists w', replicate L wrap top atom (i, tvec) w = (Ok tt, w') /\
             xtal_cells.same_objects w w' /\
             xtal_cells.holds w' a (S n).
Proof.
  intros Ht (Hb & b & Hnth & Hn).
  unfold xtal_cells.replicate, xtal_cells.bind, xtal_cells.lift.
  destruct (binary_3 PrimFloat.add (r atom) tvec (r_3 atom) Ht) as (pos & ->).
  destruct (unpack3_ok _ (fractional_3 (xtal_cells.lattice_value L) pos))
    as (((c1 & c2) & c3) & ->).
  assert (W : exists c',
             (if wrap
              then xtal_cells.lift
                     (xtal_cells.unpack3
                        (wrap_fractional_coordinate (xtal_cells.lattice_value L)
                                                    [c1; c2; c3]))
              else xtal_cells.ret (c1, c2, c3)) w = (Ok c', w)).
  { destruct wrap.
    - destruct (unpack3_ok _ (wrapped_3 (xtal_cells.lattice_value L) [c1; c2; c3]))
        as (c' & Hc'). exists c'. unfold xtal_cells.lift. now rewrite Hc'.
    - eexists; reflexivity. }
  destruct W as (((d1 & d2) & d3) & W). unfold xtal_cells.lift in W.
  rewrite W. unfold xtal_cells.get_self. rewrite Hb.
  unfold xtal_cells.update_container. rewrite Hnth.
  eexists; split; [reflexivity|]. split.
  { repeat split. cbn [xtal_cells.containers].
    assert (La : a < length (xtal_cells.containers w))
      by (apply nth_error_Some; congruence).
    rewrite length_app, length_firstn. cbn [length].
    rewrite length_skipn. lia. }
  split; [exact Hb|]. simpl.
  eexists; split; [eapply nth_error_replace; eassumption|].
  simpl. rewrite length_app. simpl. lia.
Qed.

(** The inner loop adds one atom for every translation. *)
Lemma inner_loop_adds (L : xtal_cells.lattice_object Lattice) (wrap : bool)
  (top : Z) (atom : xtal_cells.BasisAtom Lattice)
  (tvecs : list (nat * list float)) (w : world) (a : xtal_cells.ref) (n : nat) :
  Forall (fun it => length (snd it) = 3) tvecs -> xtal_cells.holds w a n ->
  exists w', xtal_cells.for_each tvecs (replicate L wrap top atom) w = (Ok tt, w') /\
             xtal_cells.same_objects w w' /\
             xtal_cells.holds w' a (n + length tvecs).
Proof.
  intros H; revert w n; induction H as [|[i tvec] tvecs Ht _ IH]; intros w n Hw;
    cbn [xtal_cells.for_each length].
  - exists w. split; [reflexivity|]. split; [now repeat split|].
    now rewrite Nat.add_0_r.
  - unfold xtal_cells.bind at 1. cbn [snd] in Ht.
    destruct (replicate_adds_one L wrap top atom i tvec w a n Ht Hw)
      as (w1 & -> & S1 & H1).
    destruct (IH w1 (S n) H1) as (w2 & -> & S2 & H2).
    exists w2. split; [reflexivity|].
    split; [exact (same_objects_trans _ _ _ S1 S2)|].
    now rewrite <- Nat.add_succ_comm.
Qed.

(** The outer loop adds the translations once for every atom. *)
Lemma outer_loop_adds (L : xtal_cells.lattice_object Lattice) (wrap : bool)
  (top : Z) (basis : list (xtal_cells.BasisAtom Lattice))
  (tvecs : list (nat * list float)) (w : world) (a : xtal_cells.ref) (n : nat) :
  Forall (fun it => length (snd it) = 3) tvecs -> xtal_cells.holds w a n ->
  exists w',
    xtal_cells.for_each basis
      (fun atom => xtal_cells.for_each tvecs (replicate L wrap top atom)) w
    = (Ok tt, w') /\
    xtal_cells.same_objects w w' /\
    xtal_cells.holds w' a (n + length basis * length tvecs).
Proof.
  intros Ht; revert w n; induction basis as [|atom basis IH]; intros w n Hw;
    cbn [xtal_cells.for_each length].
  - exists w. split; [reflexivity|]. split; [now repeat split|].
    now rewrite Nat.add_0_r.
  - unfold xtal_cells.bind at 1.
    destruct (inner_loop_adds L wrap top atom tvecs w a n Ht Hw)
      as (w1 & -> & S1 & H1).
    destruct (IH w1 _ H1) as (w2 & -> & S2 & H2).
    exists w2. split; [reflexivity|].
    split; [exact (same_objects_trans _ _ _ S1 S2)|].
    replace (n + S (length basis) * length tvecs)
      with (n + length tvecs + length basis * length tvecs) by lia.
    exact H2.
Qed.

Lemma matmul_rows (m1 m2 : matrix) :
  Forall (fun row => length row = length m2) m1 ->
  exists m, linalg.matmul m1 m2 = Ok m /\ length m = length m1 /\
            Forall (fun row => length row = linalg.ncols m2) m.
Proof.
  intros H. unfold linalg.matmul.
  assert (F : forallb (fun r0 => Nat.eqb (length r0) (linalg.nrows m2)) m1 = true).
  { apply forallb_forall. intros row Hin. rewrite Forall_forall in H.
    apply Nat.eqb_eq. now apply H. }
  rewrite F. eexists; split; [reflexivity|]. split.
  - apply length_map.
  - apply Forall_forall. intros row Hin. apply in_map_iff in Hin.
    destruct Hin as (r0 & <- & _). now rewrite length_map, length_seq.
Qed.

Lemma ncols_3 (L : Lattice) : linalg.ncols (lattice_matrix L) = 3.
Proof.
  pose proof (matrix_rows L) as Hr. pose proof (matrix_columns L) as Hc.
  unfold linalg.ncols. destruct (lattice_matrix L) as [|row m]; [discriminate|].
  now inversion Hc.
Qed.

Lemma enumerate_3 (tvecs : matrix) :
  Forall (fun row => length row = 3) tvecs ->
  Forall (fun it : nat * list float => length (snd it) = 3)
         (combine (seq 0 (length tvecs)) tvecs).
Proof.
  intros H. apply Forall_forall. intros [i t] Hin.
  apply in_combine_r in Hin. rewrite Forall_forall in H. now apply H.
Qed.

Lemma to_matrix_rows (M : imatrix) (k : nat) :
  Forall (fun row => length row = k) M ->
  Forall (fun row => length row = k) (ints.to_matrix M).
Proof.
  intros H. apply Forall_forall. intros row Hin.
  apply in_map_iff in Hin. destruct Hin as (r0 & <- & Hin).
  rewrite length_map. rewrite Forall_forall in H. now apply H.
Qed.

(** The setter on a cell whose lattice is [L] and whose basis is the
    container [ub], for a value that stands for the 3 x 3 matrix [M]
    and does not take the short cut: the lattice becomes a new lattice
    object, the basis a new container, and that container holds one
    atom per old atom and translation. *)
Lemma setter_expands (v : scaling_value) (M : imatrix)
  (L : xtal_cells.lattice_object Lattice) (ub : xtal_cells.ref)
  (uc : option (xtal_cells.UnitCell Lattice)) (wrap : bool)
  (sm : option imatrix) (cs : list (xtal_cells.BasisAtoms Lattice)) (n : nat)
  (b : xtal_cells.BasisAtoms Lattice) :
  nth_error cs ub = Some b ->
  xtal_cells.data b <> [] ->
  xtal_cells.normalized (nd (xtal_cells.lattice_value L)) (3, 3) v = Ok M ->
  xtal_cells.is_identity_ndarray v = false ->
  length M = 3 -> Forall (fun row => length row = 3) M ->
  Forall (fun pt => length pt = 3) (supercell_lattice_points M) ->
  exists w' atoms' cm,
    set_scaling_matrix v
      (xtal_cells.mk_world (xtal_cells.mk_cell (Some ub) (Some L) uc wrap sm) cs n)
    = (Ok tt, w') /\
    xtal_cells.basis_atoms w' = Some atoms' /\
    length atoms' = length (xtal_cells.data b) * length (supercell_lattice_points M) /\
    xtal_cells.self w'
    = xtal_cells.mk_cell (Some (length cs))
        (Some (xtal_cells.mk_lattice n
                 (from_cell_matrix (xtal_cells.lattice_value L) cm)))
        uc wrap (Some M) /\
    xtal_cells.lattices w' = S n /\
    length (xtal_cells.containers w') = S (length cs).
Proof.
  intros Hnth Hne Hnorm Hid Hl Hr Hpts.
  destruct b as [bl bd]. cbn [xtal_cells.data] in *.
  assert (Hlm : linalg.shape (lattice_matrix (xtal_cells.lattice_value L)) = (3, 3)).
  { unfold linalg.shape, linalg.nrows. now rewrite matrix_rows, ncols_3. }
  destruct (matmul_rows (ints.to_matrix M)
              (lattice_matrix (xtal_cells.lattice_value L))) as (cm & Hcm & _).
  { rewrite matrix_rows. now apply to_matrix_rows. }
  pose (L' := xtal_cells.mk_lattice n
                (from_cell_matrix (xtal_cells.lattice_value L) cm)).
  destruct (matmul_rows (supercell_lattice_points M)
              (lattice_matrix (from_cell_matrix (xtal_cells.lattice_value L) cm)))
    as (tvecs & Htv & Htl & Htc).
  { now rewrite matrix_rows. }
  rewrite ncols_3 in Htc.
  destruct bd as [|atom0 atoms]; [now destruct Hne|].
  pose (cs' := firstn ub cs ++
               xtal_cells.mk_atoms (Some L') (atom0 :: atoms) :: skipn (S ub) cs).
  assert (Hcs' : length cs' = length cs).
  { assert (La : ub < length cs) by (apply nth_error_Some; congruence).
    unfold cs'. rewrite length_app, length_firstn. cbn [length].
    rewrite length_skipn. lia. }
  pose (s' := xtal_cells.mk_cell (Some (length cs')) (Some L') uc wrap (Some M)).
  destruct (outer_loop_adds L' wrap
              (fold_left Z.max (map (@xtal_cells.mol Lattice) atoms)
                         (xtal_cells.mol atom0))
              (atom0 :: atoms)
              (combine (seq 0 (length tvecs)) tvecs)
              (xtal_cells.mk_world s' (cs' ++ [xtal_cells.mk_atoms None []]) (S n))
              (length cs') 0)
    as (w' & Hloop & (Hself & Hlat & Hcont) & Hb' & b' & Hnth' & Hlen').
  { now apply enumerate_3. }
  { split; [reflexivity|]. exists (xtal_cells.mk_atoms None []). split; [|reflexivity].
    cbn [xtal_cells.containers]. rewrite nth_error_app2 by lia.
    now rewrite Nat.sub_diag. }
  exists w', (xtal_cells.data b'), cm.
  split; [|split; [|split; [|split; [|split]]]].
  - rewrite <- Hloop.
    assert (Hread : nth_error cs' ub
                    = Some (xtal_cells.mk_atoms (Some L') (atom0 :: atoms)))
      by (eapply nth_error_replace; eassumption).
    unfold xtal_cells.set_scaling_matrix.
    destruct v; try discriminate Hnorm;
      cbv beta iota zeta delta
        [xtal_cells.bind xtal_cells.lift xtal_cells.get_self xtal_cells.supported
         negb xtal_cells.self xtal_cells._lattice];
      rewrite Hid, Hlm, Hnorm;
      cbv beta iota zeta delta
        [xtal_cells.store_scaling_matrix
         xtal_cells.update_self xtal_cells.self xtal_cells.containers
         xtal_cells.lattices xtal_cells._basis xtal_cells._lattice
         xtal_cells._unit_cell xtal_cells.wrap_coords];
      rewrite Hcm;
      cbv beta iota zeta delta
        [xtal_cells.new_lattice xtal_cells.set_lattice xtal_cells.bind
         xtal_cells.update_self xtal_cells.get_self xtal_cells.update_container
         xtal_cells.self xtal_cells.containers xtal_cells.lattices
         xtal_cells._basis xtal_cells._lattice xtal_cells._unit_cell
         xtal_cells.wrap_coords xtal_cells._scaling_matrix];
      rewrite Hnth;
      cbn [xtal_cells.data xtal_cells.lattice_value];
      rewrite Htv;
      cbv beta iota zeta delta
        [xtal_cells.read_container xtal_cells.containers xtal_cells.self
         xtal_cells._basis];
      fold L'; fold cs'; rewrite Hread;
      reflexivity.
  - unfold xtal_cells.basis_atoms. rewrite Hb', Hnth'. reflexivity.
  - rewrite Hlen'. cbn [Nat.add]. f_equal.
    rewrite length_combine, length_seq, Nat.min_id. exact Htl.
  - rewrite Hself. cbn [xtal_cells.self]. unfold s'. now rewrite Hcs'.
  - rewrite Hlat. reflexivity.
  - rewrite Hcont. cbn [xtal_cells.containers].
    rewrite length_app, Hcs'. cbn [length]. lia.
Qed.

Lemma normalized_identity_ndarray (k : nat) (v : scaling_value) :
  xtal_cells.is_identity_ndarray v = true ->
  xtal_cells.normalized k (3, 3) v = Ok ints.eye3.
Proof.
  intros H. apply is_identity_ndarray_inv in H. destruct H as [-> | ->]; reflexivity.
Qed.


(** C4, as the code has it.  On [CrystalCell(unit_cell=U)], a scaling
    value that is left out, or that is a NumPy array equal to
    [np.ones(3)] or to [np.eye(3)], changes nothing: the basis of the
    cell is the basis container of [U] itself, the lattice is the
    lattice object of [U], no container and no lattice object is
    created, and no container is written to.  An identity in any
    other form (the scalar [1], a list, a tuple) is expanded like every
    other value: the lattice of the cell is a new lattice object made by
    the constructor of the lattice class, and the basis is a new
    container. *)
Theorem identity_scaling_short_cut_is_for_arrays
  (U : xtal_cells.UnitCell Lattice) (wrap : bool) (w : world) :
  xtal_cells.self w = xtal_cells.blank Lattice ->
  (forall v,
     v = SNone \/ xtal_cells.is_identity_ndarray v = true ->
     exists w',
       CrystalCell_init None None None false wrap (xtal_cells.UCObject U) v w
       = (Ok tt, w') /\
       xtal_cells.containers w' = xtal_cells.containers w /\
       xtal_cells.lattices w' = xtal_cells.lattices w /\
       xtal_cells._basis (xtal_cells.self w') = Some (xtal_cells.uc_basis U) /\
       xtal_cells._lattice (xtal_cells.self w') = xtal_cells.uc_lattice U /\
       xtal_cells.basis_atoms w' = xtal_cells.unit_cell_atoms U w) /\
  (forall v L atoms,
     xtal_cells.uc_lattice U = Some L ->
     xtal_cells.unit_cell_atoms U w = Some atoms -> atoms <> [] ->
     xtal_cells.normalized (nd (xtal_cells.lattice_value L)) (3, 3) v
     = Ok ints.eye3 ->
     xtal_cells.is_identity_ndarray v = false ->
     Forall (fun pt => length pt = 3) (supercell_lattice_points ints.eye3) ->
     exists w' cm,
       CrystalCell_init None None None false wrap (xtal_cells.UCObject U) v w
       = (Ok tt, w') /\
       xtal_cells._lattice (xtal_cells.self w')
       = Some (xtal_cells.mk_lattice (xtal_cells.lattices w)
                 (from_cell_matrix (xtal_cells.lattice_value L) cm)) /\
       xtal_cells.lattices w' = S (xtal_cells.lattices w) /\
       xtal_cells._basis (xtal_cells.self w')
       = Some (length (xtal_cells.containers w)) /\
       length (xtal_cells.containers w') = S (length (xtal_cells.containers w))).
Proof.
  intros Hself. split.
  - intros v Hv.
    exact (@short_cut_is_a_no_op Lattice nd lattice_matrix from_cell_matrix
             cartesian_to_fractional wrap_fractional_coordinate
             supercell_lattice_points r U wrap v w Hself Hv).
  - destruct w as [s cs n]. cbn [xtal_cells.self] in Hself. subst s.
    intros v L atoms HL Hatoms Hne Hnorm Hid Hpts.
    unfold xtal_cells.unit_cell_atoms in Hatoms.
    cbn [xtal_cells.containers] in Hatoms.
    destruct (nth_error cs (xtal_cells.uc_basis U)) as [b|] eqn:Hnth;
      [|discriminate Hatoms].
    injection Hatoms as Hdata.
    change (CrystalCell_init None None None false wrap (xtal_cells.UCObject U) v
              (xtal_cells.mk_world (xtal_cells.blank Lattice) cs n))
      with (set_scaling_matrix v
              (xtal_cells.mk_world
                 (xtal_cells.mk_cell (Some (xtal_cells.uc_basis U))
                    (xtal_cells.uc_lattice U) (Some U) wrap None) cs n)).
    rewrite HL.
    destruct (setter_expands v ints.eye3 L (xtal_cells.uc_basis U) (Some U) wrap
                None cs n b)
      as (w' & atoms' & cm & Hrun & _ & _ & Hs & Hlat & Hcont); auto.
    { now rewrite Hdata. }
    { repeat constructor. }
    exists w', cm. rewrite Hs. cbn. repeat split; auto.
Qed.

End Expansion.

(** ** The cell classes over the sample lattice *)

Section SampleCells.

Lemma SampleLattice_matrix_columns (L : SampleLattice.t) :
  Forall (fun row => length row = 3) (SampleLattice.lattice_matrix L).
Proof. repeat constructor. Qed.

Lemma SampleLattice_r_3 (atom : xtal_cells.BasisAtom SampleLattice.t) :
  length (SampleLattice.r atom) = 3.
Proof.
  unfold SampleLattice.r. now destruct (xtal_cells.atom_lattice atom).
Qed.

Lemma length_flat_map_constant {A B : Type} (f : A -> list B) (k : nat) (l : list A) :
  (forall a, length (f a) = k) -> length (flat_map f l) = length l * k.
Proof.
  intros H. induction l as [|a l IH]; simpl; [reflexivity|].
  now rewrite length_app, H, IH.
Qed.

(** For a diagonal matrix the block of translations has as many
    points as the determinant says. *)
Lemma supercell_lattice_points_diagonal (n1 n2 n3 : Z) :
  length (SampleLattice.supercell_lattice_points
            [[n1; 0; 0]; [0; n2; 0]; [0; 0; n3]]%Z)
  = Z.abs_nat (ints.det [[n1; 0; 0]; [0; n2; 0]; [0; 0; n3]]%Z).
Proof.
  unfold SampleLattice.supercell_lattice_points. cbn [nth].
  rewrite (length_flat_map_constant _ (Z.abs_nat n2 * Z.abs_nat n3)).
  - rewrite length_seq. cbn [ints.det].
    replace (n1 * (n2 * n3 - 0 * 0) - 0 * (0 * n3 - 0 * 0) + 0 * (0 * 0 - n2 * 0))%Z
      with (n1 * (n2 * n3))%Z by ring.
    now rewrite !Zabs2Nat.inj_mul.
  - intros i. rewrite (length_flat_map_constant _ (Z.abs_nat n3)).
    + now rewrite length_seq.
    + intros j. now rewrite length_map, length_seq.
Qed.


Lemma identity_scaling_witness :
  xtal_cells.self SampleLattice.world0 = xtal_cells.blank SampleLattice.t /\
  xtal_cells.is_identity_ndarray (SNdarray (A1 [1; 1; 1]%Z)) = true /\
  xtal_cells.is_identity_ndarray (SInt 1) = false /\
  xtal_cells.normalized (SampleLattice.nd (xtal_cells.lattice_value SampleLattice.lattice0))
    (3, 3) (SInt 1) = Ok ints.eye3 /\
  (exists w',
    SampleLattice.run
      (fun nd lattice_matrix from_cell_matrix cartesian_to_fractional
           wrap_fractional_coordinate supercell_lattice_points r =>
         xtal_cells.CrystalCell_init nd lattice_matrix from_cell_matrix
           cartesian_to_fractional wrap_fractional_coordinate
           supercell_lattice_points r None None None false false
           (xtal_cells.UCObject SampleLattice.unit_cell0)
           (SNdarray (A1 [1; 1; 1]%Z)))
      SampleLattice.world0
    = (Ok tt, w') /\
    xtal_cells.containers w' = xtal_cells.containers SampleLattice.world0 /\
    xtal_cells.lattices w' = xtal_cells.lattices SampleLattice.world0 /\
    xtal_cells._basis (xtal_cells.self w')
    = Some (xtal_cells.uc_basis SampleLattice.unit_cell0) /\
    xtal_cells._lattice (xtal_cells.self w')
    = xtal_cells.uc_lattice SampleLattice.unit_cell0 /\
    xtal_cells.basis_atoms w'
    = xtal_cells.unit_cell_atoms SampleLattice.unit_cell0 SampleLattice.world0) /\
  (exists w' cm,
    SampleLattice.run
      (fun nd lattice_matrix from_cell_matrix cartesian_to_fractional
           wrap_fractional_coordinate supercell_lattice_points r =>
         xtal_cells.CrystalCell_init nd lattice_matrix from_cell_matrix
           cartesian_to_fractional wrap_fractional_coordinate
           supercell_lattice_points r None None None false false
           (xtal_cells.UCObject SampleLattice.unit_cell0) (SInt 1))
      SampleLattice.world0
    = (Ok tt, w') /\
    xtal_cells._lattice (xtal_cells.self w')
    = Some (xtal_cells.mk_lattice (xtal_cells.lattices SampleLattice.world0)
              (SampleLattice.from_cell_matrix
                 (xtal_cells.lattice_value SampleLattice.lattice0) cm)) /\
    xtal_cells.lattices w' = S (xtal_cells.lattices SampleLattice.world0) /\
    xtal_cells._basis (xtal_cells.self w')
    = Some (length (xtal_cells.containers SampleLattice.world0)) /\
    length (xtal_cells.containers w')
    = S (length (xtal_cells.containers SampleLattice.world0))).
Proof.
  split; [reflexivity|]. split; [reflexivity|]. split; [reflexivity|].
  split; [reflexivity|].
  destruct (identity_scaling_short_cut_is_for_arrays
              SampleLattice.t SampleLattice.nd SampleLattice.lattice_matrix
              SampleLattice.from_cell_matrix SampleLattice.cartesian_to_fractional
              SampleLattice.wrap_fractional_coordinate
              SampleLattice.supercell_lattice_points SampleLattice.r
              (fun L => eq_refl) SampleLattice_matrix_columns
              (fun L pos => eq_refl) (fun L c => eq_refl) SampleLattice_r_3
              SampleLattice.unit_cell0 false SampleLattice.world0 eq_refl)
    as [Hshort Hlong].
  split.
  - apply Hshort. right; reflexivity.
  - apply (Hlong (SInt 1) SampleLattice.lattice0
             (xtal_cells.data SampleLattice.basis0)).
    + reflexivity.
    + reflexivity.
    + discriminate.
    + reflexivity.
    + reflexivity.
    + repeat constructor.
Defined.

(** C4, as the design document has it, fails for the scalar [1]:
    [CrystalCell(unit_cell=unit_cell0, scaling_matrix=1)] goes through
    the whole expansion.  The lattice of the cell is a new lattice
    object (number 1, that of the unit cell is number 0), built by the
    constructor; the basis is a new container (number 1, that of the
    unit cell is number 0) with newly built atoms; and the basis
    container of the unit cell has been given the new lattice. *)
Lemma scalar_one_is_not_a_no_op :
  fst (Samples.built (SInt 1)) = Ok tt /\
  xtal_cells._scaling_matrix (xtal_cells.self (snd (Samples.built (SInt 1)))) = Some ints.eye3 /\
  option_map (@xtal_cells.lattice_id _)
    (xtal_cells._lattice (xtal_cells.self (snd (Samples.built (SInt 1))))) = Some 1 /\
  option_map (@xtal_cells.lattice_id _)
    (xtal_cells.uc_lattice SampleLattice.unit_cell0) = Some 0 /\
  xtal_cells._basis (xtal_cells.self (snd (Samples.built (SInt 1)))) = Some 1 /\
  xtal_cells.uc_basis SampleLattice.unit_cell0 = 0 /\
  xtal_cells.lattices (snd (Samples.built (SInt 1))) = 2 /\
  xtal_cells.lattices SampleLattice.world0 = 1 /\
  length (xtal_cells.containers (snd (Samples.built (SInt 1)))) = 2 /\
  length (xtal_cells.containers SampleLattice.world0) = 1 /\
  xtal_cells.containers (snd (Samples.built (SInt 1)))
  <> xtal_cells.containers SampleLattice.world0 /\
  option_map (fun b => option_map (@xtal_cells.lattice_id _) (xtal_cells.atoms_lattice b))
    (nth_error (xtal_cells.containers (snd (Samples.built (SInt 1)))) 0) = Some (Some 1).
Proof.
  repeat (split; [vm_compute; reflexivity|]).
  split; [|vm_compute; reflexivity].
  intros H. apply (f_equal (@length _)) in H. vm_compute in H. discriminate H.
Qed.

(** C6, as the design document has it, fails for [None], which
    [SuperCell] rejects like any other value that is not a number or
    an array: on the cell built with [scaling_matrix=2], the
    assignment [cell.scaling_matrix = None] replaces the scaling matrix
    [diag(2, 2, 2)] by the identity. *)
Lemma assigning_None_resets_the_scaling_matrix :
  SampleLattice.run
    (fun nd lattice_matrix from_cell_matrix cartesian_to_fractional
         wrap_fractional_coordinate supercell_lattice_points r =>
       xtal_cells.SuperCell_init nd lattice_matrix from_cell_matrix
         cartesian_to_fractional wrap_fractional_coordinate
         supercell_lattice_points r
         (xtal_cells.UCObject SampleLattice.unit_cell0) SNone false)
    SampleLattice.world0
  = (Raise ValueError, SampleLattice.world0) /\
  fst (Samples.built (SInt 2)) = Ok tt /\
  xtal_cells._scaling_matrix (xtal_cells.self (snd (Samples.built (SInt 2))))
  = Some [[2; 0; 0]; [0; 2; 0]; [0; 0; 2]]%Z /\
  fst (Samples.then_assign (SInt 2) SNone) = Ok tt /\
  xtal_cells._scaling_matrix (xtal_cells.self (snd (Samples.then_assign (SInt 2) SNone)))
  = Some [[1; 0; 0]; [0; 1; 0]; [0; 0; 1]]%Z.
Proof. repeat split; vm_compute; reflexivity. Qed.

Lemma unsupported_scaling_witness :
  xtal_cells.supported SObject = false /\ SObject <> SNone /\
  SampleLattice.run
    (fun nd lattice_matrix from_cell_matrix cartesian_to_fractional
         wrap_fractional_coordinate supercell_lattice_points r =>
       xtal_cells.SuperCell_init nd lattice_matrix from_cell_matrix
         cartesian_to_fractional wrap_fractional_coordinate
         supercell_lattice_points r
         (xtal_cells.UCObject SampleLattice.unit_cell0) SObject false)
    (snd (Samples.built (SInt 2)))
  = (Raise ValueError, snd (Samples.built (SInt 2))) /\
  Samples.then_assign (SInt 2) SObject = (Ok tt, snd (Samples.built (SInt 2))).
Proof.
  split; [reflexivity|]. split; [discriminate|].
  destruct (@unsupported_scaling_value SampleLattice.t
              SampleLattice.nd SampleLattice.lattice_matrix
              SampleLattice.from_cell_matrix SampleLattice.cartesian_to_fractional
              SampleLattice.wrap_fractional_coordinate
              SampleLattice.supercell_lattice_points SampleLattice.r
              SObject false (snd (Samples.built (SInt 2)))) as (_ & H).
  destruct (H eq_refl) as (Hsuper & Hset & _).
  split; [exact (Hsuper _)|].
  apply Hset. discriminate.
Defined.

End SampleCells.

(** ** Sorting atoms *)

Section StableSort.
Context {A : Type}.
Variable key : A -> py.key_value.

Lemma insert_permutation (a : A) (l : list A) :
  Permutation (a :: l) (py.insert key a l).
Proof.
  induction l as [|b l IH]; simpl; [reflexivity|].
  destruct (py.lt (key b) (key a)); [|reflexivity].
  rewrite perm_swap. now constructor.
Qed.

Lemma sorted_copy_permutation (l : list A) : Permutation l (py.sorted_copy key l).
Proof.
  induction l as [|a l IH]; simpl; [reflexivity|].
  rewrite <- insert_permutation. now constructor.
Qed.

Lemma list_sort_permutation (reverse : bool) (l : list A) :
  Permutation l (py.list_sort key reverse l).
Proof.
  unfold py.list_sort. destruct reverse.
  - rewrite <- Permutation_rev, <- sorted_copy_permutation. apply Permutation_rev.
  - apply sorted_copy_permutation.
Qed.

Lemma insert_filter (p : A -> bool) (a : A) (l : list A) :
  py.tied key p ->
  filter p (py.insert key a l) = filter p (a :: l).
Proof.
  intros T. induction l as [|b l IH]; [reflexivity|].
  cbn [py.insert]. destruct (py.lt (key b) (key a)) eqn:Hlt; [|reflexivity].
  cbn [filter] in *. rewrite IH.
  destruct (p a) eqn:Pa, (p b) eqn:Pb; try reflexivity.
  rewrite (T b a Pb Pa) in Hlt. discriminate Hlt.
Qed.

Lemma sorted_copy_filter (p : A -> bool) (l : list A) :
  py.tied key p -> filter p (py.sorted_copy key l) = filter p l.
Proof.
  intros T. induction l as [|a l IH]; [reflexivity|].
  cbn [py.sorted_copy fold_right]. fold (py.sorted_copy key l).
  rewrite insert_filter by exact T. cbn [filter]. now rewrite IH.
Qed.

(** Stability: elements that are tied come out in the order in which
    they went in, with and without [reverse]. *)
Lemma list_sort_stable (p : A -> bool) (reverse : bool) (l : list A) :
  py.tied key p -> filter p (py.list_sort key reverse l) = filter p l.
Proof.
  intros T. unfold py.list_sort. destruct reverse.
  - rewrite filter_rev, sorted_copy_filter, <- filter_rev, rev_involutive;
      auto.
  - now apply sorted_copy_filter.
Qed.

End StableSort.

Section SortByCN.

Lemma insert_head (a b : Atom.t) (l : list Atom.t) :
  CN_le b a -> HdRel CN_le b l -> HdRel CN_le b (py.insert CN_key a l).
Proof.
  intros Hba H. destruct l as [|c l]; cbn [py.insert]; [now constructor|].
  inversion H; subst.
  destruct (py.lt (CN_key c) (CN_key a)); now constructor.
Qed.

Lemma insert_sorted (a : Atom.t) (l : list Atom.t) :
  Sorted CN_le l -> Sorted CN_le (py.insert CN_key a l).
Proof.
  induction 1 as [|b l Hs IH Hhd]; cbn [py.insert]; [repeat constructor|].
  destruct (py.lt (CN_key b) (CN_key a)) eqn:Hlt.
  - change ((Atom.CN b <? Atom.CN a)%Z = true) in Hlt.
    constructor; [exact IH|]. apply insert_head; [|exact Hhd].
    apply Z.ltb_lt in Hlt. unfold CN_le. lia.
  - change ((Atom.CN b <? Atom.CN a)%Z = false) in Hlt.
    constructor; [now constructor|]. constructor.
    apply Z.ltb_ge in Hlt. exact Hlt.
Qed.

Lemma sorted_copy_sorted (l : list Atom.t) :
  StronglySorted CN_le (py.sorted_copy CN_key l).
Proof.
  apply Sorted_StronglySorted.
  - intros a b c Hab Hbc. unfold CN_le in *. lia.
  - induction l as [|a l IH]; [constructor|].
    cbn [py.sorted_copy fold_right]. now apply insert_sorted.
Qed.

Lemma StronglySorted_snoc {A : Type} (R : A -> A -> Prop) (l : list A) (a : A) :
  StronglySorted R l -> Forall (fun b => R b a) l -> StronglySorted R (l ++ [a]).
Proof.
  induction 1 as [|b l Hs IH Hall]; intros Ha; simpl.
  - repeat constructor.
  - inversion Ha; subst. constructor; [now apply IH|].
    apply Forall_app. split; [exact Hall|now constructor].
Qed.

Lemma StronglySorted_rev {A : Type} (R : A -> A -> Prop) (l : list A) :
  StronglySorted R l -> StronglySorted (fun a b => R b a) (rev l).
Proof.
  induction 1 as [|a l Hs IH Hall]; simpl; [constructor|].
  apply StronglySorted_snoc; [exact IH|].
  apply Forall_rev. exact Hall.
Qed.

Lemma CN_tied (n : BinNums.Z) :
  py.tied CN_key (fun a => Z.eqb (Atom.CN a) n).
Proof.
  intros a b Ha Hb. apply Z.eqb_eq in Ha, Hb.
  unfold CN_key, attrgetter. simpl. apply Z.ltb_ge. lia.
Qed.

(** C10.  [CNAtoms.sort()] without a key sorts by the coordination
    number: it passes [attrgetter('CN')] on to [Atoms.sort], which
    hands it to the sort of the list, whereas [Atoms.sort()] without a
    key sorts by the tuple of element, atomic number and z coordinate.
    The outcome of [CNAtoms.sort()] is a rearrangement of the atoms in
    the order of their coordination numbers (rising, or falling with
    [reverse]); atoms with the same coordination number keep their
    order; and, whatever the key, atoms that the key does not
    separate keep their order. *)
Theorem CNAtoms_sort_orders_by_CN (reverse : bool) (l : list Atom.t) :
  CNAtoms.sort CNAtoms.Omitted reverse l
  = py.list_sort (attrgetter [attr_CN]) reverse l /\
  CNAtoms.sort CNAtoms.Omitted reverse l
  = Atoms.sort (Some (attrgetter [attr_CN])) reverse l /\
  Atoms.sort None reverse l
  = py.list_sort (attrgetter [attr_element; attr_Z; attr_z]) reverse l /\
  Permutation l (CNAtoms.sort CNAtoms.Omitted reverse l) /\
  StronglySorted
    (fun a b => if reverse then (Atom.CN b <= Atom.CN a)%Z
                else (Atom.CN a <= Atom.CN b)%Z)
    (CNAtoms.sort CNAtoms.Omitted reverse l) /\
  (forall n : BinNums.Z,
     filter (fun a => Z.eqb (Atom.CN a) n) (CNAtoms.sort CNAtoms.Omitted reverse l)
     = filter (fun a => Z.eqb (Atom.CN a) n) l) /\
  (forall (key : option (Atom.t -> py.key_value)) (p : Atom.t -> bool),
     py.tied (match key with
              | Some k => k
              | None => attrgetter [attr_element; attr_Z; attr_z]
              end) p ->
     filter p (Atoms.sort key reverse l) = filter p l).
Proof.
  split; [reflexivity|]. split; [reflexivity|]. split; [reflexivity|].
  split; [apply list_sort_permutation|].
  split; [|split].
  - unfold CNAtoms.sort, Atoms.sort, py.list_sort. destruct reverse.
    + apply (StronglySorted_rev CN_le). apply sorted_copy_sorted.
    + apply sorted_copy_sorted.
  - intros n. apply (list_sort_stable CN_key _ reverse l (CN_tied n)).
  - intros [k|] p T; apply list_sort_stable; exact T.
Qed.

Lemma CNAtoms_sort_witness :
  py.tied (attrgetter [attr_CN]) (fun a => Z.eqb (Atom.CN a) 3) /\
  filter (fun a => Z.eqb (Atom.CN a) 3)
    (Atoms.sort (Some (attrgetter [attr_CN])) false Samples.atoms0)
  = filter (fun a => Z.eqb (Atom.CN a) 3) Samples.atoms0.
Proof.
  split; [exact (CN_tied 3)|].
  apply (proj2 (proj2 (proj2 (proj2 (proj2 (proj2
           (CNAtoms_sort_orders_by_CN false Samples.atoms0))))))
           (Some (attrgetter [attr_CN])) (fun a => Z.eqb (Atom.CN a) 3)).
  exact (CN_tied 3).
Defined.

End SortByCN.

(** * Further properties of the vector class *)

Section SmallComponents.
Local Open Scope float_scope.

Lemma snap_idempotent (epsilon c : float) :
  (if abs (if abs c <=? epsilon then 0 else c) <=? epsilon
   then 0 else if abs c <=? epsilon then 0 else c)
  = if abs c <=? epsilon then 0 else c.
Proof.
  destruct (abs c <=? epsilon) eqn:E.
  - destruct (abs 0 <=? epsilon); reflexivity.
  - now rewrite E.
Qed.

(** X1.  [rezero(epsilon)] is idempotent, keeps the number of components,
    leaves every component above [epsilon] (and every NaN) as it is and
    makes the others exactly [0.0]; afterwards every component is
    [0.0] or fails the test [abs(c) <= epsilon]. *)
Theorem rezero_snaps_small_components (epsilon : float) (v : Vector.t float) :
  Vector.rezero epsilon (Vector.rezero epsilon v) = Vector.rezero epsilon v /\
  Vector.nd (Vector.rezero epsilon v) = Vector.nd v /\
  Forall (fun c => c = 0 \/ (abs c <=? epsilon) = false)
         (Vector.arr (Vector.rezero epsilon v)) /\
  (forall i c, nth_error (Vector.arr v) i = Some c ->
     nth_error (Vector.arr (Vector.rezero epsilon v)) i
     = Some (if abs c <=? epsilon then 0 else c)) /\
  Vector.rezero_components epsilon v = Vector.rezero epsilon v.
Proof.
  split; [|split; [|split; [|split]]].
  - unfold Vector.rezero. cbn [Vector.arr Vector._p Vector._p0]. f_equal.
    rewrite map_map. apply map_ext. intros c. apply snap_idempotent.
  - unfold Vector.nd, Vector.rezero. cbn [Vector.arr]. apply length_map.
  - unfold Vector.rezero. cbn [Vector.arr]. apply Forall_forall.
    intros c Hin. apply in_map_iff in Hin. destruct Hin as (d & <- & _).
    destruct (abs d <=? epsilon) eqn:E; [now left|now right].
  - intros i c H. unfold Vector.rezero. cbn [Vector.arr].
    rewrite nth_error_map, H. reflexivity.
  - reflexivity.
Qed.

End SmallComponents.

Section WritesToTheArray.
Local Open Scope float_scope.

Lemma consistent_after_write (v v' : Vector.t float) :
  Vector._p v' = Vector._p v -> Vector._p0 v' = Vector._p0 v ->
  List.length (Vector.arr v') = List.length (Vector.arr v) ->
  Vector.consistent v ->
  (Vector.consistent v' <-> Vector.arr v' = Vector.arr v).
Proof.
  intros Hp Hp0 Hl (Lp & Lp0 & C). unfold Vector.consistent, Vector.p, Vector.p0 in *.
  rewrite Hp, Hp0, Hl. split.
  - intros (_ & _ & C'). congruence.
  - intros E. repeat split; congruence.
Qed.

Lemma head_differs (c d : float) (l l' : list float) :
  PrimFloat.eqb c d = false -> PrimFloat.eqb c c = true -> c :: l <> d :: l'.
Proof.
  intros Hcd Hcc H.
  apply (f_equal (fun k => match k with
                           | e :: _ => PrimFloat.eqb c e
                           | [] => false
                           end)) in H.
  congruence.
Qed.

(** X2.  [rezero] and [normalize] write to the components only: the head
    and the tail stay as they were.  So on a vector with
    [p - p0 = components] the identity survives the call exactly when
    the call changes no component; [Vector([3, 4, 0]).normalize()] and
    [Vector([1e-12, 1, 0]).rezero()] lose it. *)
Theorem rezero_and_normalize_write_components_only
  (epsilon : float) (v : Vector.t float) :
  Vector.p (Vector.rezero epsilon v) = Vector.p v /\
  Vector.p0 (Vector.rezero epsilon v) = Vector.p0 v /\
  Vector.p (Vector.normalize v) = Vector.p v /\
  Vector.p0 (Vector.normalize v) = Vector.p0 v /\
  Vector.arr (Vector.normalize v)
  = map (fun a => a / Vector.norm v) (Vector.arr v) /\
  (Vector.consistent v ->
   (Vector.consistent (Vector.rezero epsilon v)
    <-> Vector.arr (Vector.rezero epsilon v) = Vector.arr v) /\
   (Vector.consistent (Vector.normalize v)
    <-> Vector.arr (Vector.normalize v) = Vector.arr v)) /\
  (Vector.consistent Samples.v340 /\
   ~ Vector.consistent (Vector.normalize Samples.v340)) /\
  (Vector.consistent Samples.v_small /\
   ~ Vector.consistent (Vector.rezero 1e-10 Samples.v_small)).
Proof.
  split; [reflexivity|]. split; [reflexivity|]. split; [reflexivity|].
  split; [reflexivity|]. split; [reflexivity|].
  split; [|split].
  - intros C. split; apply consistent_after_write; auto;
      cbn [Vector.rezero Vector.normalize Vector.unit_vector Vector.arr
           Vector.from_components]; apply length_map.
  - assert (C : Vector.consistent Samples.v340) by (repeat split).
    split; [exact C|]. intros C'.
    apply (consistent_after_write Samples.v340) in C';
      [|reflexivity|reflexivity|apply length_map|exact C].
    revert C'. vm_compute. apply head_differs; reflexivity.
  - assert (C : Vector.consistent Samples.v_small) by (repeat split).
    split; [exact C|]. intros C'.
    apply (consistent_after_write Samples.v_small) in C';
      [|reflexivity|reflexivity|apply length_map|exact C].
    revert C'. vm_compute. apply head_differs; reflexivity.
Qed.

End WritesToTheArray.

(** ** The cross product *)

Section CrossProduct.
Local Open Scope float_scope.

(** X3.  [u.cross(v)] is defined exactly for two vectors of two components
    and for two vectors of three components.  With different numbers
    of components, and with the same number other than two or three,
    it raises [ValueError]; in the plane the product is a number; in
    space it is a vector of three components anchored at the tail of
    [u]. *)
Theorem cross_is_defined_in_two_and_three_dimensions (u v : Vector.t float) :
  (Vector.nd u <> Vector.nd v -> Vector.cross u v = Raise ValueError) /\
  (Vector.nd u <> 2%nat -> Vector.nd u <> 3%nat ->
   Vector.cross u v = Raise ValueError) /\
  (Vector.nd u = 2%nat -> Vector.nd v = 2%nat ->
   exists c, Vector.cross u v = Ok (Vector.VNumber c)) /\
  (Vector.nd u = 3%nat -> Vector.nd v = 3%nat ->
   exists w, Vector.cross u v = Ok (Vector.VVector w) /\
             Vector.nd w = 3%nat /\ Vector.derived w /\
             (List.length (Vector.p0 u) = 3%nat -> Vector.p0 w = Vector.p0 u)).
Proof.
  unfold Vector.cross, _check_vector_compatibility, Vector.nd.
  split; [|split; [|split]].
  - intros H. apply Nat.eqb_neq in H. now rewrite H.
  - intros H2 H3.
    destruct (Nat.eqb (List.length (Vector.arr u)) (List.length (Vector.arr v)));
      [|reflexivity].
    destruct (Vector.arr u) as [|a0 [|a1 [|a2 [|a3 la]]]]; simpl in *;
      try reflexivity; try (now destruct H2); try (now destruct H3);
      destruct (Vector.arr v) as [|b0 [|b1 [|b2 [|b3 lb]]]]; reflexivity.
  - intros Hu Hv.
    destruct (Vector.arr u) as [|a0 [|a1 [|a2 la]]]; try discriminate Hu.
    destruct (Vector.arr v) as [|b0 [|b1 [|b2 lb]]]; try discriminate Hv.
    eexists; reflexivity.
  - intros Hu Hv.
    destruct (Vector.arr u) as [|a0 [|a1 [|a2 [|a3 la]]]]; try discriminate Hu.
    destruct (Vector.arr v) as [|b0 [|b1 [|b2 [|b3 lb]]]]; try discriminate Hv.
    eexists; split; [reflexivity|]. split; [reflexivity|].
    split; [apply from_components_derived|].
    intros H0. simpl.
    destruct (Vector.p0 u) as [|c0 [|c1 [|c2 [|c3 lc]]]]; try discriminate H0.
    reflexivity.
Qed.

Lemma SFmul_comm (prec emax : Z) (x y : spec_float) :
  SFmul prec emax x y = SFmul prec emax y x.
Proof.
  destruct x as [sx|sx| |sx mx ex], y as [sy|sy| |sy my ey]; simpl;
    try reflexivity; try (now rewrite xorb_comm).
  now rewrite xorb_comm, Pos.mul_comm, Z.add_comm.
Qed.

Lemma mul_comm (x y : float) : x * y = y * x.
Proof.
  rewrite <- (SF2Prim_Prim2SF (x * y)), <- (SF2Prim_Prim2SF (y * x)).
  rewrite !mul_spec. unfold SF64mul. now rewrite SFmul_comm.
Qed.

Lemma finite_spec (x : float) :
  np.isfinite x = true ->
  (exists s, Prim2SF x = S754_zero s) \/ (exists s m e, Prim2SF x = S754_finite s m e).
Proof.
  unfold np.isfinite. rewrite ltb_spec, abs_spec.
  destruct (Prim2SF x) as [s|s| |s m e]; simpl.
  - intros _. left. now exists s.
  - intros H. discriminate H.
  - intros H. discriminate H.
  - intros _. right. now exists s, m, e.
Qed.

Lemma sub_diag (x : float) : np.isfinite x = true -> x - x = 0.
Proof.
  intros H. rewrite <- (SF2Prim_Prim2SF (x - x)), sub_spec.
  destruct (finite_spec x H) as [(s & E) | (s & m & e & E)]; rewrite E.
  - destruct s; reflexivity.
  - unfold SF64sub, SFsub. rewrite Z.min_id, Z.sub_diag. reflexivity.
Qed.

(** X4.  The cross product of a vector of three components with itself is
    the zero vector at its tail, with every component exactly [0.0],
    as long as the three products of two of its components are
    finite. *)
Theorem cross_with_itself_is_zero (a0 a1 a2 : float) (p p0 : list float) :
  np.isfinite (a0 * a1) = true ->
  np.isfinite (a1 * a2) = true ->
  np.isfinite (a2 * a0) = true ->
  Vector.cross (Vector.mk [a0; a1; a2] p p0) (Vector.mk [a0; a1; a2] p p0)
  = Ok (Vector.VVector (Vector.from_components [0; 0; 0] (Some p0))).
Proof.
  intros H01 H12 H20. unfold Vector.cross. simpl.
  rewrite (mul_comm a2 a1), (mul_comm a0 a2), (mul_comm a1 a0).
  now rewrite !sub_diag.
Qed.

Lemma cross_with_itself_witness :
  Vector.cross Samples.v123 Samples.v123
  = Ok (Vector.VVector (Vector.from_components [0; 0; 0] (Some [0; 0; 0]))).
Proof.
  apply (cross_with_itself_is_zero 1 2 3); reflexivity.
Defined.

End CrossProduct.

(** ** Copies *)

Section Copies.
Context {T : Type} {S : Scalar T}.

Lemma Point_of_point (n : nat) (l : list T) :
  List.length l = n -> Point n (Some l) = l.
Proof.
  intros <-. unfold Point.
  rewrite firstn_app, firstn_all, Nat.sub_diag. simpl. apply app_nil_r.
Qed.

(** X5.  [copy.deepcopy(v)] has the components of [v], and its head is the
    computed sum of tail and components.  When the tail of [v] has as
    many coordinates as [v] has components, the copy has the same
    tail; and when in addition the head of [v] is that sum (as after
    construction from components and after every in-place operation),
    the copy is equal to [v] in all three arrays. *)
Theorem deepcopy_rebuilds_from_components_and_tail (v : Vector.t T) :
  Vector.arr (Vector.__deepcopy__ v) = Vector.arr v /\
  Vector.derived (Vector.__deepcopy__ v) /\
  (List.length (Vector.p0 v) = Vector.nd v ->
   Vector.p0 (Vector.__deepcopy__ v) = Vector.p0 v /\
   Vector.p (Vector.__deepcopy__ v)
   = np.zip_with s_add (Vector.p0 v) (Vector.arr v) /\
   (Vector.p v = np.zip_with s_add (Vector.p0 v) (Vector.arr v) ->
    Vector.__deepcopy__ v = v)).
Proof.
  split; [reflexivity|]. split; [apply from_components_derived|].
  intros H. unfold Vector.__deepcopy__, Vector.from_components, Vector.nd in *.
  cbn [Vector.p Vector.p0 Vector._p Vector._p0 Vector.arr].
  rewrite (Point_of_point _ _ H).
  split; [reflexivity|]. split; [reflexivity|].
  intros Hp. destruct v as [a p p0]. cbn in *. now rewrite Hp.
Qed.

End Copies.

(** ** The order of vectors *)

Section Ordering.
Local Open Scope float_scope.

(** X6.  The comparisons look at the norm and at [==].  When neither norm
    is below the other and the two vectors are not equal, each of
    them is greater than the other ([u > v] and [v > u], [u >= v] and
    [v >= u] are all true) while [u <= v] and [v <= u] are false. *)
Theorem equal_norms_make_each_vector_greater (u v : Vector.t float) :
  Vector.__lt__ u v = false ->
  Vector.__lt__ v u = false ->
  Vector.__eq__ false u v = Ok false ->
  Vector.__eq__ false v u = Ok false ->
  Vector.__gt__ false u v = Ok true /\
  Vector.__gt__ false v u = Ok true /\
  Vector.__ge__ u v = true /\
  Vector.__ge__ v u = true /\
  Vector.__le__ false u v = Ok false /\
  Vector.__le__ false v u = Ok false /\
  Vector.__ne__ false u v = Ok true.
Proof.
  intros Huv Hvu Euv Evu.
  unfold Vector.__gt__, Vector.__ge__, Vector.__le__, Vector.__ne__.
  rewrite Huv, Hvu, Euv, Evu. repeat split.
Qed.

Lemma equal_norms_witness :
  Vector.__gt__ false Samples.v100 Samples.v010 = Ok true /\
  Vector.__gt__ false Samples.v010 Samples.v100 = Ok true /\
  Vector.__ge__ Samples.v100 Samples.v010 = true /\
  Vector.__ge__ Samples.v010 Samples.v100 = true /\
  Vector.__le__ false Samples.v100 Samples.v010 = Ok false /\
  Vector.__le__ false Samples.v010 Samples.v100 = Ok false /\
  Vector.__ne__ false Samples.v100 Samples.v010 = Ok true.
Proof.
  apply (equal_norms_make_each_vector_greater Samples.v100 Samples.v010);
    vm_compute; reflexivity.
Defined.

(** X7.  [u <= v] and [u > v] answer without comparing the arrays when the
    norm of [u] is below the norm of [v]; otherwise they compare them,
    and raise [ValueError] for vectors whose numbers of components
    differ (neither being one).  [u >= v] never raises. *)
Theorem comparisons_of_vectors_of_different_dimensions (u v : Vector.t float) :
  Vector.nd u <> Vector.nd v -> Vector.nd u <> 1%nat -> Vector.nd v <> 1%nat ->
  Vector.__le__ false u v
  = (if Vector.__lt__ u v then Ok true else Raise ValueError) /\
  Vector.__gt__ false u v
  = (if Vector.__lt__ u v then Ok false else Raise ValueError) /\
  Vector.__ne__ false u v = Raise ValueError /\
  Vector.__eq__ false u v = Raise ValueError.
Proof.
  intros H Hu Hv.
  assert (A : np.allclose (Vector.arr u) (Vector.arr v) = Raise ValueError).
  { unfold np.allclose. unfold Vector.nd in *.
    apply Nat.eqb_neq in Hu. rewrite Hu.
    unfold np.broadcast_to at 1. rewrite Nat.eqb_refl. simpl.
    unfold np.broadcast_to.
    assert (Hba : Nat.eqb (List.length (Vector.arr v)) (List.length (Vector.arr u)) = false)
      by (apply Nat.eqb_neq; congruence).
    rewrite Hba.
    destruct (Vector.arr v) as [|c [|c' b]]; simpl in *; try reflexivity.
    congruence. }
  assert (E : Vector.__eq__ false u v = Raise ValueError).
  { unfold Vector.__eq__. now rewrite A. }
  unfold Vector.__gt__, Vector.__le__, Vector.__ne__. rewrite E.
  destruct (Vector.__lt__ u v); repeat split.
Qed.

Lemma comparisons_witness :
  Vector.__le__ false Samples.v123 Samples.v1234 = Ok true /\
  Vector.__le__ false Samples.v1234 Samples.v123 = Raise ValueError.
Proof.
  split.
  - apply (comparisons_of_vectors_of_different_dimensions Samples.v123 Samples.v1234);
      vm_compute; lia.
  - apply (comparisons_of_vectors_of_different_dimensions Samples.v1234 Samples.v123);
      vm_compute; lia.
Defined.

End Ordering.

(** ** Division *)

Section Division.
Local Open Scope float_scope.



End Division.

(** ** Projections *)

Section Projection.
Local Open Scope float_scope.

Lemma mul_nan_l (c : float) : nan * c = nan.
Proof.
  rewrite <- (SF2Prim_Prim2SF (nan * c)), mul_spec. reflexivity.
Qed.

Lemma dot_defined (a b : Vector.t float) :
  Vector.nd a = Vector.nd b ->
  dot a b = Ok (fold_left PrimFloat.add
                  (np.zip_with PrimFloat.mul (Vector.arr a) (Vector.arr b)) 0).
Proof.
  unfold dot, np.dot, Vector.nd. intros ->. now rewrite Nat.eqb_refl.
Qed.

(** X9.  [vector_projection(a, b)] raises [ValueError] when [a] and [b]
    differ in the number of components.  Otherwise both dot products
    are defined and the projection is the vector
    [b * (dot(a, b) / dot(b, b))] that [__mul__] builds: each component
    is the component of [b] multiplied by the quotient of the two dot
    products, there are as many components as [b] has, and the vector
    is anchored at the tail of [b] (not of [a]).  Onto a vector of zero
    length nothing is raised: every component of the projection is a
    NaN. *)
Theorem projection_is_a_multiple_of_the_second_vector (a b : Vector.t float) :
  (Vector.nd a <> Vector.nd b -> vector_projection a b = Raise ValueError) /\
  (Vector.nd a = Vector.nd b ->
   exists ab bb w,
     dot a b = Ok ab /\ dot b b = Ok bb /\
     vector_projection a b = Ok w /\
     snd (Vector.__mul__ b (Vector.Number (ab / bb))) = Ok (Vector.VVector w) /\
     Vector.arr w = map (fun c => (ab / bb) * c) (Vector.arr b) /\
     Vector.nd w = Vector.nd b /\ Vector.derived w /\
     (List.length (Vector.p0 b) = Vector.nd b -> Vector.p0 w = Vector.p0 b) /\
     (zero_length b -> Forall (fun c => c = nan) (Vector.arr w))).
Proof.
  split.
  - intros H. unfold vector_projection, dot, np.dot.
    apply Nat.eqb_neq in H. unfold Vector.nd in H. now rewrite H.
  - intros H. unfold vector_projection.
    rewrite (dot_defined a b H), (dot_defined b b eq_refl).
    cbn [rbind].
    eexists. eexists. eexists.
    split; [reflexivity|]. split; [reflexivity|].
    split; [reflexivity|]. split; [reflexivity|]. split; [reflexivity|].
    split; [|split; [|split]].
    + unfold Vector.nd, Vector.from_components. cbn [Vector.arr].
      apply length_map.
    + apply from_components_derived.
    + intros H0. unfold Vector.from_components. cbn [Vector.p0 Vector._p0].
      apply Point_of_point. rewrite length_map. exact H0.
    + intros Hz. unfold Vector.from_components. cbn [Vector.arr].
      apply Forall_forall. intros c Hin. apply in_map_iff in Hin.
      destruct Hin as (d & <- & _).
      rewrite div_zero_or_nan.
      * apply mul_nan_l.
      * apply fold_add_zero_or_nan; [|now left]. now apply products_zero_r.
      * apply fold_add_zero_or_nan; [|now left]. now apply products_zero_r.
Qed.

End Projection.

(** ** Named components and construction from sequences *)

Section NamedComponents.
Context {T : Type} {S : Scalar T}.

Lemma nth_setitem_other (i j : nat) (u d : T) (a : list T) :
  i <> j -> nth j (np.setitem i u a) d = nth j a d.
Proof.
  revert i j; induction a as [|w a IH]; intros [|i] [|j] H; simpl; try reflexivity.
  - now destruct H.
  - apply IH. congruence.
Qed.

Lemma index_injective (n m : Vector.component) :
  Vector.index n = Vector.index m -> n = m.
Proof. destruct n, m; simpl; congruence. Qed.

(** X10.  Assigning to [v.x], [v.y] or [v.z] and reading the name back.
    Where the name stands for a component (two components: [x] and
    [y]; three: all), the value read back is the value assigned, the
    other names read as before, and the coordinate of the head under
    that name is the computed sum of the coordinate of the tail and
    the value.  Where it does not, the assignment leaves the three
    arrays alone. *)
Theorem component_assignment_round_trip
  (v : Vector.t T) (name : Vector.component) (c : T) :
  (Vector.__getattr__ v name <> None ->
   Vector.__getattr__ (Vector.__setattr__ v name c) name = Some c /\
   (forall other, other <> name ->
      Vector.__getattr__ (Vector.__setattr__ v name c) other
      = Vector.__getattr__ v other) /\
   (List.length (Vector.p v) = Vector.nd v ->
    nth (Vector.index name) (Vector.p (Vector.__setattr__ v name c)) s_zero
    = s_add (nth (Vector.index name) (Vector.p0 v) s_zero) c) /\
   Vector.p0 (Vector.__setattr__ v name c) = Vector.p0 v) /\
  (Vector.__getattr__ v name = None -> Vector.__setattr__ v name c = v).
Proof.
  unfold Vector.__getattr__, Vector.__setattr__.
  destruct ((Nat.eqb (Vector.nd v) 2 && Nat.ltb (Vector.index name) 2)
            || Nat.eqb (Vector.nd v) 3) eqn:E.
  - split; [|discriminate]. intros _.
    assert (Hi : Vector.index name < Vector.nd v).
    { apply orb_true_iff in E. destruct E as [E|E].
      - apply andb_true_iff in E. destruct E as (E2 & El).
        apply Nat.eqb_eq in E2. apply Nat.ltb_lt in El. lia.
      - apply Nat.eqb_eq in E. destruct name; simpl; lia. }
    assert (Hnd : Vector.nd (Vector.mk (np.setitem (Vector.index name) c (Vector.arr v))
                    (np.setitem (Vector.index name)
                       (s_add (nth (Vector.index name) (Vector._p0 v) s_zero) c)
                       (Vector._p v)) (Vector._p0 v)) = Vector.nd v).
    { unfold Vector.nd. cbn [Vector.arr]. apply setitem_length. }
    split; [|split; [|split]].
    + rewrite Hnd. rewrite E. cbn [Vector.arr].
      f_equal. apply nth_setitem_same. exact Hi.
    + intros other Ho. rewrite Hnd. cbn [Vector.arr].
      destruct ((Nat.eqb (Vector.nd v) 2 && Nat.ltb (Vector.index other) 2)
                || Nat.eqb (Vector.nd v) 3); [|reflexivity].
      f_equal. apply nth_setitem_other.
      intros H. apply Ho. symmetry. now apply index_injective.
    + intros Hp. cbn [Vector.p Vector._p]. apply nth_setitem_same.
      unfold Vector.p in Hp. rewrite Hp. exact Hi.
    + reflexivity.
  - split; [intros H; now destruct H|reflexivity].
Qed.

Lemma zero_missing_list_spec (done copy : list (option T)) :
  Vector.zero_missing Vector.PyList (List.length done) copy
    (map (fun coord => Some match coord with Some c => c | None => s_zero end) done
     ++ copy)
  = Ok (map (fun coord => Some match coord with Some c => c | None => s_zero end)
            (done ++ copy)).
Proof.
  revert done; induction copy as [|coord copy IH]; intros done.
  - simpl. now rewrite !app_nil_r.
  - assert (Step : forall u : option T,
              map (fun coord => Some match coord with Some c => c | None => s_zero end)
                  done ++ u :: copy
              = map (fun coord => Some match coord with Some c => c | None => s_zero end)
                    done ++ [u] ++ copy) by reflexivity.
    replace (done ++ coord :: copy) with ((done ++ [coord]) ++ copy)
      by (now rewrite <- app_assoc).
    rewrite <- (IH (done ++ [coord])).
    rewrite length_app, Nat.add_comm. cbn [List.length Nat.add].
    rewrite map_app, <- app_assoc. cbn [map app].
    destruct coord as [c|]; cbn [Vector.zero_missing]; [reflexivity|].
    f_equal.
    clear IH Step. induction done as [|d done IHd]; simpl; [reflexivity|].
    now rewrite IHd.
Qed.

Lemma zero_missing_tuple (i : nat) (copy v : list (option T)) :
  Vector.zero_missing Vector.PyTuple i copy v
  = if existsb (fun coord => match coord with None => true | Some _ => false end) copy
    then Raise TypeError else Ok v.
Proof.
  revert i; induction copy as [|[c|] copy IH]; intros i; simpl; auto.
Qed.

(** X11.  [Vector(v)] for a sequence [v] with entries that may be [None].
    From a list, every [None] counts as zero, the other entries are
    the components, and the list of the caller is left with the zeros
    written into it.  From a tuple without a [None] the entries are
    the components; from a tuple with a [None] anywhere all components
    are zero, whatever the other entries are, and nothing is raised. *)
Theorem construction_from_a_sequence_with_missing_entries
  (v : list (option T)) (p0 : option (list T)) :
  let filled := map (fun coord => match coord with Some c => c | None => s_zero end) v in
  Vector.sequence_components Vector.PyList v = (filled, map Some filled) /\
  Vector.new_from_sequence Vector.PyList v p0
  = Vector.new (Vector.FromSequence v p0) /\
  (In None v ->
   Vector.sequence_components Vector.PyTuple v = (repeat s_zero (List.length v), v)) /\
  (~ In None v ->
   Vector.sequence_components Vector.PyTuple v = (filled, v)).
Proof.
  intros filled.
  assert (L : Vector.sequence_components Vector.PyList v = (filled, map Some filled)).
  { unfold Vector.sequence_components.
    pose proof (zero_missing_list_spec [] v) as H. cbn [List.length map app] in H.
    rewrite H. unfold filled. rewrite !map_map. f_equal. }
  split; [exact L|]. split; [|split].
  - unfold Vector.new_from_sequence. now rewrite L.
  - intros H. unfold Vector.sequence_components. rewrite zero_missing_tuple.
    assert (E : existsb (fun coord : option T =>
                           match coord with None => true | Some _ => false end) v
                = true).
    { apply existsb_exists. exists None. split; [exact H|reflexivity]. }
    now rewrite E.
  - intros H. unfold Vector.sequence_components. rewrite zero_missing_tuple.
    assert (E : existsb (fun coord : option T =>
                           match coord with None => true | Some _ => false end) v
                = false).
    { destruct (existsb _ v) eqn:E; [|reflexivity].
      apply existsb_exists in E. destruct E as ([c|] & Hin & Hc);
        [discriminate Hc|now destruct H]. }
    now rewrite E.
Qed.

End NamedComponents.

(** * Further properties of the lattice *)

Section OrthoMatrix.
Local Open Scope float_scope.

Variables cos sin : float -> float.

(** X12.  Whatever the six lattice parameters are and whatever the C
    library returns, [ortho_matrix] is a 3 x 3 upper-triangular
    matrix: the three entries below the diagonal are exactly [0.0],
    and the first entry is [a] rounded to ten decimals.  Its columns
    are the lattice vectors: [a1] lies along the first axis and [a2]
    in the plane of the first two. *)
Theorem ortho_matrix_is_upper_triangular (L : CrystalLattice.t) :
  exists m12 m13 m22 m23 m33 : float,
    let m11 := np.around (CrystalLattice.a L) np.decimals10 in
    CrystalLattice.ortho_matrix cos sin L
    = [[m11; m12; m13]; [0; m22; m23]; [0; 0; m33]] /\
    linalg.shape (CrystalLattice.ortho_matrix cos sin L) = (3, 3)%nat /\
    CrystalLattice.a1 cos sin L = [m11; 0; 0] /\
    CrystalLattice.a2 cos sin L = [m12; m22; 0] /\
    CrystalLattice.a3 cos sin L = [m13; m23; m33].
Proof.
  assert (Z0 : np.around 0 np.decimals10 = 0) by reflexivity.
  unfold CrystalLattice.a1, CrystalLattice.a2, CrystalLattice.a3,
    CrystalLattice.ortho_matrix, linalg.column, linalg.shape.
  cbn [map nth linalg.nrows linalg.ncols List.length]. rewrite Z0.
  do 5 eexists. cbv zeta. repeat split.
Qed.

End OrthoMatrix.

Section Orientation.
Local Open Scope float_scope.

Variables cos sin arccos : float -> float.
Variable inv : matrix -> matrix.

(** X13.  An [orientation_matrix] passed to the constructor is used only
    when the lattice is given by its six parameters without a cell
    matrix.  With a cell matrix, and with three lattice vectors, the
    orientation is computed from the cell matrix and the inverse of
    the ortho matrix, and the argument has no effect. *)
Theorem orientation_argument_is_overwritten
  (a b c alpha beta gamma : float) (cell_matrix : matrix)
  (a1 a2 a3 : list float) (o : option matrix) :
  CrystalLattice.__init__ cos sin arccos inv
    (CrystalLattice.Parameters a b c alpha beta gamma (Some cell_matrix) o)
  = CrystalLattice.__init__ cos sin arccos inv
      (CrystalLattice.Parameters a b c alpha beta gamma (Some cell_matrix) None) /\
  CrystalLattice.__init__ cos sin arccos inv (CrystalLattice.LatticeVectors a1 a2 a3 o)
  = CrystalLattice.__init__ cos sin arccos inv
      (CrystalLattice.LatticeVectors a1 a2 a3 None) /\
  (forall L,
     CrystalLattice.__init__ cos sin arccos inv
       (CrystalLattice.Parameters a b c alpha beta gamma (Some cell_matrix) o) = Ok L ->
     linalg.matmul (linalg.transpose cell_matrix)
       (inv (CrystalLattice.ortho_matrix cos sin L))
     = Ok (CrystalLattice.orientation_matrix L)) /\
  (forall L,
     CrystalLattice.__init__ cos sin arccos inv
       (CrystalLattice.Parameters a b c alpha beta gamma None o) = Ok L ->
     CrystalLattice.orientation_matrix L
     = match o with Some m => m | None => linalg.identity3 end).
Proof.
  split; [|split; [|split]].
  - reflexivity.
  - unfold CrystalLattice.__init__.
    destruct (Vector.angle arccos _ _); [|reflexivity]. cbn [rbind].
    destruct (Vector.angle arccos _ _); [|reflexivity]. cbn [rbind].
    destruct (Vector.angle arccos _ _); reflexivity.
  - intros L. unfold CrystalLattice.__init__, CrystalLattice.with_cell_matrix.
    destruct (linalg.matmul _ _) as [m|e] eqn:E; [|discriminate].
    cbn [rbind]. intros [= <-]. cbn [CrystalLattice.orientation_matrix].
    exact E.
  - intros L [= <-]. reflexivity.
Qed.

End Orientation.

(** * Further properties of the crystal cells *)

Section Rebuilding.

Variable Lattice : Type.
Variable nd : Lattice -> nat.
Variable lattice_matrix : Lattice -> matrix.
Variable from_cell_matrix : Lattice -> matrix -> Lattice.
Variable cartesian_to_fractional : Lattice -> list float -> list float.
Variable wrap_fractional_coordinate : Lattice -> list float -> list float.
Variable supercell_lattice_points : imatrix -> matrix.
Variable r : xtal_cells.BasisAtom Lattice -> list float.

Hypothesis matrix_rows : forall L, length (lattice_matrix L) = 3.
Hypothesis matrix_columns : forall L, Forall (fun row => length row = 3) (lattice_matrix L).
Hypothesis fractional_3 : forall L pos, length (cartesian_to_fractional L pos) = 3.
Hypothesis wrapped_3 : forall L c, length (wrap_fractional_coordinate L c) = 3.
Hypothesis r_3 : forall atom, length (r atom) = 3.

Local Abbreviation set_scaling_matrix :=
  (xtal_cells.set_scaling_matrix nd lattice_matrix from_cell_matrix
     cartesian_to_fractional wrap_fractional_coordinate
     supercell_lattice_points r).
Local Abbreviation CrystalCell_init :=
  (xtal_cells.CrystalCell_init nd lattice_matrix from_cell_matrix
     cartesian_to_fractional wrap_fractional_coordinate
     supercell_lattice_points r).
Local Abbreviation replicate :=
  (xtal_cells.replicate cartesian_to_fractional wrap_fractional_coordinate r).
Local Abbreviation world := (xtal_cells.world Lattice).
Local Abbreviation atom_labels := (@xtal_cells.labels Lattice).

(** The labels of the replica of [atom] for the translation number
    [i]. *)
Local Abbreviation replica_labels L top atom i :=
  (xtal_cells.element atom, Z.add (Z.mul (Z.of_nat i) top) (xtal_cells.mol atom),
   xtal_cells.id atom, Some L).

Lemma replace_last {A : Type} (l : list A) (u v : A) :
  firstn (length l) (l ++ [u]) ++ v :: skipn (S (length l)) (l ++ [u]) = l ++ [v].
Proof.
  rewrite firstn_app, firstn_all, Nat.sub_diag. cbn [firstn].
  rewrite app_nil_r. f_equal. f_equal.
  rewrite skipn_all2; [reflexivity|]. rewrite length_app. simpl. lia.
Qed.

Lemma nth_error_last {A : Type} (l : list A) (u : A) :
  nth_error (l ++ [u]) (length l) = Some u.
Proof. rewrite nth_error_app2 by lia. now rewrite Nat.sub_diag. Qed.

(** One pass through the body of the loops appends one atom to the
    last container and touches nothing else. *)
Lemma replicate_appends (L : xtal_cells.lattice_object Lattice) (wrap : bool)
  (top : Z) (atom : xtal_cells.BasisAtom Lattice) (i : nat) (tvec : list float)
  (s : xtal_cells.CrystalCell Lattice) (cs : list (xtal_cells.BasisAtoms Lattice))
  (lat : option (xtal_cells.lattice_object Lattice))
  (l : list (xtal_cells.BasisAtom Lattice)) (n : nat) :
  length tvec = 3 -> xtal_cells._basis s = Some (length cs) ->
  exists atom',
    replicate L wrap top atom (i, tvec)
      (xtal_cells.mk_world s (cs ++ [xtal_cells.mk_atoms lat l]) n)
    = (Ok tt, xtal_cells.mk_world s (cs ++ [xtal_cells.mk_atoms lat (l ++ [atom'])]) n) /\
    atom_labels atom' = replica_labels L top atom i.
Proof.
  intros Ht Hb.
  unfold xtal_cells.replicate, xtal_cells.bind, xtal_cells.lift.
  destruct (binary_3 PrimFloat.add (r atom) tvec (r_3 atom) Ht) as (pos & ->).
  destruct (unpack3_ok _ (fractional_3 (xtal_cells.lattice_value L) pos))
    as (((c1 & c2) & c3) & ->).
  set (w := xtal_cells.mk_world s (cs ++ [xtal_cells.mk_atoms lat l]) n).
  assert (W : exists c',
             (if wrap
              then xtal_cells.lift
                     (xtal_cells.unpack3
                        (wrap_fractional_coordinate (xtal_cells.lattice_value L)
                                                    [c1; c2; c3]))
              else xtal_cells.ret (c1, c2, c3)) w = (Ok c', w)).
  { destruct wrap.
    - destruct (unpack3_ok _ (wrapped_3 (xtal_cells.lattice_value L) [c1; c2; c3]))
        as (c' & Hc'). exists c'. unfold xtal_cells.lift. now rewrite Hc'.
    - eexists; reflexivity. }
  destruct W as (((d1 & d2) & d3) & W). unfold xtal_cells.lift in W.
  rewrite W. unfold xtal_cells.get_self, w. cbn [xtal_cells.self]. rewrite Hb.
  unfold xtal_cells.update_container. cbn [xtal_cells.containers xtal_cells.self
                                           xtal_cells.lattices].
  rewrite nth_error_last, replace_last.
  eexists; split; [reflexivity|]. reflexivity.
Qed.

Lemma inner_loop_appends (L : xtal_cells.lattice_object Lattice) (wrap : bool)
  (top : Z) (atom : xtal_cells.BasisAtom Lattice)
  (tvecs : list (nat * list float))
  (s : xtal_cells.CrystalCell Lattice) (cs : list (xtal_cells.BasisAtoms Lattice))
  (lat : option (xtal_cells.lattice_object Lattice))
  (l : list (xtal_cells.BasisAtom Lattice)) (n : nat) :
  Forall (fun it => length (snd it) = 3) tvecs ->
  xtal_cells._basis s = Some (length cs) ->
  exists l',
    xtal_cells.for_each tvecs (replicate L wrap top atom)
      (xtal_cells.mk_world s (cs ++ [xtal_cells.mk_atoms lat l]) n)
    = (Ok tt, xtal_cells.mk_world s (cs ++ [xtal_cells.mk_atoms lat (l ++ l')]) n) /\
    map atom_labels l' = map (fun it => replica_labels L top atom (fst it)) tvecs.
Proof.
  intros H Hb; revert l; induction H as [|[i tvec] tvecs Ht _ IH]; intros l;
    cbn [xtal_cells.for_each].
  - exists []. rewrite app_nil_r. split; reflexivity.
  - unfold xtal_cells.bind at 1. cbn [snd] in Ht.
    destruct (replicate_appends L wrap top atom i tvec s cs lat l n Ht Hb)
      as (atom' & -> & Ha).
    destruct (IH (l ++ [atom'])) as (l' & -> & Hl').
    exists (atom' :: l'). rewrite <- app_assoc. split; [reflexivity|].
    cbn [map fst]. now rewrite Ha, Hl'.
Qed.

Lemma outer_loop_appends (L : xtal_cells.lattice_object Lattice) (wrap : bool)
  (top : Z) (basis : list (xtal_cells.BasisAtom Lattice))
  (tvecs : list (nat * list float))
  (s : xtal_cells.CrystalCell Lattice) (cs : list (xtal_cells.BasisAtoms Lattice))
  (lat : option (xtal_cells.lattice_object Lattice))
  (l : list (xtal_cells.BasisAtom Lattice)) (n : nat) :
  Forall (fun it => length (snd it) = 3) tvecs ->
  xtal_cells._basis s = Some (length cs) ->
  exists l',
    xtal_cells.for_each basis
      (fun atom => xtal_cells.for_each tvecs (replicate L wrap top atom))
      (xtal_cells.mk_world s (cs ++ [xtal_cells.mk_atoms lat l]) n)
    = (Ok tt, xtal_cells.mk_world s (cs ++ [xtal_cells.mk_atoms lat (l ++ l')]) n) /\
    map atom_labels l'
    = flat_map (fun atom => map (fun it => replica_labels L top atom (fst it)) tvecs)
               basis.
Proof.
  intros Ht Hb; revert l; induction basis as [|atom basis IH]; intros l;
    cbn [xtal_cells.for_each].
  - exists []. rewrite app_nil_r. split; reflexivity.
  - unfold xtal_cells.bind at 1.
    destruct (inner_loop_appends L wrap top atom tvecs s cs lat l n Ht Hb)
      as (l1 & -> & H1).
    destruct (IH (l ++ l1)) as (l2 & -> & H2).
    exists (l1 ++ l2). rewrite <- app_assoc. split; [reflexivity|].
    cbn [flat_map]. now rewrite map_app, H1, H2.
Qed.

Lemma map_fst_enumerate {A : Type} (l : list A) :
  map fst (combine (seq 0 (length l)) l) = seq 0 (length l).
Proof.
  generalize 0. induction l as [|a l IH]; intros k; simpl; [reflexivity|].
  now rewrite IH.
Qed.

(** The setter on a cell whose lattice is [L] and whose basis is the
    container [ub], for a value that stands for the 3 x 3 matrix [M]
    and does not take the short cut: the world it leaves. *)
Lemma setter_rebuilds (v : scaling_value) (M : imatrix)
  (L : xtal_cells.lattice_object Lattice) (ub : xtal_cells.ref)
  (uc : option (xtal_cells.UnitCell Lattice)) (wrap : bool)
  (sm : option imatrix) (cs : list (xtal_cells.BasisAtoms Lattice)) (n : nat)
  (b : xtal_cells.BasisAtoms Lattice) (top : Z) :
  nth_error cs ub = Some b ->
  xtal_cells.max_mol (xtal_cells.data b) = Ok top ->
  xtal_cells.normalized (nd (xtal_cells.lattice_value L)) (3, 3) v = Ok M ->
  xtal_cells.is_identity_ndarray v = false ->
  length M = 3 -> Forall (fun row => length row = 3) M ->
  Forall (fun pt => length pt = 3) (supercell_lattice_points M) ->
  exists cm atoms',
    let L' := xtal_cells.mk_lattice n
                (from_cell_matrix (xtal_cells.lattice_value L) cm) in
    linalg.matmul (ints.to_matrix M) (lattice_matrix (xtal_cells.lattice_value L))
    = Ok cm /\
    set_scaling_matrix v
      (xtal_cells.mk_world (xtal_cells.mk_cell (Some ub) (Some L) uc wrap sm) cs n)
    = (Ok tt,
       xtal_cells.mk_world
         (xtal_cells.mk_cell (Some (length cs)) (Some L') uc wrap (Some M))
         ((firstn ub cs ++ xtal_cells.mk_atoms (Some L') (xtal_cells.data b)
             :: skipn (S ub) cs)
          ++ [xtal_cells.mk_atoms None atoms'])
         (S n)) /\
    map atom_labels atoms'
    = flat_map (fun atom =>
                  map (fun i => replica_labels L' top atom i)
                      (seq 0 (length (supercell_lattice_points M))))
               (xtal_cells.data b).
Proof.
  intros Hnth Htop Hnorm Hid Hl Hr Hpts.
  destruct b as [bl bd]. cbn [xtal_cells.data] in *.
  assert (Hlm : linalg.shape (lattice_matrix (xtal_cells.lattice_value L)) = (3, 3)).
  { unfold linalg.shape, linalg.nrows.
    now rewrite matrix_rows, (ncols_3 Lattice lattice_matrix matrix_rows matrix_columns). }
  destruct (matmul_rows (ints.to_matrix M)
              (lattice_matrix (xtal_cells.lattice_value L))) as (cm & Hcm & _).
  { rewrite matrix_rows. now apply to_matrix_rows. }
  pose (L' := xtal_cells.mk_lattice n
                (from_cell_matrix (xtal_cells.lattice_value L) cm)).
  destruct (matmul_rows (supercell_lattice_points M)
              (lattice_matrix (from_cell_matrix (xtal_cells.lattice_value L) cm)))
    as (tvecs & Htv & Htl & Htc).
  { now rewrite matrix_rows. }
  rewrite (ncols_3 Lattice lattice_matrix matrix_rows matrix_columns) in Htc.
  pose (cs' := firstn ub cs ++
               xtal_cells.mk_atoms (Some L') bd :: skipn (S ub) cs).
  assert (Hcs' : length cs' = length cs).
  { assert (La : ub < length cs) by (apply nth_error_Some; congruence).
    unfold cs'. rewrite length_app, length_firstn. cbn [length].
    rewrite length_skipn. lia. }
  pose (s' := xtal_cells.mk_cell (Some (length cs')) (Some L') uc wrap (Some M)).
  destruct (outer_loop_appends L' wrap top bd
              (combine (seq 0 (length tvecs)) tvecs) s' cs' None [] (S n))
    as (atoms' & Hloop & Hlab).
  { now apply enumerate_3. }
  { reflexivity. }
  exists cm, atoms'. cbv zeta. fold L'. split; [exact Hcm|]. split.
  - cbn [app] in Hloop. unfold s' in Hloop. rewrite Hcs' in Hloop at 2.
    fold cs'. rewrite <- Hloop.
    assert (Hread : nth_error cs' ub = Some (xtal_cells.mk_atoms (Some L') bd))
      by (eapply nth_error_replace; eassumption).
    unfold xtal_cells.set_scaling_matrix.
    destruct bd as [|atom0 atoms]; [discriminate Htop|].
    cbn [xtal_cells.max_mol] in Htop. injection Htop as Htop.
    destruct v; try discriminate Hnorm;
      cbv beta iota zeta delta
        [xtal_cells.bind xtal_cells.lift xtal_cells.get_self xtal_cells.supported
         negb xtal_cells.self xtal_cells._lattice];
      rewrite Hid, Hlm, Hnorm;
      cbv beta iota zeta delta
        [xtal_cells.store_scaling_matrix
         xtal_cells.update_self xtal_cells.self xtal_cells.containers
         xtal_cells.lattices xtal_cells._basis xtal_cells._lattice
         xtal_cells._unit_cell xtal_cells.wrap_coords];
      rewrite Hcm;
      cbv beta iota zeta delta
        [xtal_cells.new_lattice xtal_cells.set_lattice xtal_cells.bind
         xtal_cells.update_self xtal_cells.get_self xtal_cells.update_container
         xtal_cells.self xtal_cells.containers xtal_cells.lattices
         xtal_cells._basis xtal_cells._lattice xtal_cells._unit_cell
         xtal_cells.wrap_coords xtal_cells._scaling_matrix];
      rewrite Hnth;
      cbn [xtal_cells.data xtal_cells.lattice_value];
      rewrite Htv;
      cbv beta iota zeta delta
        [xtal_cells.read_container xtal_cells.containers xtal_cells.self
         xtal_cells._basis];
      fold L'; fold cs'; rewrite Hread;
      cbv beta iota zeta delta
        [xtal_cells.max_mol xtal_cells.data xtal_cells.new_container
         xtal_cells.set_basis xtal_cells.update_self xtal_cells.self
         xtal_cells.containers xtal_cells.lattices xtal_cells._basis
         xtal_cells._lattice xtal_cells._unit_cell xtal_cells.wrap_coords
         xtal_cells._scaling_matrix];
      rewrite Htop; unfold s'; rewrite Hcs';
      reflexivity.
  - rewrite Hlab. apply flat_map_ext. intros atom.
    rewrite <- (map_map fst (fun i => replica_labels L' top atom i)).
    rewrite map_fst_enumerate, Htl. reflexivity.
Qed.

(** X14.  [CrystalCell(unit_cell=U, scaling_matrix=v)] for a value [v]
    that stands for the 3 x 3 matrix [M] and is not one of the two
    arrays of the short cut, on a unit cell with a lattice and a basis
    that is not empty.  The basis of the cell holds, atom after atom of
    [U] and for each of them translation after translation, one
    replica with the element and the atom id of the atom, with the
    molecule id [i * max_mol + atom.mol] for the translation number [i]
    ([max_mol] being the largest molecule id in [U]), and with the new
    lattice object of the cell as its lattice. *)
Theorem expansion_labels_every_replica
  (U : xtal_cells.UnitCell Lattice) (wrap : bool) (v : scaling_value)
  (M : imatrix) (w : world) (L : xtal_cells.lattice_object Lattice)
  (atoms : list (xtal_cells.BasisAtom Lattice)) (top : Z) :
  xtal_cells.self w = xtal_cells.blank Lattice ->
  xtal_cells.uc_lattice U = Some L ->
  xtal_cells.unit_cell_atoms U w = Some atoms ->
  xtal_cells.max_mol atoms = Ok top ->
  xtal_cells.normalized (nd (xtal_cells.lattice_value L)) (3, 3) v = Ok M ->
  xtal_cells.is_identity_ndarray v = false ->
  length M = 3 -> Forall (fun row => length row = 3) M ->
  Forall (fun pt => length pt = 3) (supercell_lattice_points M) ->
  exists w' atoms' L',
    CrystalCell_init None None None false wrap (xtal_cells.UCObject U) v w
    = (Ok tt, w') /\
    xtal_cells._lattice (xtal_cells.self w') = Some L' /\
    xtal_cells.lattice_id L' = xtal_cells.lattices w /\
    xtal_cells.basis_atoms w' = Some atoms' /\
    map atom_labels atoms'
    = flat_map (fun atom =>
                  map (fun i => replica_labels L' top atom i)
                      (seq 0 (length (supercell_lattice_points M))))
               atoms.
Proof.
  destruct w as [s cs n]. cbn [xtal_cells.self xtal_cells.lattices].
  intros -> HL Hatoms Htop Hnorm Hid Hl Hr Hpts.
  unfold xtal_cells.unit_cell_atoms in Hatoms. cbn [xtal_cells.containers] in Hatoms.
  destruct (nth_error cs (xtal_cells.uc_basis U)) as [b|] eqn:Hnth;
    [|discriminate Hatoms].
  injection Hatoms as Hdata. rewrite <- Hdata in *.
  change (CrystalCell_init None None None false wrap (xtal_cells.UCObject U) v
            (xtal_cells.mk_world (xtal_cells.blank Lattice) cs n))
    with (set_scaling_matrix v
            (xtal_cells.mk_world
               (xtal_cells.mk_cell (Some (xtal_cells.uc_basis U))
                  (xtal_cells.uc_lattice U) (Some U) wrap None) cs n)).
  rewrite HL.
  destruct (setter_rebuilds v M L (xtal_cells.uc_basis U) (Some U) wrap None cs n b
              top Hnth Htop Hnorm Hid Hl Hr Hpts)
    as (cm & atoms' & _ & Hrun & Hlab).
  cbv zeta in Hrun, Hlab.
  eexists. exists atoms'. eexists.
  split; [exact Hrun|]. split; [reflexivity|]. split; [reflexivity|].
  split; [|exact Hlab].
  unfold xtal_cells.basis_atoms. cbn [xtal_cells.self xtal_cells._basis xtal_cells.containers].
  assert (Hlen : length (firstn (xtal_cells.uc_basis U) cs ++
                         xtal_cells.mk_atoms
                           (Some (xtal_cells.mk_lattice n
                                    (from_cell_matrix (xtal_cells.lattice_value L) cm)))
                           (xtal_cells.data b)
                         :: skipn (S (xtal_cells.uc_basis U)) cs) = length cs).
  { assert (La : xtal_cells.uc_basis U < length cs)
      by (apply nth_error_Some; congruence).
    rewrite length_app, length_firstn. cbn [length]. rewrite length_skipn. lia. }
  rewrite <- Hlen at 1. rewrite nth_error_last. reflexivity.
Qed.

(** X15.  The same call changes the unit cell it is given: the basis
    container of [U] keeps its atoms, but its lattice is now the new
    lattice object of the cell, which is not the lattice object of
    [U]; the other containers are as they were, and the basis of the
    cell is a container that did not exist before. *)
Theorem expansion_gives_the_unit_cell_basis_the_new_lattice
  (U : xtal_cells.UnitCell Lattice) (wrap : bool) (v : scaling_value)
  (M : imatrix) (w : world) (L : xtal_cells.lattice_object Lattice)
  (atoms : list (xtal_cells.BasisAtom Lattice)) :
  xtal_cells.self w = xtal_cells.blank Lattice ->
  xtal_cells.uc_lattice U = Some L ->
  xtal_cells.lattice_id L < xtal_cells.lattices w ->
  xtal_cells.unit_cell_atoms U w = Some atoms -> atoms <> [] ->
  xtal_cells.normalized (nd (xtal_cells.lattice_value L)) (3, 3) v = Ok M ->
  xtal_cells.is_identity_ndarray v = false ->
  length M = 3 -> Forall (fun row => length row = 3) M ->
  Forall (fun pt => length pt = 3) (supercell_lattice_points M) ->
  exists w' L',
    CrystalCell_init None None None false wrap (xtal_cells.UCObject U) v w
    = (Ok tt, w') /\
    xtal_cells._lattice (xtal_cells.self w') = Some L' /\
    L' <> L /\
    nth_error (xtal_cells.containers w') (xtal_cells.uc_basis U)
    = Some (xtal_cells.mk_atoms (Some L') atoms) /\
    xtal_cells.unit_cell_atoms U w' = Some atoms /\
    xtal_cells._basis (xtal_cells.self w') = Some (length (xtal_cells.containers w)) /\
    (forall j, j <> xtal_cells.uc_basis U -> j < length (xtal_cells.containers w) ->
       nth_error (xtal_cells.containers w') j = nth_error (xtal_cells.containers w) j).
Proof.
  destruct w as [s cs n]. cbn [xtal_cells.self xtal_cells.lattices xtal_cells.containers].
  intros -> HL Hid0 Hatoms Hne Hnorm Hid Hl Hr Hpts.
  unfold xtal_cells.unit_cell_atoms in Hatoms. cbn [xtal_cells.containers] in Hatoms.
  destruct (nth_error cs (xtal_cells.uc_basis U)) as [b|] eqn:Hnth;
    [|discriminate Hatoms].
  injection Hatoms as Hdata. rewrite <- Hdata in *.
  assert (Htop : exists top, xtal_cells.max_mol (xtal_cells.data b) = Ok top).
  { destruct (xtal_cells.data b); [now destruct Hne|]. eexists; reflexivity. }
  destruct Htop as (top & Htop).
  change (CrystalCell_init None None None false wrap (xtal_cells.UCObject U) v
            (xtal_cells.mk_world (xtal_cells.blank Lattice) cs n))
    with (set_scaling_matrix v
            (xtal_cells.mk_world
               (xtal_cells.mk_cell (Some (xtal_cells.uc_basis U))
                  (xtal_cells.uc_lattice U) (Some U) wrap None) cs n)).
  rewrite HL.
  destruct (setter_rebuilds v M L (xtal_cells.uc_basis U) (Some U) wrap None cs n b
              top Hnth Htop Hnorm Hid Hl Hr Hpts)
    as (cm & atoms' & _ & Hrun & _).
  cbv zeta in Hrun.
  assert (La : xtal_cells.uc_basis U < length cs)
    by (apply nth_error_Some; congruence).
  eexists. eexists.
  split; [exact Hrun|]. split; [reflexivity|].
  cbn [xtal_cells.self xtal_cells._basis xtal_cells.containers].
  split; [|split; [|split; [|split]]].
  - intros E. rewrite <- E in Hid0. cbn [xtal_cells.lattice_id] in Hid0. lia.
  - rewrite nth_error_app1.
    + eapply nth_error_replace. exact Hnth.
    + rewrite length_app, length_firstn. cbn [length]. rewrite length_skipn. lia.
  - unfold xtal_cells.unit_cell_atoms. cbn [xtal_cells.containers].
    rewrite nth_error_app1.
    + erewrite nth_error_replace by exact Hnth. reflexivity.
    + rewrite length_app, length_firstn. cbn [length]. rewrite length_skipn. lia.
  - reflexivity.
  - intros j Hj Hlt.
    rewrite nth_error_app1
      by (rewrite length_app, length_firstn; cbn [length]; rewrite length_skipn; lia).
    destruct (Nat.lt_ge_cases j (xtal_cells.uc_basis U)) as [Hlo|Hhi].
    + rewrite nth_error_app1 by (rewrite length_firstn; lia).
      rewrite nth_error_firstn.
      assert (E : (j <? xtal_cells.uc_basis U) = true) by (apply Nat.ltb_lt; exact Hlo).
      now rewrite E.
    + rewrite nth_error_app2 by (rewrite length_firstn; lia).
      rewrite length_firstn, Nat.min_l by lia.
      destruct (j - xtal_cells.uc_basis U) as [|k] eqn:Ek; [lia|].
      cbn [nth_error]. rewrite nth_error_skipn. f_equal. lia.
Qed.

Lemma matmul_bad_row (m1 m2 : matrix) :
  (exists row, In row m1 /\ length row <> length m2) ->
  linalg.matmul m1 m2 = Raise ValueError.
Proof.
  intros (row & Hin & Hlen). unfold linalg.matmul.
  assert (F : forallb (fun r0 => Nat.eqb (length r0) (linalg.nrows m2)) m1 = false).
  { destruct (forallb _ m1) eqn:F; [|reflexivity].
    rewrite forallb_forall in F. specialize (F row Hin).
    apply Nat.eqb_eq in F. now destruct Hlen. }
  now rewrite F.
Qed.

(** X16.  Assigning a scaling value whose matrix does not have rows of
    three entries (a list of two numbers, say, which stands for a
    2 x 2 diagonal matrix) raises [ValueError] at the product with the
    lattice matrix.  By then the matrix has been stored: the cell keeps
    its lattice and its basis, and has the new scaling matrix. *)
Theorem scaling_matrix_of_the_wrong_size_is_stored_before_the_error
  (v : scaling_value) (M : imatrix) (s : xtal_cells.CrystalCell Lattice)
  (L : xtal_cells.lattice_object Lattice)
  (cs : list (xtal_cells.BasisAtoms Lattice)) (n : nat) :
  xtal_cells._lattice s = Some L ->
  xtal_cells.normalized (nd (xtal_cells.lattice_value L)) (3, 3) v = Ok M ->
  xtal_cells.is_identity_ndarray v = false ->
  (exists row, In row M /\ length row <> 3) ->
  set_scaling_matrix v (xtal_cells.mk_world s cs n)
  = (Raise ValueError,
     xtal_cells.mk_world
       (xtal_cells.mk_cell (xtal_cells._basis s) (xtal_cells._lattice s)
          (xtal_cells._unit_cell s) (xtal_cells.wrap_coords s) (Some M))
       cs n).
Proof.
  intros HL Hnorm Hid (row & Hin & Hlen).
  assert (Hlm : linalg.shape (lattice_matrix (xtal_cells.lattice_value L)) = (3, 3)).
  { unfold linalg.shape, linalg.nrows.
    now rewrite matrix_rows, (ncols_3 Lattice lattice_matrix matrix_rows matrix_columns). }
  assert (Hmm : linalg.matmul (ints.to_matrix M)
                  (lattice_matrix (xtal_cells.lattice_value L)) = Raise ValueError).
  { apply matmul_bad_row. exists (map ints.to_float row). split.
    - unfold ints.to_matrix. now apply in_map.
    - now rewrite length_map, matrix_rows. }
  unfold xtal_cells.set_scaling_matrix.
  destruct v; try discriminate Hnorm;
    cbv beta iota zeta delta
      [xtal_cells.bind xtal_cells.lift xtal_cells.get_self xtal_cells.supported
       negb xtal_cells.self];
    rewrite HL, Hid, Hlm, Hnorm;
    cbv beta iota zeta delta
      [xtal_cells.store_scaling_matrix
       xtal_cells.update_self xtal_cells.self xtal_cells.containers
       xtal_cells.lattices];
    rewrite Hmm, <- HL; reflexivity.
Qed.

(** X17.  Assigning a scaling value to a cell whose basis is empty raises
    [ValueError] (the largest molecule id of no atoms).  By then the
    scaling matrix has been stored and the lattice of the cell and of
    its basis container replaced by a new lattice object. *)
Theorem expansion_of_an_empty_basis_fails_half_way
  (v : scaling_value) (M : imatrix)
  (L : xtal_cells.lattice_object Lattice) (ub : xtal_cells.ref)
  (uc : option (xtal_cells.UnitCell Lattice)) (wrap : bool)
  (sm : option imatrix) (cs : list (xtal_cells.BasisAtoms Lattice)) (n : nat)
  (b : xtal_cells.BasisAtoms Lattice) :
  nth_error cs ub = Some b ->
  xtal_cells.data b = [] ->
  xtal_cells.normalized (nd (xtal_cells.lattice_value L)) (3, 3) v = Ok M ->
  xtal_cells.is_identity_ndarray v = false ->
  length M = 3 -> Forall (fun row => length row = 3) M ->
  Forall (fun pt => length pt = 3) (supercell_lattice_points M) ->
  exists cm,
    let L' := xtal_cells.mk_lattice n
                (from_cell_matrix (xtal_cells.lattice_value L) cm) in
    set_scaling_matrix v
      (xtal_cells.mk_world (xtal_cells.mk_cell (Some ub) (Some L) uc wrap sm) cs n)
    = (Raise ValueError,
       xtal_cells.mk_world
         (xtal_cells.mk_cell (Some ub) (Some L') uc wrap (Some M))
         (firstn ub cs ++ xtal_cells.mk_atoms (Some L') [] :: skipn (S ub) cs)
         (S n)).
Proof.
  intros Hnth Hempty Hnorm Hid Hl Hr Hpts.
  destruct b as [bl bd]. cbn [xtal_cells.data] in *. subst bd.
  assert (Hlm : linalg.shape (lattice_matrix (xtal_cells.lattice_value L)) = (3, 3)).
  { unfold linalg.shape, linalg.nrows.
    now rewrite matrix_rows, (ncols_3 Lattice lattice_matrix matrix_rows matrix_columns). }
  destruct (matmul_rows (ints.to_matrix M)
              (lattice_matrix (xtal_cells.lattice_value L))) as (cm & Hcm & _).
  { rewrite matrix_rows. now apply to_matrix_rows. }
  pose (L' := xtal_cells.mk_lattice n
                (from_cell_matrix (xtal_cells.lattice_value L) cm)).
  destruct (matmul_rows (supercell_lattice_points M)
              (lattice_matrix (from_cell_matrix (xtal_cells.lattice_value L) cm)))
    as (tvecs & Htv & _).
  { now rewrite matrix_rows. }
  pose (cs' := firstn ub cs ++
               xtal_cells.mk_atoms (Some L') [] :: skipn (S ub) cs).
  assert (Hread : nth_error cs' ub = Some (xtal_cells.mk_atoms (Some L') []))
    by (eapply nth_error_replace; eassumption).
  exists cm. cbv zeta. fold L'. fold cs'.
  unfold xtal_cells.set_scaling_matrix.
  destruct v; try discriminate Hnorm;
    cbv beta iota zeta delta
      [xtal_cells.bind xtal_cells.lift xtal_cells.get_self xtal_cells.supported
       negb xtal_cells.self xtal_cells._lattice];
    rewrite Hid, Hlm, Hnorm;
    cbv beta iota zeta delta
      [xtal_cells.store_scaling_matrix
       xtal_cells.update_self xtal_cells.self xtal_cells.containers
       xtal_cells.lattices xtal_cells._basis xtal_cells._lattice
       xtal_cells._unit_cell xtal_cells.wrap_coords];
    rewrite Hcm;
    cbv beta iota zeta delta
      [xtal_cells.new_lattice xtal_cells.set_lattice xtal_cells.bind
       xtal_cells.update_self xtal_cells.get_self xtal_cells.update_container
       xtal_cells.self xtal_cells.containers xtal_cells.lattices
       xtal_cells._basis xtal_cells._lattice xtal_cells._unit_cell
       xtal_cells.wrap_coords xtal_cells._scaling_matrix];
    rewrite Hnth;
    cbn [xtal_cells.data xtal_cells.lattice_value];
    rewrite Htv;
    cbv beta iota zeta delta
      [xtal_cells.read_container xtal_cells.containers xtal_cells.self
       xtal_cells._basis];
    fold L'; fold cs'; rewrite Hread;
    reflexivity.
Qed.

Local Abbreviation translate_basis :=
  (xtal_cells.translate_basis cartesian_to_fractional wrap_fractional_coordinate).
Local Abbreviation shifted :=
  (xtal_cells.shifted wrap_fractional_coordinate).

Lemma binary_3_1 (f : float -> float -> float) (a b : list float) :
  length a = 3 -> length b = 3 \/ length b = 1 ->
  exists c, np.binary f a b = Ok c /\ length c = 3.
Proof.
  intros Ha Hb.
  destruct a as [|a0 [|a1 [|a2 [|a3 a]]]]; try discriminate Ha.
  destruct Hb as [Hb|Hb].
  - destruct b as [|b0 [|b1 [|b2 [|b3 b]]]]; try discriminate Hb.
    eexists; split; reflexivity.
  - destruct b as [|b0 [|b1 b]]; try discriminate Hb.
    eexists; split; reflexivity.
Qed.

Lemma shifted_appends (t : list float) (wrap : bool)
  (atom : xtal_cells.BasisAtom Lattice)
  (s : xtal_cells.CrystalCell Lattice) (L : xtal_cells.lattice_object Lattice)
  (cs : list (xtal_cells.BasisAtoms Lattice))
  (lat : option (xtal_cells.lattice_object Lattice))
  (l : list (xtal_cells.BasisAtom Lattice)) (n : nat) :
  length t = 3 \/ length t = 1 ->
  xtal_cells._lattice s = Some L -> xtal_cells._basis s = Some (length cs) ->
  exists atom',
    shifted t wrap atom
      (xtal_cells.mk_world s (cs ++ [xtal_cells.mk_atoms lat l]) n)
    = (Ok tt, xtal_cells.mk_world s (cs ++ [xtal_cells.mk_atoms lat (l ++ [atom'])]) n) /\
    atom_labels atom'
    = (xtal_cells.element atom, xtal_cells.mol atom, xtal_cells.id atom, Some L).
Proof.
  intros Ht HL Hb.
  unfold xtal_cells.shifted, xtal_cells.bind, xtal_cells.lift.
  destruct (binary_3_1 PrimFloat.add
              [xtal_cells.xs atom; xtal_cells.ys atom; xtal_cells.zs atom] t
              eq_refl Ht) as (pos & -> & Hpos).
  destruct (unpack3_ok _ Hpos) as (((c1 & c2) & c3) & ->).
  unfold xtal_cells.get_self. cbn [xtal_cells.self]. rewrite HL.
  destruct wrap.
  - destruct (unpack3_ok _ (wrapped_3 (xtal_cells.lattice_value L) [c1; c2; c3]))
      as (((d1 & d2) & d3) & Hc').
    rewrite Hc', Hb. unfold xtal_cells.update_container.
    cbn [xtal_cells.containers xtal_cells.self xtal_cells.lattices].
    rewrite nth_error_last, replace_last.
    eexists; split; reflexivity.
  - unfold xtal_cells.ret. rewrite Hb. unfold xtal_cells.update_container.
    cbn [xtal_cells.containers xtal_cells.self xtal_cells.lattices].
    rewrite nth_error_last, replace_last.
    eexists; split; reflexivity.
Qed.

Lemma shifted_loop (t : list float) (wrap : bool)
  (basis : list (xtal_cells.BasisAtom Lattice))
  (s : xtal_cells.CrystalCell Lattice) (L : xtal_cells.lattice_object Lattice)
  (cs : list (xtal_cells.BasisAtoms Lattice))
  (lat : option (xtal_cells.lattice_object Lattice))
  (l : list (xtal_cells.BasisAtom Lattice)) (n : nat) :
  length t = 3 \/ length t = 1 ->
  xtal_cells._lattice s = Some L -> xtal_cells._basis s = Some (length cs) ->
  exists l',
    xtal_cells.for_each basis (shifted t wrap)
      (xtal_cells.mk_world s (cs ++ [xtal_cells.mk_atoms lat l]) n)
    = (Ok tt, xtal_cells.mk_world s (cs ++ [xtal_cells.mk_atoms lat (l ++ l')]) n) /\
    map atom_labels l'
    = map (fun atom => (xtal_cells.element atom, xtal_cells.mol atom,
                        xtal_cells.id atom, Some L)) basis.
Proof.
  intros Ht HL Hb; revert l; induction basis as [|atom basis IH]; intros l;
    cbn [xtal_cells.for_each].
  - exists []. rewrite app_nil_r. split; reflexivity.
  - unfold xtal_cells.bind at 1.
    destruct (shifted_appends t wrap atom s L cs lat l n Ht HL Hb)
      as (atom' & -> & Ha).
    destruct (IH (l ++ [atom'])) as (l' & -> & Hl').
    exists (atom' :: l'). rewrite <- app_assoc. split; [reflexivity|].
    cbn [map]. now rewrite Ha, Hl'.
Qed.

(** X18.  [translate_basis] on a cell with a lattice, for a translation
    that is Cartesian (and is converted by the lattice) or has three
    entries or one: the basis of the cell becomes a new container that
    holds, in the same order, one atom for each atom of the old basis,
    with the same element, molecule id and atom id and with the
    lattice of the cell; the old container is left as it was. *)
Theorem translate_basis_rebuilds_the_basis_atom_by_atom
  (t : list float) (cartesian wrap : bool)
  (s : xtal_cells.CrystalCell Lattice) (L : xtal_cells.lattice_object Lattice)
  (ub : xtal_cells.ref) (b : xtal_cells.BasisAtoms Lattice)
  (cs : list (xtal_cells.BasisAtoms Lattice)) (n : nat) :
  xtal_cells._lattice s = Some L ->
  xtal_cells._basis s = Some ub ->
  nth_error cs ub = Some b ->
  cartesian = true \/ length t = 3 \/ length t = 1 ->
  exists atoms',
    translate_basis t cartesian wrap (xtal_cells.mk_world s cs n)
    = (Ok tt,
       xtal_cells.mk_world
         (xtal_cells.mk_cell (Some (length cs)) (xtal_cells._lattice s)
            (xtal_cells._unit_cell s) (xtal_cells.wrap_coords s)
            (xtal_cells._scaling_matrix s))
         (cs ++ [xtal_cells.mk_atoms None atoms']) n) /\
    length atoms' = length (xtal_cells.data b) /\
    map atom_labels atoms'
    = map (fun atom => (xtal_cells.element atom, xtal_cells.mol atom,
                        xtal_cells.id atom, Some L)) (xtal_cells.data b).
Proof.
  intros HL Hb Hnth Ht.
  set (t' := if cartesian
             then cartesian_to_fractional (xtal_cells.lattice_value L) t else t).
  assert (Ht' : length t' = 3 \/ length t' = 1).
  { unfold t'. destruct cartesian; [left; apply fractional_3|].
    destruct Ht as [Ht|Ht]; [discriminate Ht|exact Ht]. }
  set (s' := xtal_cells.mk_cell (Some (length cs)) (xtal_cells._lattice s)
               (xtal_cells._unit_cell s) (xtal_cells.wrap_coords s)
               (xtal_cells._scaling_matrix s)).
  destruct (shifted_loop t' wrap (xtal_cells.data b) s' L cs None [] n Ht' HL eq_refl)
    as (atoms' & Hloop & Hlab).
  exists atoms'. split; [|split; [|exact Hlab]].
  - cbn [app] in Hloop. rewrite <- Hloop.
    unfold xtal_cells.translate_basis, xtal_cells.bind, xtal_cells.get_self.
    cbn [xtal_cells.self]. rewrite HL, Hb.
    unfold xtal_cells.read_container. cbn [xtal_cells.containers].
    destruct cartesian; unfold xtal_cells.ret; cbn [xtal_cells.containers];
      rewrite Hnth; reflexivity.
  - apply (f_equal (@length _)) in Hlab. now rewrite !length_map in Hlab.
Qed.

(** X19.  [translate_basis] with a translation in fractional coordinates
    that has neither three entries nor one, on a cell whose basis is
    not empty, raises [ValueError] at the first atom.  By then the
    basis of the cell has been replaced: the cell is left with a new,
    empty basis container. *)
Theorem translate_basis_of_the_wrong_size_empties_the_basis
  (t : list float) (wrap : bool)
  (s : xtal_cells.CrystalCell Lattice)
  (ub : xtal_cells.ref) (b : xtal_cells.BasisAtoms Lattice)
  (cs : list (xtal_cells.BasisAtoms Lattice)) (n : nat) :
  xtal_cells._basis s = Some ub ->
  nth_error cs ub = Some b ->
  xtal_cells.data b <> [] ->
  length t <> 3 -> length t <> 1 ->
  exists w',
    translate_basis t false wrap (xtal_cells.mk_world s cs n) = (Raise ValueError, w') /\
    xtal_cells.basis_atoms w' = Some [] /\
    xtal_cells._basis (xtal_cells.self w') = Some (length cs) /\
    nth_error (xtal_cells.containers w') ub = Some b.
Proof.
  intros Hb Hnth Hne H3 H1.
  destruct (xtal_cells.data b) as [|atom basis] eqn:Hdata; [now destruct Hne|].
  eexists. split.
  - unfold xtal_cells.translate_basis, xtal_cells.bind, xtal_cells.get_self,
      xtal_cells.ret.
    cbn [xtal_cells.self]. rewrite Hb.
    unfold xtal_cells.read_container. cbn [xtal_cells.containers]. rewrite Hnth.
    rewrite Hdata.
    cbn [xtal_cells.new_container xtal_cells.set_basis xtal_cells.update_self
         xtal_cells.for_each xtal_cells.self xtal_cells.containers xtal_cells.lattices].
    unfold xtal_cells.bind at 1. unfold xtal_cells.shifted, xtal_cells.bind at 1.
    unfold xtal_cells.lift at 1.
    rewrite binary_mismatch; [reflexivity| | |]; simpl; congruence.
  - cbn [xtal_cells.self xtal_cells._basis xtal_cells.containers].
    split; [|split; [reflexivity|]].
    + unfold xtal_cells.basis_atoms.
      cbn [xtal_cells.self xtal_cells._basis xtal_cells.containers].
      now rewrite nth_error_last.
    + rewrite nth_error_app1; [exact Hnth|].
      apply nth_error_Some. congruence.
Qed.

(** X20.  After the expansion, [update_lattice_and_basis(to_unit_cell=True)]
    makes the basis and the lattice of the cell those of the unit cell
    again, with the atoms the unit cell had; the scaling matrix stays
    the matrix of the expansion, and the lattice of the basis container
    stays the lattice object the expansion has made, which is not the
    lattice of the cell. *)
Theorem reset_to_the_unit_cell_keeps_the_scaling_matrix
  (U : xtal_cells.UnitCell Lattice) (wrap : bool) (v : scaling_value)
  (M : imatrix) (w : world) (L : xtal_cells.lattice_object Lattice)
  (atoms : list (xtal_cells.BasisAtom Lattice)) :
  xtal_cells.self w = xtal_cells.blank Lattice ->
  xtal_cells.uc_lattice U = Some L ->
  xtal_cells.lattice_id L < xtal_cells.lattices w ->
  xtal_cells.unit_cell_atoms U w = Some atoms -> atoms <> [] ->
  xtal_cells.normalized (nd (xtal_cells.lattice_value L)) (3, 3) v = Ok M ->
  xtal_cells.is_identity_ndarray v = false ->
  length M = 3 -> Forall (fun row => length row = 3) M ->
  Forall (fun pt => length pt = 3) (supercell_lattice_points M) ->
  exists w' w'' L',
    CrystalCell_init None None None false wrap (xtal_cells.UCObject U) v w
    = (Ok tt, w') /\
    xtal_cells.update_lattice_and_basis true None w' = (Ok tt, w'') /\
    xtal_cells._basis (xtal_cells.self w'') = Some (xtal_cells.uc_basis U) /\
    xtal_cells._lattice (xtal_cells.self w'') = Some L /\
    xtal_cells.basis_atoms w'' = Some atoms /\
    xtal_cells._scaling_matrix (xtal_cells.self w'') = Some M /\
    option_map (@xtal_cells.atoms_lattice Lattice)
      (nth_error (xtal_cells.containers w'') (xtal_cells.uc_basis U))
    = Some (Some L') /\
    L' <> L.
Proof.
  destruct w as [s cs n]. cbn [xtal_cells.self xtal_cells.lattices xtal_cells.containers].
  intros -> HL Hid0 Hatoms Hne Hnorm Hid Hl Hr Hpts.
  unfold xtal_cells.unit_cell_atoms in Hatoms. cbn [xtal_cells.containers] in Hatoms.
  destruct (nth_error cs (xtal_cells.uc_basis U)) as [b|] eqn:Hnth;
    [|discriminate Hatoms].
  injection Hatoms as Hdata. rewrite <- Hdata in *.
  assert (Htop : exists top, xtal_cells.max_mol (xtal_cells.data b) = Ok top).
  { destruct (xtal_cells.data b); [now destruct Hne|]. eexists; reflexivity. }
  destruct Htop as (top & Htop).
  change (CrystalCell_init None None None false wrap (xtal_cells.UCObject U) v
            (xtal_cells.mk_world (xtal_cells.blank Lattice) cs n))
    with (set_scaling_matrix v
            (xtal_cells.mk_world
               (xtal_cells.mk_cell (Some (xtal_cells.uc_basis U))
                  (xtal_cells.uc_lattice U) (Some U) wrap None) cs n)).
  rewrite HL.
  destruct (setter_rebuilds v M L (xtal_cells.uc_basis U) (Some U) wrap None cs n b
              top Hnth Htop Hnorm Hid Hl Hr Hpts)
    as (cm & atoms' & _ & Hrun & _).
  cbv zeta in Hrun.
  assert (La : xtal_cells.uc_basis U < length cs)
    by (apply nth_error_Some; congruence).
  eexists. eexists. eexists.
  split; [exact Hrun|]. split; [reflexivity|].
  cbn [xtal_cells.self xtal_cells._basis xtal_cells._lattice xtal_cells._unit_cell
       xtal_cells._scaling_matrix xtal_cells.containers].
  assert (Hn : nth_error
                 ((firstn (xtal_cells.uc_basis U) cs ++
                   xtal_cells.mk_atoms
                     (Some (xtal_cells.mk_lattice n
                              (from_cell_matrix (xtal_cells.lattice_value L) cm)))
                     (xtal_cells.data b)
                   :: skipn (S (xtal_cells.uc_basis U)) cs) ++
                  [xtal_cells.mk_atoms None atoms']) (xtal_cells.uc_basis U)
               = Some (xtal_cells.mk_atoms
                         (Some (xtal_cells.mk_lattice n
                                  (from_cell_matrix (xtal_cells.lattice_value L) cm)))
                         (xtal_cells.data b))).
  { rewrite nth_error_app1.
    - eapply nth_error_replace. exact Hnth.
    - rewrite length_app, length_firstn. cbn [length]. rewrite length_skipn. lia. }
  split; [reflexivity|]. split; [exact HL|]. split; [|split; [reflexivity|split]].
  - unfold xtal_cells.basis_atoms.
    cbn [xtal_cells.self xtal_cells._basis xtal_cells.containers].
    now rewrite Hn.
  - now rewrite Hn.
  - intros E. rewrite <- E in Hid0. cbn [xtal_cells.lattice_id] in Hid0. lia.
Qed.

End Rebuilding.

(** ** Molecule ids, equality and construction of cells *)

Section CellValues.

Variable Lattice : Type.

Lemma max_mol_is_an_upper_bound (atoms : list (xtal_cells.BasisAtom Lattice))
  (top : Z) (a : xtal_cells.BasisAtom Lattice) :
  xtal_cells.max_mol atoms = Ok top -> In a atoms -> (xtal_cells.mol a <= top)%Z.
Proof.
  destruct atoms as [|a0 atoms]; [discriminate|].
  cbn [xtal_cells.max_mol]. intros [= <-].
  assert (G : forall (l : list Z) (acc : Z),
             (acc <= fold_left Z.max l acc)%Z /\
             (forall m, In m l -> (m <= fold_left Z.max l acc)%Z)).
  { induction l as [|m l IH]; intros acc; simpl.
    - split; [lia|intros m []].
    - destruct (IH (Z.max acc m)) as (H1 & H2). split; [lia|].
      intros m' [<-|Hin]; [lia|now apply H2]. }
  intros [<-|Hin].
  - exact (proj1 (G _ _)).
  - apply (proj2 (G _ _)). now apply in_map.
Qed.

(** X21.  The molecule id [i * max_mol + atom.mol] of a replica tells the
    translation and the molecule apart when the molecule ids of the
    basis start at one: two replicas get the same id only for the
    same translation number and the same molecule id of their atoms.
    Every such id lies above [i * max_mol] and not above
    [(i + 1) * max_mol]. *)
Theorem replica_molecule_ids_do_not_collide
  (atoms : list (xtal_cells.BasisAtom Lattice)) (top : Z)
  (a b : xtal_cells.BasisAtom Lattice) (i j : nat) :
  xtal_cells.max_mol atoms = Ok top ->
  (forall c, In c atoms -> (1 <= xtal_cells.mol c)%Z) ->
  In a atoms -> In b atoms ->
  (Z.of_nat i * top < Z.of_nat i * top + xtal_cells.mol a <= (Z.of_nat i + 1) * top)%Z /\
  ((Z.of_nat i * top + xtal_cells.mol a = Z.of_nat j * top + xtal_cells.mol b)%Z ->
   i = j /\ xtal_cells.mol a = xtal_cells.mol b).
Proof.
  intros Htop Hpos Ha Hb.
  pose proof (max_mol_is_an_upper_bound atoms top a Htop Ha) as Ua.
  pose proof (max_mol_is_an_upper_bound atoms top b Htop Hb) as Ub.
  pose proof (Hpos a Ha) as La. pose proof (Hpos b Hb) as Lb.
  split; [lia|]. intros E.
  assert (i = j) by nia. subst j. split; [reflexivity|lia].
Qed.

(** X22.  [cell == other] for two cells that have a scaling matrix.  When
    one of them has no unit cell the comparison returns [None], also
    for a cell and itself.  When both have one and the two matrices
    differ in shape, the cells are equal only if they are one object;
    with the same shape they are one object, or the unit cells are
    equal and the matrices close. *)
Theorem equality_of_cells_needs_unit_cells
  (unit_cell_eq : xtal_cells.UnitCell Lattice -> xtal_cells.UnitCell Lattice -> bool)
  (same_object : bool) (c1 c2 : xtal_cells.CrystalCell Lattice) (m1 m2 : imatrix) :
  xtal_cells._scaling_matrix c1 = Some m1 ->
  xtal_cells._scaling_matrix c2 = Some m2 ->
  (xtal_cells._unit_cell c1 = None \/ xtal_cells._unit_cell c2 = None ->
   xtal_cells.__eq__ unit_cell_eq same_object c1 c2 = Ok None) /\
  (forall U1 U2,
     xtal_cells._unit_cell c1 = Some U1 -> xtal_cells._unit_cell c2 = Some U2 ->
     (ints.shape m1 <> ints.shape m2 ->
      xtal_cells.__eq__ unit_cell_eq same_object c1 c2 = Ok (Some same_object)) /\
     (ints.shape m1 = ints.shape m2 ->
      xtal_cells.__eq__ unit_cell_eq same_object c1 c2
      = Ok (Some (same_object
                  || (unit_cell_eq U1 U2 && xtal_cells.allclose_int m1 m2))%bool))).
Proof.
  intros H1 H2. unfold xtal_cells.__eq__. rewrite H1, H2. split.
  - intros [-> | ->]; [reflexivity|].
    now destruct (xtal_cells._unit_cell c1).
  - intros U1 U2 -> ->. split.
    + intros Hs.
      destruct (Nat.eqb_spec (fst (ints.shape m1)) (fst (ints.shape m2))) as [E1|E1];
        destruct (Nat.eqb_spec (snd (ints.shape m1)) (snd (ints.shape m2))) as [E2|E2];
        cbn [andb];
        try (now rewrite andb_false_r, orb_false_r).
      destruct Hs. destruct (ints.shape m1), (ints.shape m2). simpl in *. congruence.
    + intros Hs. rewrite Hs, !Nat.eqb_refl. reflexivity.
Qed.

End CellValues.

Section Construction.

Variable Lattice : Type.
Variable nd : Lattice -> nat.
Variable lattice_matrix : Lattice -> matrix.
Variable from_cell_matrix : Lattice -> matrix -> Lattice.
Variable cartesian_to_fractional : Lattice -> list float -> list float.
Variable wrap_fractional_coordinate : Lattice -> list float -> list float.
Variable supercell_lattice_points : imatrix -> matrix.
Variable r : xtal_cells.BasisAtom Lattice -> list float.

Local Abbreviation CrystalCell_init :=
  (xtal_cells.CrystalCell_init nd lattice_matrix from_cell_matrix
     cartesian_to_fractional wrap_fractional_coordinate
     supercell_lattice_points r).
Local Abbreviation place_all := (xtal_cells.place_all cartesian_to_fractional).

Lemma place_all_fractional (L : xtal_cells.lattice_object Lattice)
  (atoms : list (xtal_cells.BasisAtom Lattice)) (coords : list (list float)) :
  length atoms = length coords ->
  Forall (fun pos => length pos = 3) coords ->
  exists atoms',
    place_all L false atoms coords = Ok atoms' /\
    map (@xtal_cells.labels Lattice) atoms'
    = map (fun atom => (xtal_cells.element atom, xtal_cells.mol atom,
                        xtal_cells.id atom, Some L)) atoms /\
    map (fun atom => [xtal_cells.xs atom; xtal_cells.ys atom; xtal_cells.zs atom])
        atoms' = coords.
Proof.
  revert coords; induction atoms as [|atom atoms IH]; intros [|pos coords] Hl Hc;
    try discriminate Hl.
  - exists []. repeat split.
  - inversion Hc as [|? ? Hpos Hrest]; subst.
    destruct (IH coords) as (atoms' & Hrun & Hlab & Hxyz); [simpl in Hl; lia|exact Hrest|].
    destruct pos as [|c1 [|c2 [|c3 [|c4 pos]]]]; try discriminate Hpos.
    cbn [xtal_cells.place_all xtal_cells.place xtal_cells.unpack3 rbind].
    rewrite Hrun. cbn [rbind].
    eexists. split; [reflexivity|]. cbn [map]. rewrite Hlab, Hxyz.
    split; reflexivity.
Qed.

(** X23.  [CrystalCell(lattice, basis, coords)]: the positions are given
    to the atoms only when there is a lattice and there are as many
    positions as atoms.  Without a lattice, and with a list of
    positions of another length, nothing is raised and the atoms stay
    where they are.  With as many fractional positions of three
    coordinates as atoms, each atom gets its position and the
    lattice, and keeps element, molecule id and atom id. *)
Theorem positions_need_a_lattice_and_one_entry_per_atom
  (L : xtal_cells.lattice_object Lattice)
  (atoms : list (xtal_cells.BasisAtom Lattice)) (coords : list (list float))
  (cartesian wrap : bool) (w : xtal_cells.world Lattice) :
  xtal_cells.self w = xtal_cells.blank Lattice ->
  (exists w',
     CrystalCell_init None (Some atoms) (Some coords) cartesian wrap
       (@xtal_cells.UCNone Lattice) SNone w = (Ok tt, w') /\
     xtal_cells.basis_atoms w' = Some atoms) /\
  (length atoms <> length coords ->
   exists w',
     CrystalCell_init (Some L) (Some atoms) (Some coords) cartesian wrap
       (@xtal_cells.UCNone Lattice) SNone w = (Ok tt, w') /\
     xtal_cells.basis_atoms w' = Some atoms) /\
  (length atoms = length coords ->
   Forall (fun pos => length pos = 3) coords ->
   exists w' atoms',
     CrystalCell_init (Some L) (Some atoms) (Some coords) false wrap
       (@xtal_cells.UCNone Lattice) SNone w = (Ok tt, w') /\
     xtal_cells.basis_atoms w' = Some atoms' /\
     map (@xtal_cells.labels Lattice) atoms'
     = map (fun atom => (xtal_cells.element atom, xtal_cells.mol atom,
                         xtal_cells.id atom, Some L)) atoms /\
     map (fun atom => [xtal_cells.xs atom; xtal_cells.ys atom; xtal_cells.zs atom])
         atoms' = coords).
Proof.
  destruct w as [s cs n]. cbn [xtal_cells.self]. intros ->.
  split; [|split].
  - eexists. split.
    + unfold xtal_cells.CrystalCell_init, xtal_cells.bind, xtal_cells.lift,
        xtal_cells.new_container, xtal_cells.ret, xtal_cells.set_basis,
        xtal_cells.set_lattice, xtal_cells.update_self, xtal_cells.get_self,
        xtal_cells.set_unit_cell, xtal_cells.set_scaling_matrix,
        xtal_cells.store_scaling_matrix, xtal_cells.bind, xtal_cells.update_container.
      cbn [xtal_cells.self xtal_cells.containers xtal_cells.lattices
           xtal_cells._basis xtal_cells._lattice].
      rewrite nth_error_app2 by lia. rewrite Nat.sub_diag. cbn [nth_error].
      reflexivity.
    + unfold xtal_cells.basis_atoms.
      cbn [xtal_cells.self xtal_cells._basis xtal_cells.containers].
      rewrite firstn_app, firstn_all, Nat.sub_diag. cbn [firstn].
      rewrite app_nil_r, nth_error_app2 by lia. rewrite Nat.sub_diag. reflexivity.
  - intros Hlen. apply Nat.eqb_neq in Hlen. eexists. split.
    + unfold xtal_cells.CrystalCell_init, xtal_cells.bind, xtal_cells.lift,
        xtal_cells.new_container, xtal_cells.ret, xtal_cells.set_basis,
        xtal_cells.set_lattice, xtal_cells.update_self, xtal_cells.get_self,
        xtal_cells.set_unit_cell, xtal_cells.set_scaling_matrix,
        xtal_cells.store_scaling_matrix, xtal_cells.bind, xtal_cells.update_container.
      rewrite Hlen.
      cbn [xtal_cells.self xtal_cells.containers xtal_cells.lattices
           xtal_cells._basis xtal_cells._lattice].
      rewrite nth_error_app2 by lia. rewrite Nat.sub_diag. cbn [nth_error].
      reflexivity.
    + unfold xtal_cells.basis_atoms.
      cbn [xtal_cells.self xtal_cells._basis xtal_cells.containers].
      rewrite firstn_app, firstn_all, Nat.sub_diag. cbn [firstn].
      rewrite app_nil_r, nth_error_app2 by lia. rewrite Nat.sub_diag. reflexivity.
  - intros Hlen Hc.
    destruct (place_all_fractional L atoms coords Hlen Hc)
      as (atoms' & Hrun & Hlab & Hxyz).
    apply Nat.eqb_eq in Hlen. eexists. exists atoms'. split; [|split].
    + unfold xtal_cells.CrystalCell_init, xtal_cells.bind, xtal_cells.lift,
        xtal_cells.new_container, xtal_cells.ret, xtal_cells.set_basis,
        xtal_cells.set_lattice, xtal_cells.update_self, xtal_cells.get_self,
        xtal_cells.set_unit_cell, xtal_cells.set_scaling_matrix,
        xtal_cells.store_scaling_matrix, xtal_cells.bind, xtal_cells.update_container.
      rewrite Hlen, Hrun.
      cbn [xtal_cells.self xtal_cells.containers xtal_cells.lattices
           xtal_cells._basis xtal_cells._lattice].
      rewrite nth_error_app2 by lia. rewrite Nat.sub_diag. cbn [nth_error].
      reflexivity.
    + unfold xtal_cells.basis_atoms.
      cbn [xtal_cells.self xtal_cells._basis xtal_cells.containers].
      rewrite firstn_app, firstn_all, Nat.sub_diag. cbn [firstn].
      rewrite app_nil_r, nth_error_app2 by lia. rewrite Nat.sub_diag. reflexivity.
    + split; assumption.
Qed.

End Construction.

(** ** The same over the sample lattice *)

Section SampleRebuilding.

Local Abbreviation sample_init :=
  (xtal_cells.CrystalCell_init SampleLattice.nd SampleLattice.lattice_matrix
     SampleLattice.from_cell_matrix SampleLattice.cartesian_to_fractional
     SampleLattice.wrap_fractional_coordinate
     SampleLattice.supercell_lattice_points SampleLattice.r).
Local Abbreviation sample_setter :=
  (xtal_cells.set_scaling_matrix SampleLattice.nd SampleLattice.lattice_matrix
     SampleLattice.from_cell_matrix SampleLattice.cartesian_to_fractional
     SampleLattice.wrap_fractional_coordinate
     SampleLattice.supercell_lattice_points SampleLattice.r).
Local Abbreviation sample_translate_basis :=
  (xtal_cells.translate_basis SampleLattice.cartesian_to_fractional
     SampleLattice.wrap_fractional_coordinate).

Lemma expansion_labels_witness :
  exists w' atoms' L',
    sample_init None None None false false
      (xtal_cells.UCObject SampleLattice.unit_cell0) (SInt 2) SampleLattice.world0
    = (Ok tt, w') /\
    xtal_cells._lattice (xtal_cells.self w') = Some L' /\
    xtal_cells.lattice_id L' = 1 /\
    xtal_cells.basis_atoms w' = Some atoms' /\
    map (@xtal_cells.labels SampleLattice.t) atoms'
    = flat_map (fun atom =>
                  map (fun i => (xtal_cells.element atom,
                                 (Z.of_nat i * 1 + xtal_cells.mol atom)%Z,
                                 xtal_cells.id atom, Some L'))
                      (seq 0 8))
               (xtal_cells.data SampleLattice.basis0).
Proof.
  apply (expansion_labels_every_replica
           SampleLattice.t SampleLattice.nd SampleLattice.lattice_matrix
           SampleLattice.from_cell_matrix SampleLattice.cartesian_to_fractional
           SampleLattice.wrap_fractional_coordinate
           SampleLattice.supercell_lattice_points SampleLattice.r
           (fun L => eq_refl) SampleLattice_matrix_columns
           (fun L pos => eq_refl) (fun L c => eq_refl) SampleLattice_r_3
           SampleLattice.unit_cell0 false (SInt 2)
           [[2; 0; 0]; [0; 2; 0]; [0; 0; 2]]%Z
           SampleLattice.world0 SampleLattice.lattice0
           (xtal_cells.data SampleLattice.basis0) 1%Z).
  - reflexivity.
  - reflexivity.
  - reflexivity.
  - reflexivity.
  - reflexivity.
  - reflexivity.
  - reflexivity.
  - repeat constructor.
  - repeat constructor.
Defined.

Lemma unit_cell_basis_witness :
  exists w' L',
    sample_init None None None false false
      (xtal_cells.UCObject SampleLattice.unit_cell0) (SInt 2) SampleLattice.world0
    = (Ok tt, w') /\
    xtal_cells._lattice (xtal_cells.self w') = Some L' /\
    L' <> SampleLattice.lattice0 /\
    nth_error (xtal_cells.containers w') 0
    = Some (xtal_cells.mk_atoms (Some L') (xtal_cells.data SampleLattice.basis0)) /\
    xtal_cells.unit_cell_atoms SampleLattice.unit_cell0 w'
    = Some (xtal_cells.data SampleLattice.basis0) /\
    xtal_cells._basis (xtal_cells.self w') = Some 1 /\
    (forall j, j <> 0 -> j < 1 ->
       nth_error (xtal_cells.containers w') j
       = nth_error (xtal_cells.containers SampleLattice.world0) j).
Proof.
  apply (expansion_gives_the_unit_cell_basis_the_new_lattice
           SampleLattice.t SampleLattice.nd SampleLattice.lattice_matrix
           SampleLattice.from_cell_matrix SampleLattice.cartesian_to_fractional
           SampleLattice.wrap_fractional_coordinate
           SampleLattice.supercell_lattice_points SampleLattice.r
           (fun L => eq_refl) SampleLattice_matrix_columns
           (fun L pos => eq_refl) (fun L c => eq_refl) SampleLattice_r_3
           SampleLattice.unit_cell0 false (SInt 2)
           [[2; 0; 0]; [0; 2; 0]; [0; 0; 2]]%Z
           SampleLattice.world0 SampleLattice.lattice0
           (xtal_cells.data SampleLattice.basis0)).
  - reflexivity.
  - reflexivity.
  - simpl. lia.
  - reflexivity.
  - discriminate.
  - reflexivity.
  - reflexivity.
  - reflexivity.
  - repeat constructor.
  - repeat constructor.
Defined.

Lemma wrong_size_witness :
  sample_setter (SList (A1 [2; 2]%Z)) (snd (Samples.built SNone))
  = (Raise ValueError,
     xtal_cells.mk_world
       (xtal_cells.mk_cell (Some 0) (Some SampleLattice.lattice0)
          (Some SampleLattice.unit_cell0) false (Some [[2; 0]; [0; 2]]%Z))
       [SampleLattice.basis0] 1).
Proof.
  apply (scaling_matrix_of_the_wrong_size_is_stored_before_the_error
           SampleLattice.t SampleLattice.nd SampleLattice.lattice_matrix
           SampleLattice.from_cell_matrix SampleLattice.cartesian_to_fractional
           SampleLattice.wrap_fractional_coordinate
           SampleLattice.supercell_lattice_points SampleLattice.r
           (fun L => eq_refl) SampleLattice_matrix_columns
           (SList (A1 [2; 2]%Z)) [[2; 0]; [0; 2]]%Z
           (xtal_cells.mk_cell (Some 0) (Some SampleLattice.lattice0)
              (Some SampleLattice.unit_cell0) false (Some ints.eye3))
           SampleLattice.lattice0 [SampleLattice.basis0] 1).
  - reflexivity.
  - reflexivity.
  - reflexivity.
  - exists [2; 0]%Z. split; [now left|simpl; lia].
Defined.

Lemma empty_basis_witness :
  exists cm,
    sample_setter (SInt 2)
      (xtal_cells.mk_world
         (xtal_cells.mk_cell (Some 0) (Some SampleLattice.lattice0) None false None)
         [xtal_cells.mk_atoms None []] 1)
    = (Raise ValueError,
       xtal_cells.mk_world
         (xtal_cells.mk_cell (Some 0)
            (Some (xtal_cells.mk_lattice 1
                     (SampleLattice.from_cell_matrix
                        (xtal_cells.lattice_value SampleLattice.lattice0) cm)))
            None false (Some [[2; 0; 0]; [0; 2; 0]; [0; 0; 2]]%Z))
         [xtal_cells.mk_atoms
            (Some (xtal_cells.mk_lattice 1
                     (SampleLattice.from_cell_matrix
                        (xtal_cells.lattice_value SampleLattice.lattice0) cm))) []]
         2).
Proof.
  apply (expansion_of_an_empty_basis_fails_half_way
           SampleLattice.t SampleLattice.nd SampleLattice.lattice_matrix
           SampleLattice.from_cell_matrix SampleLattice.cartesian_to_fractional
           SampleLattice.wrap_fractional_coordinate
           SampleLattice.supercell_lattice_points SampleLattice.r
           (fun L => eq_refl) SampleLattice_matrix_columns
           (SInt 2) [[2; 0; 0]; [0; 2; 0]; [0; 0; 2]]%Z
           SampleLattice.lattice0 0 None false None
           [xtal_cells.mk_atoms None []] 1 (xtal_cells.mk_atoms None [])).
  - reflexivity.
  - reflexivity.
  - reflexivity.
  - reflexivity.
  - reflexivity.
  - repeat constructor.
  - repeat constructor.
Defined.

Lemma translate_basis_witness :
  exists atoms',
    sample_translate_basis [0.5; 0; 0]%float false true (snd (Samples.built SNone))
    = (Ok tt,
       xtal_cells.mk_world
         (xtal_cells.mk_cell (Some 1) (Some SampleLattice.lattice0)
            (Some SampleLattice.unit_cell0) false (Some ints.eye3))
         ([SampleLattice.basis0] ++ [xtal_cells.mk_atoms None atoms']) 1) /\
    length atoms' = 2 /\
    map (@xtal_cells.labels SampleLattice.t) atoms'
    = [("C"%string, 1%Z, 0%Z, Some SampleLattice.lattice0);
       ("C"%string, 1%Z, 0%Z, Some SampleLattice.lattice0)].
Proof.
  apply (translate_basis_rebuilds_the_basis_atom_by_atom
           SampleLattice.t SampleLattice.cartesian_to_fractional
           SampleLattice.wrap_fractional_coordinate
           (fun L pos => eq_refl) (fun L c => eq_refl)
           [0.5; 0; 0]%float false true
           (xtal_cells.mk_cell (Some 0) (Some SampleLattice.lattice0)
              (Some SampleLattice.unit_cell0) false (Some ints.eye3))
           SampleLattice.lattice0 0 SampleLattice.basis0 [SampleLattice.basis0] 1).
  - reflexivity.
  - reflexivity.
  - reflexivity.
  - right; left; reflexivity.
Defined.

Lemma translate_basis_wrong_size_witness :
  exists w',
    sample_translate_basis [0.5; 0]%float false true (snd (Samples.built SNone))
    = (Raise ValueError, w') /\
    xtal_cells.basis_atoms w' = Some [] /\
    xtal_cells._basis (xtal_cells.self w') = Some 1 /\
    nth_error (xtal_cells.containers w') 0 = Some SampleLattice.basis0.
Proof.
  apply (translate_basis_of_the_wrong_size_empties_the_basis
           SampleLattice.t SampleLattice.cartesian_to_fractional
           SampleLattice.wrap_fractional_coordinate
           [0.5; 0]%float true
           (xtal_cells.mk_cell (Some 0) (Some SampleLattice.lattice0)
              (Some SampleLattice.unit_cell0) false (Some ints.eye3))
           0 SampleLattice.basis0 [SampleLattice.basis0] 1).
  - reflexivity.
  - reflexivity.
  - discriminate.
  - simpl; lia.
  - simpl; lia.
Defined.

Lemma reset_witness :
  exists w' w'' L',
    sample_init None None None false false
      (xtal_cells.UCObject SampleLattice.unit_cell0) (SInt 2) SampleLattice.world0
    = (Ok tt, w') /\
    xtal_cells.update_lattice_and_basis true None w' = (Ok tt, w'') /\
    xtal_cells._basis (xtal_cells.self w'') = Some 0 /\
    xtal_cells._lattice (xtal_cells.self w'') = Some SampleLattice.lattice0 /\
    xtal_cells.basis_atoms w'' = Some (xtal_cells.data SampleLattice.basis0) /\
    xtal_cells._scaling_matrix (xtal_cells.self w'')
    = Some [[2; 0; 0]; [0; 2; 0]; [0; 0; 2]]%Z /\
    option_map (@xtal_cells.atoms_lattice SampleLattice.t)
      (nth_error (xtal_cells.containers w'') 0) = Some (Some L') /\
    L' <> SampleLattice.lattice0.
Proof.
  apply (reset_to_the_unit_cell_keeps_the_scaling_matrix
           SampleLattice.t SampleLattice.nd SampleLattice.lattice_matrix
           SampleLattice.from_cell_matrix SampleLattice.cartesian_to_fractional
           SampleLattice.wrap_fractional_coordinate
           SampleLattice.supercell_lattice_points SampleLattice.r
           (fun L => eq_refl) SampleLattice_matrix_columns
           (fun L pos => eq_refl) (fun L c => eq_refl) SampleLattice_r_3
           SampleLattice.unit_cell0 false (SInt 2)
           [[2; 0; 0]; [0; 2; 0]; [0; 0; 2]]%Z
           SampleLattice.world0 SampleLattice.lattice0
           (xtal_cells.data SampleLattice.basis0)).
  - reflexivity.
  - reflexivity.
  - simpl. lia.
  - reflexivity.
  - discriminate.
  - reflexivity.
  - reflexivity.
  - reflexivity.
  - repeat constructor.
  - repeat constructor.
Defined.

Lemma molecule_ids_witness :
  (Z.of_nat 3 * 1 < Z.of_nat 3 * 1 + 1 <= (Z.of_nat 3 + 1) * 1)%Z /\
  ((Z.of_nat 3 * 1 + 1 = Z.of_nat 5 * 1 + 1)%Z -> 3 = 5 /\ 1%Z = 1%Z).
Proof.
  apply (replica_molecule_ids_do_not_collide SampleLattice.t
           (xtal_cells.data SampleLattice.basis0) 1%Z
           (SampleLattice.carbon 0 0 0) (SampleLattice.carbon 0.5 0.5 0) 3 5).
  - reflexivity.
  - intros c [<-|[<-|[]]]; simpl; lia.
  - now left.
  - right; now left.
Defined.

Lemma equality_of_cells_witness :
  xtal_cells.__eq__ (fun _ _ => true) false
    (xtal_cells.self (snd (Samples.built SNone)))
    (xtal_cells.self (snd (Samples.built (SNdarray (A1 [1; 1; 1]%Z)))))
  = Ok (Some false) /\
  xtal_cells.__eq__ (fun _ _ => true) true
    (xtal_cells.mk_cell None (Some SampleLattice.lattice0) None false (Some ints.eye3))
    (xtal_cells.mk_cell None (Some SampleLattice.lattice0) None false (Some ints.eye3))
  = Ok None.
Proof.
  split.
  - apply (proj1 (proj2 (equality_of_cells_needs_unit_cells SampleLattice.t
                             (fun _ _ => true) false
                             (xtal_cells.self (snd (Samples.built SNone)))
                             (xtal_cells.self
                                (snd (Samples.built (SNdarray (A1 [1; 1; 1]%Z)))))
                             ints.eye3 [[1; 1; 1]]%Z eq_refl eq_refl)
                      SampleLattice.unit_cell0 SampleLattice.unit_cell0
                      eq_refl eq_refl)).
    vm_compute. intros H. discriminate H.
  - apply (proj1 (equality_of_cells_needs_unit_cells SampleLattice.t
                    (fun _ _ => true) true
                    (xtal_cells.mk_cell None (Some SampleLattice.lattice0) None false
                       (Some ints.eye3))
                    (xtal_cells.mk_cell None (Some SampleLattice.lattice0) None false
                       (Some ints.eye3))
                    ints.eye3 ints.eye3 eq_refl eq_refl)).
    now left.
Defined.

Lemma positions_witness :
  exists w',
    sample_init (Some SampleLattice.lattice0)
      (Some (xtal_cells.data SampleLattice.basis0)) (Some [[0.25; 0.25; 0.5]%float])
      false false (@xtal_cells.UCNone SampleLattice.t) SNone
      (xtal_cells.mk_world (xtal_cells.blank SampleLattice.t) [] 1)
    = (Ok tt, w') /\
    xtal_cells.basis_atoms w' = Some (xtal_cells.data SampleLattice.basis0).
Proof.
  apply (positions_need_a_lattice_and_one_entry_per_atom
           SampleLattice.t SampleLattice.nd SampleLattice.lattice_matrix
           SampleLattice.from_cell_matrix SampleLattice.cartesian_to_fractional
           SampleLattice.wrap_fractional_coordinate
           SampleLattice.supercell_lattice_points SampleLattice.r
           SampleLattice.lattice0 (xtal_cells.data SampleLattice.basis0)
           [[0.25; 0.25; 0.5]%float] false false
           (xtal_cells.mk_world (xtal_cells.blank SampleLattice.t) [] 1)).
  - reflexivity.
  - simpl. lia.
Defined.

End SampleRebuilding.

(** * Further properties of the atom containers *)

Section Indexing.

Lemma nth_error_insert_at {A : Type} (l : list A) (i : nat) (a : A) :
  i <= length l -> nth_error (firstn i l ++ a :: skipn i l) i = Some a.
Proof.
  intros H. rewrite nth_error_app2; rewrite length_firstn, Nat.min_l by lia; [|lia].
  now rewrite Nat.sub_diag.
Qed.

Lemma length_insert_at {A : Type} (l : list A) (i : nat) (a : A) :
  length (firstn i l ++ a :: skipn i l) = S (length l).
Proof.
  rewrite length_app. cbn [length]. rewrite length_firstn, length_skipn. lia.
Qed.

Lemma delete_inserted {A : Type} (l : list A) (i : nat) (a : A) :
  i <= length l ->
  firstn i (firstn i l ++ a :: skipn i l)
  ++ skipn (S i) (firstn i l ++ a :: skipn i l) = l.
Proof.
  intros H.
  assert (Hf : length (firstn i l) = i) by (rewrite length_firstn; lia).
  rewrite firstn_app, Hf, Nat.sub_diag, firstn_firstn, Nat.min_id. cbn [firstn].
  rewrite app_nil_r.
  assert (E : skipn (S i) (firstn i l) = []) by (apply skipn_all2; lia).
  rewrite skipn_app, Hf, E.
  replace (S i - i) with 1 by lia. cbn [skipn app]. apply firstn_skipn.
Qed.

Lemma list_insert_fits {A : Type} (l : list A) (index : BinNums.Z) (a : A) :
  (py.ssize_t_min <= index <= py.ssize_t_max)%Z ->
  py.list_insert l index a
  = Ok (let n := Z.of_nat (length l) in
        let i := if (index <? 0)%Z then Z.max 0 (index + n) else Z.min index n in
        firstn (Z.to_nat i) l ++ a :: skipn (Z.to_nat i) l).
Proof.
  intros H. unfold py.list_insert.
  assert (E : ((py.ssize_t_min <=? index) && (index <=? py.ssize_t_max))%Z = true).
  { apply andb_true_iff. split; apply Z.leb_le; lia. }
  now rewrite E.
Qed.

Lemma list_insert_overflow {A : Type} (l : list A) (index : BinNums.Z) (a : A) :
  (index < py.ssize_t_min \/ py.ssize_t_max < index)%Z ->
  py.list_insert l index a = Raise OverflowError.
Proof.
  intros H. unfold py.list_insert.
  assert (E : ((py.ssize_t_min <=? index) && (index <=? py.ssize_t_max))%Z = false).
  { apply andb_false_iff. destruct H; [left|right]; apply Z.leb_gt; lia. }
  now rewrite E.
Qed.

Lemma list_insert_beyond {A : Type} (l : list A) (index : BinNums.Z) (a : A) :
  (index <= py.ssize_t_max)%Z ->
  (Z.of_nat (length l) <= index)%Z -> py.list_insert l index a = Ok (l ++ [a]).
Proof.
  intros Hmax H. rewrite list_insert_fits by (unfold py.ssize_t_min; lia).
  cbv zeta.
  assert (E1 : (index <? 0)%Z = false) by (apply Z.ltb_ge; lia).
  rewrite E1, Z.min_r, Nat2Z.id by lia.
  now rewrite firstn_all, skipn_all.
Qed.

Lemma list_insert_before {A : Type} (l : list A) (index : BinNums.Z) (a : A) :
  (py.ssize_t_min <= index)%Z ->
  (index <= - Z.of_nat (length l))%Z -> (index < 0)%Z ->
  py.list_insert l index a = Ok (a :: l).
Proof.
  intros Hmin H H0. rewrite list_insert_fits by (unfold py.ssize_t_max; lia).
  cbv zeta.
  assert (E1 : (index <? 0)%Z = true) by (apply Z.ltb_lt; lia).
  rewrite E1, Z.max_l by lia. reflexivity.
Qed.

Lemma list_insert_within {A : Type} (l : list A) (index : BinNums.Z) (a : A) :
  (py.ssize_t_min <= index <= py.ssize_t_max)%Z ->
  (- Z.of_nat (length l) <= index <= Z.of_nat (length l))%Z ->
  exists i, i <= length l /\
            Z.of_nat i = (if (index <? 0)%Z then index + Z.of_nat (length l) else index)%Z /\
            py.list_insert l index a = Ok (firstn i l ++ a :: skipn i l).
Proof.
  intros Hfit H. rewrite list_insert_fits by exact Hfit. cbv zeta.
  destruct (index <? 0)%Z eqn:E1;
    [apply Z.ltb_lt in E1; rewrite Z.max_r by lia
    |apply Z.ltb_ge in E1; rewrite Z.min_l by lia];
    eexists; (split; [|split; [|reflexivity]]); lia.
Qed.

Lemma list_insert_length {A : Type} (l l' : list A) (index : BinNums.Z) (a : A) :
  py.list_insert l index a = Ok l' -> length l' = S (length l).
Proof.
  unfold py.list_insert.
  destruct ((py.ssize_t_min <=? index) && (index <=? py.ssize_t_max))%Z;
    [|discriminate].
  intros [= <-]. apply length_insert_at.
Qed.

Lemma position_of (n : nat) (index : BinNums.Z) (i : nat) :
  i < n ->
  Z.of_nat i = (if (index <? 0)%Z then index + Z.of_nat n else index)%Z ->
  py.position n index = Some i.
Proof.
  intros Hi E. unfold py.position. rewrite <- E.
  assert (E2 : ((0 <=? Z.of_nat i) && (Z.of_nat i <? Z.of_nat n))%Z = true).
  { apply andb_true_iff. split; [apply Z.leb_le|apply Z.ltb_lt]; lia. }
  now rewrite E2, Nat2Z.id.
Qed.


Lemma position_in_range (n : nat) (index : BinNums.Z) (i : nat) :
  py.position n index = Some i -> i < n.
Proof.
  unfold py.position.
  destruct (index <? 0)%Z;
    match goal with
    | |- context [if ?c then _ else _] => destruct c eqn:E
    end; try discriminate; intros [= <-];
    apply andb_true_iff in E; destruct E as (E1 & E2);
    apply Z.leb_le in E1; apply Z.ltb_lt in E2; lia.
Qed.

(** X25.  Reading, writing and deleting by index agree on the indices they
    accept: all three raise [IndexError] outside of
    [-len(atoms) .. len(atoms) - 1].  After [atoms[index] = atom] the
    container is as long as before and [atoms[index]] is the atom;
    [del atoms[index]] makes it one atom shorter. *)
Theorem indexing_accepts_the_same_indices
  (data : list Atom.t) (index : BinNums.Z) (atom : Atom.t) :
  let n := Z.of_nat (Atoms.__len__ data) in
  ((index < - n \/ n <= index)%Z ->
   Atoms.__getitem__ data index = py.IndexError /\
   Atoms.__setitem__ data index atom = py.IndexError /\
   Atoms.__delitem__ data index = py.IndexError) /\
  ((- n <= index < n)%Z ->
   (exists a, Atoms.__getitem__ data index = py.Found a) /\
   (exists data',
      Atoms.__setitem__ data index atom = py.Found data' /\
      Atoms.__len__ data' = Atoms.__len__ data /\
      Atoms.__getitem__ data' index = py.Found atom) /\
   (exists data',
      Atoms.__delitem__ data index = py.Found data' /\
      S (Atoms.__len__ data') = Atoms.__len__ data)).
Proof.
  unfold Atoms.__len__, Atoms.__getitem__, Atoms.__setitem__, Atoms.__delitem__,
    py.list_getitem, py.list_setitem, py.list_delitem.
  cbv zeta. split.
  - intros H.
    assert (P : py.position (length data) index = None).
    { unfold py.position.
      destruct (index <? 0)%Z eqn:E1;
        [apply Z.ltb_lt in E1|apply Z.ltb_ge in E1];
        match goal with
        | |- context [if ?c then _ else _] => destruct c eqn:E
        end; try reflexivity;
        apply andb_true_iff in E; destruct E as (E2 & E3);
        apply Z.leb_le in E2; apply Z.ltb_lt in E3; lia. }
    rewrite P. repeat split.
  - intros H.
    assert (P : exists i, py.position (length data) index = Some i).
    { unfold py.position.
      destruct (index <? 0)%Z eqn:E1;
        [apply Z.ltb_lt in E1|apply Z.ltb_ge in E1];
        match goal with
        | |- context [if ?c then _ else _] => destruct c eqn:E
        end; try (eexists; reflexivity);
        apply andb_false_iff in E; destruct E as [E|E];
        [apply Z.leb_gt in E|apply Z.ltb_ge in E|apply Z.leb_gt in E|apply Z.ltb_ge in E];
        lia. }
    destruct P as (i & P). pose proof (position_in_range _ _ _ P) as Hi.
    rewrite P. split; [|split].
    + destruct (nth_error data i) as [a|] eqn:E; [now exists a|].
      apply nth_error_None in E. lia.
    + eexists. split; [reflexivity|].
      assert (L : length (firstn i data ++ atom :: skipn (S i) data) = length data).
      { rewrite length_app. cbn [length]. rewrite length_firstn, length_skipn. lia. }
      split; [exact L|]. rewrite L, P.
      rewrite nth_error_app2; rewrite length_firstn, Nat.min_l by lia; [|lia].
      now rewrite Nat.sub_diag.
    + eexists. split; [reflexivity|].
      rewrite length_app, length_firstn, length_skipn. lia.
Qed.

End Indexing.

Section Counting.

Lemma dict_get_set (d : py.counts) (k k' : BinNums.Z) (n default : nat) :
  py.dict_get (py.dict_set d k n) k' default
  = if Z.eqb k k' then n else py.dict_get d k' default.
Proof.
  induction d as [|[k0 n0] d IH]; cbn [py.dict_set py.dict_get].
  - reflexivity.
  - destruct (Z.eqb_spec k0 k) as [->|Hk]; cbn [py.dict_get].
    + destruct (Z.eqb k k'); reflexivity.
    + rewrite IH. destruct (Z.eqb_spec k0 k') as [->|Hk'].
      * destruct (Z.eqb_spec k k'); [congruence|reflexivity].
      * reflexivity.
Qed.

Lemma Counter_fold (l : list BinNums.Z) (d : py.counts) (k : BinNums.Z) :
  py.dict_get
    (fold_left (fun d elem => py.dict_set d elem (py.dict_get d elem 0 + 1)) l d) k 0
  = py.dict_get d k 0 + count_occ Z.eq_dec l k.
Proof.
  revert d; induction l as [|e l IH]; intros d; cbn [fold_left count_occ].
  - lia.
  - rewrite IH, dict_get_set.
    destruct (Z.eq_dec e k) as [E|E].
    + subst e. rewrite Z.eqb_refl. lia.
    + apply Z.eqb_neq in E. rewrite E. lia.
Qed.

Lemma total_set (d : py.counts) (k : BinNums.Z) :
  list_sum (map snd (py.dict_set d k (py.dict_get d k 0 + 1)))
  = S (list_sum (map snd d)).
Proof.
  induction d as [|[k0 n0] d IH]; cbn [py.dict_set py.dict_get map snd list_sum fold_right].
  - reflexivity.
  - destruct (Z.eqb k0 k); cbn [map snd list_sum fold_right].
    + lia.
    + unfold list_sum in IH. rewrite IH. lia.
Qed.

Lemma Counter_total (l : list BinNums.Z) (d : py.counts) :
  list_sum (map snd
    (fold_left (fun d elem => py.dict_set d elem (py.dict_get d elem 0 + 1)) l d))
  = list_sum (map snd d) + length l.
Proof.
  revert d; induction l as [|e l IH]; intros d; cbn [fold_left length].
  - lia.
  - rewrite IH, total_set. lia.
Qed.

Lemma dict_set_keys (d : py.counts) (k : BinNums.Z) (n : nat) :
  map fst (py.dict_set d k n)
  = if existsb (Z.eqb k) (map fst d) then map fst d else map fst d ++ [k].
Proof.
  induction d as [|[k0 n0] d IH]; cbn [py.dict_set map fst existsb].
  - reflexivity.
  - destruct (Z.eqb_spec k0 k) as [->|Hk].
    + rewrite Z.eqb_refl. reflexivity.
    + cbn [map fst]. rewrite IH.
      destruct (Z.eqb_spec k k0); [congruence|]. cbn [orb].
      destruct (existsb _ _); reflexivity.
Qed.

Lemma dict_set_NoDup (d : py.counts) (k : BinNums.Z) (n : nat) :
  NoDup (map fst d) -> NoDup (map fst (py.dict_set d k n)).
Proof.
  intros H. rewrite dict_set_keys.
  destruct (existsb (Z.eqb k) (map fst d)) eqn:E; [exact H|].
  apply NoDup_app; [exact H|repeat constructor; intros []|].
  intros x Hx [Hk|[]]. subst x.
  assert (T : existsb (Z.eqb k) (map fst d) = true).
  { apply existsb_exists. exists k. split; [exact Hx|apply Z.eqb_refl]. }
  congruence.
Qed.

Lemma Counter_NoDup (l : list BinNums.Z) (d : py.counts) :
  NoDup (map fst d) ->
  NoDup (map fst
    (fold_left (fun d elem => py.dict_set d elem (py.dict_get d elem 0 + 1)) l d)).
Proof.
  revert d; induction l as [|e l IH]; intros d H; cbn [fold_left]; [exact H|].
  apply IH. now apply dict_set_NoDup.
Qed.

(** X26.  [coordination_number_counts] (and its aliases
    [coordination_counts] and [CN_counts]) counts the atoms of each
    coordination number: the count under [k] is the number of atoms
    with [CN == k], zero for a number no atom has; every coordination
    number is listed once; the counts add up to the number of atoms;
    and sorting the atoms, by any key and in either direction, changes
    no count. *)
Theorem coordination_number_counts_count_the_atoms
  (data : list Atom.t) (k : BinNums.Z) :
  py.Counter_getitem (CNAtoms.coordination_number_counts data) k
  = length (filter (fun a => Z.eqb (Atom.CN a) k) data) /\
  NoDup (map fst (CNAtoms.coordination_number_counts data)) /\
  list_sum (map snd (CNAtoms.coordination_number_counts data)) = Atoms.Natoms data /\
  (forall key reverse,
     py.Counter_getitem
       (CNAtoms.coordination_number_counts (CNAtoms.sort key reverse data)) k
     = py.Counter_getitem (CNAtoms.coordination_number_counts data) k) /\
  CNAtoms.coordination_counts data = CNAtoms.coordination_number_counts data /\
  CNAtoms.CN_counts data = CNAtoms.coordination_number_counts data.
Proof.
  assert (G : forall l : list Atom.t,
             py.Counter_getitem (CNAtoms.coordination_number_counts l) k
             = count_occ Z.eq_dec (map Atom.CN l) k).
  { intros l. unfold py.Counter_getitem, CNAtoms.coordination_number_counts,
      py.Counter, CNAtoms.coordination_numbers.
    rewrite Counter_fold. reflexivity. }
  split; [|split; [|split; [|split]]].
  - rewrite G. induction data as [|a data IH]; cbn [map count_occ filter]; [reflexivity|].
    destruct (Z.eq_dec (Atom.CN a) k) as [E|E].
    + apply Z.eqb_eq in E. rewrite E. cbn [length]. now rewrite IH.
    + apply Z.eqb_neq in E. now rewrite E.
  - apply Counter_NoDup. constructor.
  - unfold CNAtoms.coordination_number_counts, py.Counter,
      CNAtoms.coordination_numbers, Atoms.Natoms.
    rewrite Counter_total, length_map. reflexivity.
  - intros key reverse. rewrite !G.
    apply Permutation_count_occ. apply Permutation_map. apply Permutation_sym.
    unfold CNAtoms.sort, Atoms.sort.
    destruct key as [|[k0|]]; apply list_sort_permutation.
  - split; reflexivity.
Qed.

End Counting.

(** * Properties of the graphene structure classes *)

Section LayerRotation.
Local Open Scope float_scope.

(** X27.  The rotation angles of the layers that [GrapheneBase] stores.
    There is one angle per layer, whatever is passed.  A sequence with
    another number of entries than layers is not an error: all angles
    are then zero.  A number is the angle of every layer.  The
    increment counts only when no angles are given, and then layer
    [k] has [k] times the increment.  Angles taken from the arguments
    are converted to radians when [degrees] asks for it.  Each of the
    keyword arguments [deg2rad] and [layer_rotation_angle], when it is
    given (alone or with the other), takes the place of [degrees] and
    of [layer_rotation_angles]. *)
Theorem one_rotation_angle_per_layer
  (nlayers : nat) (a : graphene.angles) (increment : option float)
  (degrees : bool) (deg2rad : option bool) (alias : option graphene.angles) :
  let convert := fun x => if degrees then np.radians x else x in
  length (graphene.layer_rotation_angles nlayers a increment degrees deg2rad alias)
  = nlayers /\
  (forall l, length l <> nlayers ->
     graphene.layer_rotation_angles nlayers (graphene.AnglesSequence l)
       increment degrees None None
     = repeat 0 nlayers) /\
  (forall l, length l = nlayers ->
     graphene.layer_rotation_angles nlayers (graphene.AnglesSequence l)
       increment degrees None None
     = map convert l) /\
  (forall x,
     graphene.layer_rotation_angles nlayers (graphene.AnglesNumber x)
       increment degrees None None
     = repeat (convert (x * 1)) nlayers) /\
  (forall inc,
     graphene.layer_rotation_angles nlayers graphene.AnglesNone (Some inc)
       degrees None None
     = map (fun k => convert (inc * ints.to_float (Z.of_nat k))) (seq 0 nlayers)) /\
  graphene.layer_rotation_angles nlayers graphene.AnglesNone None degrees None None
  = repeat 0 nlayers /\
  graphene.layer_rotation_angles nlayers a increment degrees deg2rad alias
  = graphene.layer_rotation_angles nlayers
      (match alias with Some a' => a' | None => a end) increment
      (match deg2rad with Some d => d | None => degrees end) None None.
Proof.
  cbv zeta.
  assert (R : forall (f : float -> float) (c : float) (n : nat),
             map f (repeat c n) = repeat (f c) n).
  { intros f c n. induction n as [|n IH]; simpl; [reflexivity|now rewrite IH]. }
  split; [|split; [|split; [|split; [|split; [|split]]]]].
  - unfold graphene.layer_rotation_angles.
    destruct increment as [inc|],
      (match alias with Some a0 => a0 | None => a end) as [|x|l];
      cbv beta iota;
      try (destruct (Nat.eqb_spec (length l) nlayers) as [E|E]);
      destruct (match deg2rad with Some d => d | None => degrees end);
      unfold graphene.arange, graphene.ones, graphene.zeros;
      rewrite ?length_map, ?length_map, ?length_seq, ?repeat_length; auto.
  - intros l H. apply Nat.eqb_neq in H.
    unfold graphene.layer_rotation_angles. destruct increment; now rewrite H.
  - intros l H. apply Nat.eqb_eq in H.
    unfold graphene.layer_rotation_angles.
    destruct increment; rewrite H; destruct degrees; try reflexivity;
      symmetry; apply map_id.
  - intros x. unfold graphene.layer_rotation_angles, graphene.ones.
    destruct increment; destruct degrees; rewrite ?R; reflexivity.
  - intros inc. unfold graphene.layer_rotation_angles, graphene.arange.
    destruct degrees; rewrite !map_map; reflexivity.
  - reflexivity.
  - reflexivity.
Qed.

End LayerRotation.
